(** * The QEMU hypervisor controller of kata-runtime (virtcontainers)

    A shallow embedding of the parts of [virtcontainers/qemu.go] and
    [virtcontainers/qemu_arch_base.go] that the properties below speak
    about, followed by the properties themselves.

    Conventions of the embedding.
    - A Go [uint32] is an [N] taken modulo [2^32] wherever the source can
      wrap; a Go [int] is a [Z]; [len] of a slice is a [nat].
    - A Go [error] is a [string] (its message); [option error] with [None]
      for [nil].  A Go result [(v, err)] is a pair, both components kept,
      because the source returns meaningful values next to an error.
    - A Go [map[uint32]string] is a [gmap N string].
    - The receiver [q *qemu] is threaded explicitly.  What the controller
      does to the outside (QMP commands, log lines, state persistence,
      removal of directories) is recorded, in order, in a trace of
      [Event]s; what the outside answers is given by a [Host]. *)

From Stdlib Require Import Ascii String.
From stdpp Require Import base gmap list strings numbers.

Local Open Scope string_scope.
Local Open Scope list_scope.
Local Open Scope N_scope.

Definition error := string.

(** ** Go's [fmt] and [strconv], as far as the controller uses them *)

Module fmt.

Definition digitChar (d : N) : ascii :=
  nth (N.to_nat d) (String.list_ascii_of_string "0123456789abcdef") "0"%char.

(** The digits of [n] in base [base], most significant first, in front
    of [acc]. *)
Fixpoint digits (base : N) (fuel : nat) (n : N) (acc : string) : string :=
  match fuel with
  | O => acc
  | S fuel' =>
      let acc' := String (digitChar (n mod base)) acc in
      if n / base =? 0 then acc' else digits base fuel' (n / base) acc'
  end.

Definition FormatUint (base n : N) : string :=
  digits base (S (N.to_nat (N.log2 n))) n "".

(** [%d] of an unsigned value and of an [int]. *)
Definition Sprintf_d (n : N) : string := FormatUint 10 n.

Definition Sprintf_dZ (z : Z) : string :=
  if (z <? 0)%Z then "-" +:+ FormatUint 10 (Z.abs_N z)
  else FormatUint 10 (Z.abs_N z).

Fixpoint zeros (k : nat) : string :=
  match k with O => "" | S k' => String "0"%char (zeros k') end.

(** [%0wx]: lower-case hexadecimal, padded with zeros on the left to a
    width of at least [w]; a wider value is printed in full. *)
Definition Sprintf_0x (w : nat) (n : N) : string :=
  let s := FormatUint 16 n in
  zeros (w - String.length s) +:+ s.

Definition isHexDigit (c : ascii) : bool :=
  bool_decide (c ∈ String.list_ascii_of_string "0123456789abcdef").

Definition allHex (s : string) : bool :=
  forallb isHexDigit (String.list_ascii_of_string s).

(** [%x] of a string: the bytes of the string, two digits each. *)
Definition Sprintf_xs (s : string) : string :=
  fold_right (λ c acc, Sprintf_0x 2 (N.of_nat (nat_of_ascii c)) +:+ acc) ""
    (String.list_ascii_of_string s).

(** [strconv.FormatBool] *)
Definition FormatBool (b : bool) : string := if b then "true" else "false".

End fmt.

(** [strings.Join] *)
Fixpoint Join (elems : list string) (sep : string) : string :=
  match elems with
  | [] => ""
  | [s] => s
  | s :: rest => s +:+ sep +:+ Join rest sep
  end.

(** ** [types.Bridge] *)

(** The capacities of a PCI(e) and of a CCW bridge are the constants
    [PCIBridgeMaxCapacity] and [CCWBridgeMaxCapacity] of
    [virtcontainers/types/bridges.go], a file that is not among the
    sources.  They are parameters of the development. *)
Class BridgeCapacity := {
  PCIBridgeMaxCapacity : N;
  CCWBridgeMaxCapacity : N
}.

Module types.

(** [type Type string] ([Type] is reserved in Rocq): the three bus
    types the controller knows, and any other string. *)
Inductive BusType :=
| PCI
| PCIE
| CCW
| OtherType (name : string).

Global Instance BusType_eq_dec : EqDecision BusType.
Proof. solve_decision. Defined.

Definition Type_name (t : BusType) : string :=
  match t with
  | PCI => "pci"
  | PCIE => "pcie"
  | CCW => "ccw"
  | OtherType s => s
  end.

Record Bridge := NewBridge_ {
  (** devices plugged and their address (slot) in the bridge *)
  Address : gmap N string;
  Type_ : BusType;
  ID : string;
  (** the slot of the bridge itself on its bus *)
  Addr : Z
}.

Definition NewBridge (bt : BusType) (id : string) (devices : gmap N string) (addr : Z)
  : Bridge :=
  {| Address := devices; Type_ := bt; ID := id; Addr := addr |}.

Definition set_Address (b : Bridge) (m : gmap N string) : Bridge :=
  {| Address := m; Type_ := Type_ b; ID := ID b; Addr := Addr b |}.

Definition set_Addr (b : Bridge) (a : Z) : Bridge :=
  {| Address := Address b; Type_ := Type_ b; ID := ID b; Addr := a |}.

Section Capacity.
Context `{BridgeCapacity}.

Definition maxCapacity (t : BusType) : option N :=
  match t with
  | PCI | PCIE => Some PCIBridgeMaxCapacity
  | CCW => Some CCWBridgeMaxCapacity
  | OtherType _ => None
  end.

(** The first slot from [i] on, among [fuel] slots, that no device
    occupies. *)
Fixpoint firstFree (m : gmap N string) (fuel : nat) (i : N) : option N :=
  match fuel with
  | O => None
  | S fuel' =>
      match m !! i with
      | None => Some i
      | Some _ => firstFree m fuel' (i + 1)
      end
  end.

(** Modelled from the spec: [Bridge.AddDevice] is declared in
    [types/bridges.go], which is not among the sources.  §4.2: the
    allocation "returns the first free slot"; §3: "slot indices are
    unique within a bridge; slot 0 is reserved".  The slots of a
    bridge are [1 .. maxCapacity]; the device is recorded in the
    slot map, which the bridge shares with every copy of it. *)
Definition AddDevice (b : Bridge) (id : string) : (N * option error) * Bridge :=
  match maxCapacity (Type_ b) with
  | None =>
      ((0, Some ("Bridge type " +:+ Type_name (Type_ b) +:+ " is not supported")), b)
  | Some cap =>
      match firstFree (Address b) (N.to_nat cap) 1 with
      | None =>
          ((0, Some "Unable to hot plug device on bridge: there are no empty slots"), b)
      | Some addr => ((addr, None), set_Address b (<[addr := id]> (Address b)))
      end
  end.

End Capacity.

(** Modelled from the spec: [Bridge.RemoveDevice] is declared in
    [types/bridges.go], which is not among the sources.  §4.2:
    "release(deviceID) ... removes the mapping; releasing an unknown id
    is a hard error".  Should the id occupy several slots, one of them
    is freed (Go leaves the order of a map's traversal open; the model
    takes the first of [map_to_list]). *)
Definition RemoveDevice (b : Bridge) (id : string) : option error * Bridge :=
  match List.find (fun kv => bool_decide (kv.2 = id)) (map_to_list (Address b)) with
  | Some (addr, _) => (None, set_Address b (delete addr (Address b)))
  | None =>
      (Some ("Unable to hot unplug device " +:+ id +:+ ": not present on bridge"), b)
  end.

End types.

(** ** The types of the QEMU library ([govmm/qemu]) the controller fills in *)

Module govmmQemu.

Record Machine := {
  Machine_Type : string;
  Machine_Acceleration : string;
  Machine_Options : string
}.

Record SMP := {
  CPUs : N;
  Cores : N;
  Threads : N;
  Sockets : N;
  MaxCPUs : N
}.

Record Memory := {
  Size : string;
  Slots : N;
  MaxMem : string;
  Path : string
}.

Record Knobs := {
  NoUserConfig : bool;
  NoDefaults : bool;
  NoGraphic : bool;
  Daemonize : bool;
  HugePages : bool;
  MemPrealloc : bool;
  FileBackedMem : bool;
  MemShared : bool;
  Mlock : bool;
  Stopped : bool;
  Realtime : bool
}.

Record Kernel := {
  Kernel_Path : string;
  Kernel_InitrdPath : string;
  Kernel_Params : string
}.

Inductive MigrationType := MigrationNone | MigrationFD | MigrationExec | MigrationDefer.

Record Incoming := { Incoming_MigrationType : MigrationType }.

Record RTC := { RTC_Base : string; RTC_DriftFix : string }.

Record QMPSocket := {
  QMPSocket_Type : string;
  QMPSocket_Name : string;
  QMPSocket_Server : bool;
  QMPSocket_NoWait : bool
}.

Record IOThread := { IOThread_ID : string }.

(** The devices of a launch configuration ([Device] is an interface in
    the library); the variants that [createSandbox] appends. *)
Inductive Device :=
| BridgeDevice (pcie : bool) (bus id : string) (chassis : Z) (shpc : bool) (addr : string)
| SerialDevice (id : string) (disableModern : bool)
| CharDevice (deviceID id path : string)
| BlockDevice (id file format : string) (disableModern shareRW : bool)
| SCSIController (id : string) (disableModern : bool) (ioThread : string)
| RngDevice (id filename : string).

Record Config := {
  Config_Name : string;
  Config_UUID : string;
  Config_Path : string;
  Config_Machine : Machine;
  Config_SMP : SMP;
  Config_Memory : Memory;
  Config_Devices : list Device;
  Config_CPUModel : string;
  Config_Kernel : Kernel;
  Config_RTC : RTC;
  Config_QMPSockets : list QMPSocket;
  Config_Knobs : Knobs;
  Config_Incoming : Incoming;
  Config_VGA : string;
  Config_GlobalParam : string;
  Config_Bios : string;
  Config_PidFile : string;
  Config_LogFile : string;
  Config_IOThreads : list IOThread
}.

(** Go's zero values. *)
Definition Machine0 : Machine :=
  {| Machine_Type := ""; Machine_Acceleration := ""; Machine_Options := "" |}.
Definition SMP0 : SMP :=
  {| CPUs := 0; Cores := 0; Threads := 0; Sockets := 0; MaxCPUs := 0 |}.
Definition Memory0 : Memory := {| Size := ""; Slots := 0; MaxMem := ""; Path := "" |}.
Definition Knobs0 : Knobs :=
  {| NoUserConfig := false; NoDefaults := false; NoGraphic := false;
     Daemonize := false; HugePages := false; MemPrealloc := false;
     FileBackedMem := false; MemShared := false; Mlock := false;
     Stopped := false; Realtime := false |}.
Definition Config0 : Config :=
  {| Config_Name := ""; Config_UUID := ""; Config_Path := "";
     Config_Machine := Machine0; Config_SMP := SMP0; Config_Memory := Memory0;
     Config_Devices := []; Config_CPUModel := "";
     Config_Kernel := {| Kernel_Path := ""; Kernel_InitrdPath := ""; Kernel_Params := "" |};
     Config_RTC := {| RTC_Base := ""; RTC_DriftFix := "" |};
     Config_QMPSockets := []; Config_Knobs := Knobs0;
     Config_Incoming := {| Incoming_MigrationType := MigrationNone |};
     Config_VGA := ""; Config_GlobalParam := ""; Config_Bios := "";
     Config_PidFile := ""; Config_LogFile := ""; Config_IOThreads := [] |}.

(** One entry of the answer to [query-hotpluggable-cpus]. *)
Record CPUProperties := {
  Node : Z;
  Socket : Z;
  Die : Z;
  Core : Z;
  Thread : Z
}.

Record HotpluggableCPU := {
  HC_Type : string;
  VcpusCount : Z;
  Properties : CPUProperties;
  QOMPath : string
}.

(** One entry of the answer to [query-memory-devices]. *)
Record MemoryDevices := {
  MD_Slot : Z;
  MD_Addr : N
}.

End govmmQemu.

(** ** The configuration of the hypervisor ([HypervisorConfig]) *)

Module config.

(** [BlockDeviceDriver]: the drivers of [device/config] and any other
    string. *)
Inductive BlockDriver :=
| VirtioSCSI
| VirtioBlock
| VirtioBlockCCW
| Nvdimm
| OtherDriver (name : string).

Inductive SharedFS := NoSharedFS | Virtio9P | VirtioFS.

Global Instance BlockDriver_eq_dec : EqDecision BlockDriver.
Proof. solve_decision. Defined.

Global Instance SharedFS_eq_dec : EqDecision SharedFS.
Proof. solve_decision. Defined.

Inductive VFIODeviceType :=
| VFIODeviceErrorType
| VFIODeviceNormalType
| VFIODeviceMediatedType.

Record VFIODev := {
  VFIODev_ID : string;
  VFIODev_Type : VFIODeviceType;
  BDF : string;
  SysfsDev : string
}.

Record BlockDrive := {
  File : string;
  Format : string;
  ID : string;
  Index : Z;
  PCIAddr : string;
  DevNo : string;
  NvdimmID : string;
  ShareRW : bool
}.

Definition BlockDriver_name (d : BlockDriver) : string :=
  match d with
  | VirtioSCSI => "virtio-scsi"
  | VirtioBlock => "virtio-blk"
  | VirtioBlockCCW => "virtio-blk-ccw"
  | Nvdimm => "nvdimm"
  | OtherDriver s => s
  end.

End config.

Record Param := { Key : string; Value : string }.

Record HypervisorConfig := {
  NumVCPUs : N;
  DefaultMaxVCPUs : N;
  MemorySize : N;
  MemSlots : N;
  DefaultBridges : N;
  KernelParams : list Param;
  HypervisorMachineType : string;
  MachineAccelerators : string;
  BlockDeviceDriver : config.BlockDriver;
  BlockDeviceCacheSet : bool;
  BlockDeviceCacheDirect : bool;
  BlockDeviceCacheNoflush : bool;
  EnableIOThreads : bool;
  SharedFS : config.SharedFS;
  FileBackedMemRootDir : string;
  MemoryPath : string;
  EntropySource : string;
  VMid : string;
  MemPrealloc : bool;
  HugePages : bool;
  Realtime : bool;
  Mlock : bool;
  Debug : bool;
  UseVSock : bool;
  DisableNestingChecks : bool;
  DisableVhostNet : bool;
  HotplugVFIOOnRootBus : bool;
  BootToBeTemplate : bool;
  BootFromTemplate : bool
}.

Definition HypervisorConfig0 : HypervisorConfig :=
  {| NumVCPUs := 0; DefaultMaxVCPUs := 0; MemorySize := 0; MemSlots := 0;
     DefaultBridges := 0; KernelParams := []; HypervisorMachineType := "";
     MachineAccelerators := ""; BlockDeviceDriver := config.OtherDriver "";
     BlockDeviceCacheSet := false; BlockDeviceCacheDirect := false;
     BlockDeviceCacheNoflush := false; EnableIOThreads := false;
     SharedFS := config.NoSharedFS; FileBackedMemRootDir := ""; MemoryPath := "";
     EntropySource := ""; VMid := ""; MemPrealloc := false; HugePages := false;
     Realtime := false; Mlock := false; Debug := false; UseVSock := false;
     DisableNestingChecks := false; DisableVhostNet := false;
     HotplugVFIOOnRootBus := false; BootToBeTemplate := false;
     BootFromTemplate := false |}.

(** ** [qemuArchBase] ([qemu_arch_base.go]) *)

Record qemuArchBase := {
  machineType : string;
  memoryOffset : N;
  nestedRun : bool;
  vhost : bool;
  networkIndex : Z;
  qemuPaths : gmap string string;
  supportedQemuMachines : list govmmQemu.Machine;
  kernelParamsNonDebug : list Param;
  kernelParamsDebug : list Param;
  kernelParams : list Param;
  Bridges : list types.Bridge
}.

(** [&qemuArchBase{}] *)
Definition qemuArchBase0 : qemuArchBase :=
  {| machineType := ""; memoryOffset := 0; nestedRun := false; vhost := false;
     networkIndex := 0; qemuPaths := ∅; supportedQemuMachines := [];
     kernelParamsNonDebug := []; kernelParamsDebug := []; kernelParams := [];
     Bridges := [] |}.

Definition set_Bridges (a : qemuArchBase) (bs : list types.Bridge) : qemuArchBase :=
  {| machineType := machineType a; memoryOffset := memoryOffset a;
     nestedRun := nestedRun a; vhost := vhost a; networkIndex := networkIndex a;
     qemuPaths := qemuPaths a; supportedQemuMachines := supportedQemuMachines a;
     kernelParamsNonDebug := kernelParamsNonDebug a;
     kernelParamsDebug := kernelParamsDebug a; kernelParams := kernelParams a;
     Bridges := bs |}.

Definition set_nestedRun (a : qemuArchBase) (b : bool) : qemuArchBase :=
  {| machineType := machineType a; memoryOffset := memoryOffset a;
     nestedRun := b; vhost := vhost a; networkIndex := networkIndex a;
     qemuPaths := qemuPaths a; supportedQemuMachines := supportedQemuMachines a;
     kernelParamsNonDebug := kernelParamsNonDebug a;
     kernelParamsDebug := kernelParamsDebug a; kernelParams := kernelParams a;
     Bridges := Bridges a |}.

Definition set_vhost (a : qemuArchBase) (b : bool) : qemuArchBase :=
  {| machineType := machineType a; memoryOffset := memoryOffset a;
     nestedRun := nestedRun a; vhost := b; networkIndex := networkIndex a;
     qemuPaths := qemuPaths a; supportedQemuMachines := supportedQemuMachines a;
     kernelParamsNonDebug := kernelParamsNonDebug a;
     kernelParamsDebug := kernelParamsDebug a; kernelParams := kernelParams a;
     Bridges := Bridges a |}.

Module ArchBase.

Definition defaultCores : N := 1.
Definition defaultThreads : N := 1.
Definition defaultCPUModel : string := "host".
Definition defaultBridgeBus : string := "pcie.0".
Definition maxDevIDSize : nat := 31.
Definition bridgePCIStartAddr : Z := 2.
Definition QemuCCWVirtio : string := "s390-ccw-virtio".

Definition enableNestingChecks (q : qemuArchBase) := set_nestedRun q true.
Definition disableNestingChecks (q : qemuArchBase) := set_nestedRun q false.
Definition enableVhostNet (q : qemuArchBase) := set_vhost q true.
Definition disableVhostNet (q : qemuArchBase) := set_vhost q false.

Definition machine (q : qemuArchBase) : govmmQemu.Machine * option error :=
  match List.find (fun m => bool_decide (govmmQemu.Machine_Type m = machineType q))
                  (supportedQemuMachines q) with
  | Some m => (m, None)
  | None => (govmmQemu.Machine0,
             Some ("unrecognised machine type: " +:+ machineType q))
  end.

Definition qemuPath (q : qemuArchBase) : string * option error :=
  match qemuPaths q !! machineType q with
  | Some p => (p, None)
  | None => ("", Some ("Unknown machine type: " +:+ machineType q))
  end.

Definition kernelParameters (q : qemuArchBase) (debug : bool) : list Param :=
  let params := kernelParams q in
  if debug then params ++ kernelParamsDebug q
  else params ++ kernelParamsNonDebug q.

Fixpoint newPCIBridges (i : N) (count : nat) : list types.Bridge :=
  match count with
  | O => []
  | S count' =>
      types.NewBridge types.PCI
        (types.Type_name types.PCI +:+ "-bridge-" +:+ fmt.Sprintf_d i) ∅ 0
      :: newPCIBridges (i + 1) count'
  end.

Definition bridges (q : qemuArchBase) (number : N) : qemuArchBase :=
  set_Bridges q (Bridges q ++ newPCIBridges 0 (N.to_nat number)).

Definition cpuTopology (vcpus maxvcpus : N) : govmmQemu.SMP :=
  {| govmmQemu.CPUs := vcpus;
     govmmQemu.Sockets := maxvcpus;
     govmmQemu.Cores := defaultCores;
     govmmQemu.Threads := defaultThreads;
     govmmQemu.MaxCPUs := maxvcpus |}.

Definition cpuModel : string := defaultCPUModel.

Definition memoryTopology (memoryMb hostMemoryMb slots : N) : govmmQemu.Memory :=
  let memMax := fmt.Sprintf_d hostMemoryMb +:+ "M" in
  let mem := fmt.Sprintf_d memoryMb +:+ "M" in
  {| govmmQemu.Size := mem;
     govmmQemu.Slots := slots;
     govmmQemu.MaxMem := memMax;
     govmmQemu.Path := "" |}.

Definition appendConsole (q : qemuArchBase) (devices : list govmmQemu.Device)
    (path : string) : list govmmQemu.Device * option error :=
  let serial := govmmQemu.SerialDevice "serial0" (nestedRun q) in
  let devices := devices ++ [serial] in
  let console := govmmQemu.CharDevice "console0" "charconsole0" path in
  let devices := devices ++ [console] in
  (devices, None).

Definition genericBlockDevice (drive : config.BlockDrive) (nestedRun : bool)
  : option govmmQemu.Device * option error :=
  if bool_decide (config.File drive = "") || bool_decide (config.ID drive = "")
     || bool_decide (config.Format drive = "")
  then (None, Some "Empty File, ID or Format for drive")
  else
    let id := if decide (maxDevIDSize < String.length (config.ID drive))%nat
              then substring 0 maxDevIDSize (config.ID drive)
              else config.ID drive in
    (Some (govmmQemu.BlockDevice id (config.File drive) (config.Format drive)
             nestedRun (config.ShareRW drive)), None).

Definition appendBlockDevice (q : qemuArchBase) (devices : list govmmQemu.Device)
    (drive : config.BlockDrive) : list govmmQemu.Device * option error :=
  match genericBlockDevice drive (nestedRun q) with
  | (Some d, None) => (devices ++ [d], None)
  | (_, Some e) => (devices, Some ("Failed to append block device " +:+ e))
  | (None, None) => (devices, None)
  end.

Definition appendRNGDevice (devices : list govmmQemu.Device) (id filename : string)
  : list govmmQemu.Device * option error :=
  (devices ++ [govmmQemu.RngDevice id filename], None).

(** [appendBridges] numbers the bridges that are not CCW, in place, and
    appends one bridge device for each of them. *)
Fixpoint appendBridges_range (bs : list types.Bridge) (idx : Z)
  : list types.Bridge * list govmmQemu.Device :=
  match bs with
  | [] => ([], [])
  | b :: bs' =>
      let '(rest, devs) := appendBridges_range bs' (idx + 1)%Z in
      if bool_decide (types.Type_ b = types.CCW) then (b :: rest, devs)
      else
        let addr := (bridgePCIStartAddr + idx)%Z in
        (types.set_Addr b addr :: rest,
         govmmQemu.BridgeDevice (bool_decide (types.Type_ b = types.PCIE))
           defaultBridgeBus (types.ID b) (idx + 1)%Z true (fmt.Sprintf_dZ addr)
         :: devs)
  end.

Definition appendBridges (q : qemuArchBase) (devices : list govmmQemu.Device)
  : qemuArchBase * list govmmQemu.Device :=
  let '(bs, devs) := appendBridges_range (Bridges q) 0%Z in
  (set_Bridges q bs, devices ++ devs).

Definition supportGuestMemoryHotplug : bool := true.

Definition Bridge0 : types.Bridge :=
  {| types.Address := ∅; types.Type_ := types.OtherType ""; types.ID := "";
     types.Addr := 0%Z |}.

Section Bridging.
Context `{BridgeCapacity}.

(** The loop of [addDeviceToBridge] over [q.Bridges].  The loop
    variable [b] is a copy of the bridge, but its slot map is the one
    of the bridge in [q.Bridges]: what [AddDevice] records is seen
    there, hence the updated list. *)
Fixpoint addDeviceToBridge_range (bs : list types.Bridge) (ID : string)
    (t : types.BusType)
  : (string * types.Bridge * option error) * list types.Bridge :=
  match bs with
  | [] => (("", Bridge0, Some "no more bridge slots available"), [])
  | b :: bs' =>
      if decide (t ≠ types.Type_ b) then
        let '(r, rest) := addDeviceToBridge_range bs' ID t in (r, b :: rest)
      else
        let '((addr, err), b') := types.AddDevice b ID in
        match err, t with
        | None, types.CCW => ((fmt.Sprintf_0x 4 addr, b', None), b' :: bs')
        | None, (types.PCI | types.PCIE) =>
            ((fmt.Sprintf_0x 2 addr, b', None), b' :: bs')
        | _, _ =>
            let '(r, rest) := addDeviceToBridge_range bs' ID t in (r, b' :: rest)
        end
  end.

Definition addDeviceToBridge (q : qemuArchBase) (ID : string) (t : types.BusType)
  : (string * types.Bridge * option error) * qemuArchBase :=
  if decide (length (Bridges q) = 0)%nat then
    (("", Bridge0, Some "failed to get available address from bridges"), q)
  else
    let '(r, bs) := addDeviceToBridge_range (Bridges q) ID t in
    (r, set_Bridges q bs).

End Bridging.

Fixpoint removeDeviceFromBridge_range (bs : list types.Bridge) (ID : string)
    (err : option error) : option error * list types.Bridge :=
  match bs with
  | [] => (err, [])
  | b :: bs' =>
      let '(err, b') := types.RemoveDevice b ID in
      match err with
      | None => (None, b' :: bs')
      | Some _ =>
          let '(r, rest) := removeDeviceFromBridge_range bs' ID err in
          (r, b' :: rest)
      end
  end.

Definition removeDeviceFromBridge (q : qemuArchBase) (ID : string)
  : option error * qemuArchBase :=
  let '(err, bs) := removeDeviceFromBridge_range (Bridges q) ID None in
  (err, set_Bridges q bs).

Definition getBridges (q : qemuArchBase) : list types.Bridge := Bridges q.
Definition setBridges (q : qemuArchBase) (bs : list types.Bridge) := set_Bridges q bs.

End ArchBase.


(** ** The controller ([qemu.go]) *)

(** [CPUDevice] is a CPU that was hot-added to the running VM. *)
Record CPUDevice := { CPU_ID : string }.

Record QemuState := {
  State_Bridges : list types.Bridge;
  HotpluggedVCPUs : list CPUDevice;
  HotpluggedMemory : Z;
  UUID : string;
  State_HotplugVFIOOnRootBus : bool;
  VirtiofsdPid : Z
}.

Definition QemuState0 : QemuState :=
  {| State_Bridges := []; HotpluggedVCPUs := []; HotpluggedMemory := 0%Z;
     UUID := ""; State_HotplugVFIOOnRootBus := false; VirtiofsdPid := 0%Z |}.

(** [qmp] is [true] when the pointer [qmpMonitorCh.qmp] is not [nil]. *)
Record qmpChannel := {
  path : string;
  qmp : bool
}.

(** [store] is [true] when the pointer [q.store] is not [nil]. *)
Record qemu := {
  id : string;
  store : bool;
  config : HypervisorConfig;
  qmpMonitorCh : qmpChannel;
  qemuConfig : govmmQemu.Config;
  state : QemuState;
  arch : qemuArchBase;
  fds : list Z;
  nvdimmCount : Z;
  stopped : bool
}.

(** [&qemu{}] *)
Definition qemu0 : qemu :=
  {| id := ""; store := false; config := HypervisorConfig0;
     qmpMonitorCh := {| path := ""; qmp := false |};
     qemuConfig := govmmQemu.Config0; state := QemuState0; arch := qemuArchBase0;
     fds := []; nvdimmCount := 0%Z; stopped := false |}.

Definition set_HotpluggedVCPUs (s : QemuState) (l : list CPUDevice) : QemuState :=
  {| State_Bridges := State_Bridges s; HotpluggedVCPUs := l;
     HotpluggedMemory := HotpluggedMemory s; UUID := UUID s;
     State_HotplugVFIOOnRootBus := State_HotplugVFIOOnRootBus s;
     VirtiofsdPid := VirtiofsdPid s |}.

Definition set_HotpluggedMemory (s : QemuState) (m : Z) : QemuState :=
  {| State_Bridges := State_Bridges s; HotpluggedVCPUs := HotpluggedVCPUs s;
     HotpluggedMemory := m; UUID := UUID s;
     State_HotplugVFIOOnRootBus := State_HotplugVFIOOnRootBus s;
     VirtiofsdPid := VirtiofsdPid s |}.

Definition set_State_Bridges (s : QemuState) (bs : list types.Bridge) : QemuState :=
  {| State_Bridges := bs; HotpluggedVCPUs := HotpluggedVCPUs s;
     HotpluggedMemory := HotpluggedMemory s; UUID := UUID s;
     State_HotplugVFIOOnRootBus := State_HotplugVFIOOnRootBus s;
     VirtiofsdPid := VirtiofsdPid s |}.

Definition set_UUID (s : QemuState) (u : string) : QemuState :=
  {| State_Bridges := State_Bridges s; HotpluggedVCPUs := HotpluggedVCPUs s;
     HotpluggedMemory := HotpluggedMemory s; UUID := u;
     State_HotplugVFIOOnRootBus := State_HotplugVFIOOnRootBus s;
     VirtiofsdPid := VirtiofsdPid s |}.

Definition set_State_HotplugVFIOOnRootBus (s : QemuState) (b : bool) : QemuState :=
  {| State_Bridges := State_Bridges s; HotpluggedVCPUs := HotpluggedVCPUs s;
     HotpluggedMemory := HotpluggedMemory s; UUID := UUID s;
     State_HotplugVFIOOnRootBus := b;
     VirtiofsdPid := VirtiofsdPid s |}.

Definition set_state (q : qemu) (s : QemuState) : qemu :=
  {| id := id q; store := store q; config := config q;
     qmpMonitorCh := qmpMonitorCh q; qemuConfig := qemuConfig q; state := s;
     arch := arch q; fds := fds q; nvdimmCount := nvdimmCount q;
     stopped := stopped q |}.

Definition set_arch (q : qemu) (a : qemuArchBase) : qemu :=
  {| id := id q; store := store q; config := config q;
     qmpMonitorCh := qmpMonitorCh q; qemuConfig := qemuConfig q; state := state q;
     arch := a; fds := fds q; nvdimmCount := nvdimmCount q;
     stopped := stopped q |}.

Definition set_qmpMonitorCh (q : qemu) (c : qmpChannel) : qemu :=
  {| id := id q; store := store q; config := config q;
     qmpMonitorCh := c; qemuConfig := qemuConfig q; state := state q;
     arch := arch q; fds := fds q; nvdimmCount := nvdimmCount q;
     stopped := stopped q |}.

Definition set_qemuConfig (q : qemu) (c : govmmQemu.Config) : qemu :=
  {| id := id q; store := store q; config := config q;
     qmpMonitorCh := qmpMonitorCh q; qemuConfig := c; state := state q;
     arch := arch q; fds := fds q; nvdimmCount := nvdimmCount q;
     stopped := stopped q |}.

Definition set_nvdimmCount (q : qemu) (n : Z) : qemu :=
  {| id := id q; store := store q; config := config q;
     qmpMonitorCh := qmpMonitorCh q; qemuConfig := qemuConfig q; state := state q;
     arch := arch q; fds := fds q; nvdimmCount := n;
     stopped := stopped q |}.

Definition set_stopped (q : qemu) (b : bool) : qemu :=
  {| id := id q; store := store q; config := config q;
     qmpMonitorCh := qmpMonitorCh q; qemuConfig := qemuConfig q; state := state q;
     arch := arch q; fds := fds q; nvdimmCount := nvdimmCount q;
     stopped := b |}.

(** [setup] assigns [id], [store], [config] and [arch] together. *)
Definition set_setup (q : qemu) (i : string) (st : bool) (c : HypervisorConfig)
    (a : qemuArchBase) : qemu :=
  {| id := i; store := st; config := c;
     qmpMonitorCh := qmpMonitorCh q; qemuConfig := qemuConfig q; state := state q;
     arch := a; fds := fds q; nvdimmCount := nvdimmCount q;
     stopped := stopped q |}.

Inductive operation :=
| addDevice
| removeDevice
| otherOperation (n : Z).

Definition romFile : string := "".
Definition defaultDisableModern : bool := false.
Definition qmpCapErrMsg : string := "Failed to negoatiate QMP capabilities".
Definition scsiControllerID : string := "scsi0".
Definition rngID : string := "rng0".
Definition vsockKernelOption : string := "agent.use_vsock".
Definition fallbackFileBackedMemDir : string := "/dev/shm".
Definition consoleSocket : string := "console.sock".
Definition qmpSocket : string := "qmp.sock".

(** *** What the controller does to the outside *)

(** The QMP commands, named after the methods of the QMP client that
    issue them, with the arguments the controller passes. *)
Inductive QmpCmd :=
| ExecuteQMPCapabilities
| ExecuteQuit
| ExecuteBlockdevAdd (file blockdevID : string)
| ExecuteBlockdevAddWithCache (file blockdevID : string) (direct noflush : bool)
| ExecuteBlockdevDel (blockdevID : string)
| ExecuteNVDIMMDeviceAdd (id mempath : string) (size : Z)
| ExecuteDeviceAdd (blockdevID devID driver bus romfile : string)
    (shared disableModern : bool)
| ExecutePCIDeviceAdd (blockdevID devID driver addr bus romfile : string)
    (queues : Z) (shared disableModern : bool)
| ExecuteSCSIDeviceAdd (blockdevID devID driver bus romfile : string)
    (scsiID lun : Z) (shared disableModern : bool)
| ExecuteVFIODeviceAdd (devID bdf romfile : string)
| ExecutePCIVFIODeviceAdd (devID bdf addr bus romfile : string)
| ExecutePCIVFIOMediatedDeviceAdd (devID sysfsdev addr bus romfile : string)
| ExecuteGetFD (fdname : string) (fd : Z)
| ExecuteNetdevAddByFds (netdevType netdevID : string) (fdNames vhostFdNames : list string)
| ExecuteNetdevDel (netdevID : string)
| ExecuteNetCCWDeviceAdd (netdevID devID macAddr bus : string) (queues : Z)
| ExecuteNetPCIDeviceAdd (netdevID devID macAddr addr bus romfile : string)
    (queues : Z) (disableModern : bool)
| ExecuteDeviceDel (devID : string)
| ExecuteCPUDeviceAdd (driver cpuID socketID dieID coreID threadID romfile : string)
| ExecuteQueryHotpluggableCPUs
| ExecQueryMemoryDevices
| ExecHotplugMemory (qomtype id mempath : string) (size : Z) (share : bool).

Inductive Level := LDebug | LInfo | LWarn | LError.

Global Instance Level_eq_dec : EqDecision Level.
Proof. solve_decision. Defined.

Inductive Event :=
| Log (level : Level) (msg : string)
| QMPStart (socket : string)
| QMPShutdown
| Qmp (cmd : QmpCmd)
| Store (st : QemuState)
| MkdirAll (dir : string)
| RemoveAll (dir : string)
| CloseFd (fd : Z).

Definition qmpCmds (t : list Event) : list QmpCmd :=
  omap (fun e => match e with Qmp c => Some c | _ => None end) t.

Definition logsAt (l : Level) (t : list Event) : list string :=
  omap (fun e => match e with
                 | Log l' m => if bool_decide (l' = l) then Some m else None
                 | _ => None
                 end) t.

(** *** What the outside answers *)

(** QEMU behind its QMP socket, the host's file system and the sandbox
    store, and the functions of the repository that the controller calls
    and whose source is not at hand.  The answers of QEMU and of the
    store may depend on everything the controller did before (the trace).
    An [option error] is what the call returns as its [error]. *)
Record Host := {
  (** [govmmQemu.QMPStart] on the socket at a path *)
  qmpStart : list Event → string → option error;
  (** the answer to a command *)
  qmpReply : list Event → QmpCmd → option error;
  (** the lists that [query-hotpluggable-cpus] and [query-memory-devices]
      carry when they succeed *)
  hotpluggableCPUs : list Event → list govmmQemu.HotpluggableCPU;
  memoryDevices : list Event → list govmmQemu.MemoryDevices;
  (** [q.store.Store(store.Hypervisor, q.state)] and [q.store.Load] *)
  storeStore : list Event → QemuState → option error;
  storeLoad : QemuState * option error;
  (** [os.Stat], [ioutil.ReadFile], [os.MkdirAll], [os.RemoveAll],
      [filepath.EvalSymlinks], the lines of a log file (or the error of
      opening it), the size of a block device (open and ioctl) *)
  osStat : string → option error;
  isNotExist : option error → bool;
  readFile : string → string * option error;
  mkdirAll : string → option error;
  removeAll : list Event → string → option error;
  evalSymlinks : list Event → string → string * option error;
  readLog : string → list string * option error * option error;
  blockSize : string → Z * option error;
  (** [getHostMemorySizeKb(procMemInfo)] and [RunningOnVMM(procCPUInfo)] *)
  getHostMemorySizeKb : N * option error;
  runningOnVMM : bool * option error;
  (** [uuid.Generate().String()], and [utils.GenerateRandomBytes] with its
      bytes in hexadecimal *)
  uuidGenerate : string;
  GenerateRandomBytes : nat → string * option error;
  (** [HypervisorConfig.valid] and the asset paths of the configuration *)
  configValid : HypervisorConfig → option error;
  KernelAssetPath : HypervisorConfig → string * option error;
  InitrdAssetPath : HypervisorConfig → string * option error;
  ImageAssetPath : HypervisorConfig → string * option error;
  FirmwareAssetPath : HypervisorConfig → string * option error;
  HypervisorAssetPath : HypervisorConfig → string * option error;
  (** [newQemuArch], the architecture of the host *)
  newQemuArch : HypervisorConfig → qemuArchBase;
  (** [utils.BuildSocketPath], [utils.MakeNameID], [utils.GetSCSIIdLun],
      [filepath.Join], the directories of the store *)
  BuildSocketPath : list string → string * option error;
  MakeNameID : string → string → nat → string;
  GetSCSIIdLun : Z → Z * Z * option error;
  filepathJoin : list string → string;
  RunVMStoragePath : string;
  SandboxRuntimeRootPath : string → string;
  SandboxConfigurationRootPath : string → string;
  (** [Bridge.AddressFormatCCW] and [Bridge.AddressFormatCCWForVirtServer] *)
  AddressFormatCCW : types.Bridge → string → string * option error;
  AddressFormatCCWForVirtServer : types.Bridge → string → string * option error
}.

(** *** Threading the controller and the trace *)

Record World := {
  me : qemu;
  trace : list Event
}.

Definition M (A : Type) : Type := World → A * World.

Global Instance M_ret : MRet M := λ A x w, (x, w).
Global Instance M_bind : MBind M := λ A B f m w, let '(x, w') := m w in f x w'.

Definition getq : M qemu := λ w, (me w, w).
Definition putq (q : qemu) : M unit := λ w, (tt, {| me := q; trace := trace w |}).
Definition modq (f : qemu → qemu) : M unit :=
  λ w, (tt, {| me := f (me w); trace := trace w |}).
Definition emit (e : Event) : M unit :=
  λ w, (tt, {| me := me w; trace := trace w ++ [e] |}).
Definition ask {A} (f : list Event → A) : M A := λ w, (f (trace w), w).
Definition logf (l : Level) (msg : string) : M unit := emit (Log l msg).
Definition skip : M unit := mret tt.

(** Issue a QMP command and take its error. *)
Definition exec (h : Host) (c : QmpCmd) : M (option error) :=
  err ← ask (λ t, qmpReply h t c);
  emit (Qmp c);;
  mret err.

(** Run an operation of the architecture on [q.arch]. *)
Definition onArch {A} (f : qemuArchBase → A * qemuArchBase) : M A :=
  q ← getq;
  let '(r, a) := f (arch q) in
  putq (set_arch q a);;
  mret r.

Definition uint32 (n : N) : N := n `mod` 2 ^ 32.

(** [a - b] on [uint32] *)
Definition sub32 (a b : N) : N := uint32 (a + 2 ^ 32 - uint32 b).

Definition qmpSetup (h : Host) : M (option error) :=
  q ← getq;
  if qmp (qmpMonitorCh q) then mret None
  else
    err ← ask (λ t, qmpStart h t (path (qmpMonitorCh q)));
    emit (QMPStart (path (qmpMonitorCh q)));;
    match err with
    | Some e =>
        logf LError "Failed to connect to QEMU instance";;
        mret (Some e)
    | None =>
        err ← exec h ExecuteQMPCapabilities;
        match err with
        | Some e =>
            emit QMPShutdown;;
            logf LError qmpCapErrMsg;;
            mret (Some e)
        | None =>
            modq (λ q, set_qmpMonitorCh q {| path := path (qmpMonitorCh q); qmp := true |});;
            mret None
        end
    end.

Definition storeState (h : Host) : M (option error) :=
  q ← getq;
  if store q then
    let q := set_state q (set_State_Bridges (state q) (ArchBase.getBridges (arch q))) in
    putq q;;
    err ← ask (λ t, storeStore h t (state q));
    emit (Store (state q));;
    mret err
  else mret None.

(** *** Hot plugging of vCPUs *)

Section CPUs.
Variable h : Host.

(** The loop of [hotplugAddCPUs] over the hotpluggable CPUs, with the
    code that follows it when the loop runs out. *)
Fixpoint hotplugAddCPUs_range (machine : govmmQemu.Machine) (amount : N)
    (hcs : list govmmQemu.HotpluggableCPU) (hotpluggedVCPUs : N)
  : M (N * option error) :=
  match hcs with
  | [] =>
      err ← storeState h;
      (if err is Some e then
         logf LError ("failed to save hypervisor state after hotplug "
                      +:+ fmt.Sprintf_d hotpluggedVCPUs +:+ " vCPUs: " +:+ e)
       else skip);;
      mret (hotpluggedVCPUs,
            Some ("failed to hot add vCPUs: only " +:+ fmt.Sprintf_d hotpluggedVCPUs
                  +:+ " vCPUs of " +:+ fmt.Sprintf_d amount +:+ " were added"))
  | hc :: rest =>
      if bool_decide (govmmQemu.QOMPath hc ≠ "") then
        hotplugAddCPUs_range machine amount rest hotpluggedVCPUs
      else
        q ← getq;
        let driver := govmmQemu.HC_Type hc in
        let cpuID :=
          "cpu-" +:+ fmt.Sprintf_d (N.of_nat (length (HotpluggedVCPUs (state q)))) in
        let socketID := fmt.Sprintf_dZ (govmmQemu.Socket (govmmQemu.Properties hc)) in
        let dieID := fmt.Sprintf_dZ (govmmQemu.Die (govmmQemu.Properties hc)) in
        let coreID := fmt.Sprintf_dZ (govmmQemu.Core (govmmQemu.Properties hc)) in
        let threadID := fmt.Sprintf_dZ (govmmQemu.Thread (govmmQemu.Properties hc)) in
        let z := bool_decide (govmmQemu.Machine_Type machine = "pseries")
                 || bool_decide (govmmQemu.Machine_Type machine = "s390-ccw-virtio") in
        let socketID := if z then "" else socketID in
        let threadID := if z then "" else threadID in
        let dieID := if z then "" else dieID in
        err ← exec h (ExecuteCPUDeviceAdd driver cpuID socketID dieID coreID threadID romFile);
        if err is Some _ then
          hotplugAddCPUs_range machine amount rest hotpluggedVCPUs
        else
          modq (λ q, set_state q (set_HotpluggedVCPUs (state q)
                       (HotpluggedVCPUs (state q) ++ [{| CPU_ID := cpuID |}])));;
          let hotpluggedVCPUs := uint32 (hotpluggedVCPUs + 1) in
          if bool_decide (hotpluggedVCPUs = amount) then
            err ← storeState h;
            mret (amount, err)
          else hotplugAddCPUs_range machine amount rest hotpluggedVCPUs
  end.

(** The number of vCPUs [hotplugAddCPUs] sets out to add: the request,
    or what is left up to [DefaultMaxVCPUs] if the request exceeds it. *)
Definition currentVCPUs (q : qemu) : N :=
  uint32 (govmmQemu.CPUs (govmmQemu.Config_SMP (qemuConfig q))
          + uint32 (N.of_nat (length (HotpluggedVCPUs (state q))))).

Definition exceedsMax (q : qemu) (amount : N) : bool :=
  bool_decide (DefaultMaxVCPUs (config q) < uint32 (currentVCPUs q + amount)).

Definition hotplugAddCPUs (amount : N) : M (N * option error) :=
  q ← getq;
  amount ← (if exceedsMax q amount then
              logf LWarn ("Cannot hotplug " +:+ fmt.Sprintf_d amount
                          +:+ " CPUs, currently this SB has "
                          +:+ fmt.Sprintf_d (currentVCPUs q)
                          +:+ " CPUs and the maximum amount of CPUs is "
                          +:+ fmt.Sprintf_d (DefaultMaxVCPUs (config q)));;
              mret (sub32 (DefaultMaxVCPUs (config q)) (currentVCPUs q))
            else mret amount);
  if bool_decide (amount = 0) then
    logf LWarn ("maximum number of vCPUs '" +:+ fmt.Sprintf_d (DefaultMaxVCPUs (config q))
                +:+ "' has been reached");;
    mret (0, None)
  else
    err ← exec h ExecuteQueryHotpluggableCPUs;
    hotpluggableVCPUs ← ask (hotpluggableCPUs h);
    if err is Some e then
      mret (0, Some ("failed to query hotpluggable CPUs: " +:+ e))
    else
      match ArchBase.machine (arch q) with
      | (_, Some e) => mret (0, Some ("failed to query machine type: " +:+ e))
      | (machine, None) => hotplugAddCPUs_range machine amount hotpluggableVCPUs 0
      end.

(** The loop of [hotplugRemoveCPUs], [todo] rounds from [i] on, with
    the [return] that follows it.  Indexing an empty list panics. *)
Fixpoint hotplugRemoveCPUs_range (amount : N) (todo : nat) (i : N)
  : M (N * option error) :=
  match todo with
  | O =>
      err ← storeState h;
      mret (amount, err)
  | S todo' =>
      q ← getq;
      match list.last (HotpluggedVCPUs (state q)) with
      | None => mret (i, Some "panic: runtime error: index out of range [-1]")
      | Some cpu =>
          err ← exec h (ExecuteDeviceDel (CPU_ID cpu));
          match err with
          | Some e =>
              storeState h;;
              mret (i, Some ("failed to hotunplug CPUs, only " +:+ fmt.Sprintf_d i
                             +:+ " CPUs were hotunplugged: " +:+ e))
          | None =>
              modq (λ q, set_state q (set_HotpluggedVCPUs (state q)
                           (removelast (HotpluggedVCPUs (state q)))));;
              hotplugRemoveCPUs_range amount todo' (i + 1)
          end
      end
  end.

Definition hotplugRemoveCPUs (amount : N) : M (N * option error) :=
  q ← getq;
  let hotpluggedVCPUs := uint32 (N.of_nat (length (HotpluggedVCPUs (state q)))) in
  if bool_decide (hotpluggedVCPUs < amount) then
    mret (0, Some ("Unable to remove " +:+ fmt.Sprintf_d amount
                   +:+ " CPUs, currently there are only "
                   +:+ fmt.Sprintf_d hotpluggedVCPUs +:+ " hotplugged CPUs"))
  else hotplugRemoveCPUs_range amount (N.to_nat amount) 0.

Definition hotplugCPUs (vcpus : N) (op : operation) : M (N * option error) :=
  if bool_decide (vcpus = 0) then
    logf LWarn "cannot hotplug 0 vCPUs";;
    mret (0, None)
  else
    err ← qmpSetup h;
    if err is Some e then mret (0, Some e)
    else
      match op with
      | addDevice => hotplugAddCPUs vcpus
      | _ => hotplugRemoveCPUs vcpus
      end.

End CPUs.

(** The hot-plugged vCPUs of a world. *)
Abbreviation cpus w := (HotpluggedVCPUs (state (me w))).

(** The state was written to the store as the last thing done (nothing is
    written when the controller has no store). *)
Definition persisted (w : World) : Prop :=
  store (me w) = true → list.last (trace w) = Some (Store (state (me w))).

(** The last QMP command of the trace is [c], and QEMU answered it with an
    error. *)
Definition rejectedLast (h : Host) (w : World) (c : QmpCmd) : Prop :=
  ∃ t1 t2 e, trace w = t1 ++ Qmp c :: t2 ∧ qmpCmds t2 = [] ∧ qmpReply h t1 c = Some e.

Definition deviceDels (l : list CPUDevice) : list QmpCmd :=
  map (λ c, ExecuteDeviceDel (CPU_ID c)) l.

(** The id [hotplugAddCPUs] gives to the vCPU it adds when [k] vCPUs are
    already hot-plugged. *)
Definition cpuIDAt (k : nat) : CPUDevice :=
  {| CPU_ID := "cpu-" +:+ fmt.Sprintf_d (N.of_nat k) |}.

(** Modelled from the spec: the capacities of a bridge are constants of
    [types/bridges.go], which is not among the sources, and the spec gives
    no value for them.  §4.1 fixes the width of a slot string (two
    hexadecimal digits on PCI and PCIe, four on CCW), with which any
    capacity below [16^2], respectively [16^4], agrees.  These are the
    values the examples are evaluated with. *)
Definition busCapacity : BridgeCapacity :=
  {| PCIBridgeMaxCapacity := 30; CCWBridgeMaxCapacity := 0xffff |}.

(** *** Hosts and worlds for the examples *)

(** A host on which the file system, the store and the helpers answer
    without an error; QEMU and the files are the arguments. *)
Definition testHost
    (start : list Event → string → option error)
    (reply : list Event → QmpCmd → option error)
    (hcs : list govmmQemu.HotpluggableCPU)
    (memKb : N * option error)
    (stat : string → option error)
    (read : string → string * option error)
    (valid : HypervisorConfig → option error)
    (newArch : HypervisorConfig → qemuArchBase) : Host :=
  {| qmpStart := start;
     qmpReply := reply;
     hotpluggableCPUs := λ _, hcs;
     memoryDevices := λ _, [];
     storeStore := λ _ _, None;
     storeLoad := (QemuState0, Some "no such file or directory");
     osStat := stat;
     isNotExist := λ e, bool_decide (e ≠ None);
     readFile := read;
     mkdirAll := λ _, None;
     removeAll := λ _ _, None;
     evalSymlinks := λ _ p, (p, None);
     readLog := λ _, ([], None, None);
     blockSize := λ _, (4096%Z, None);
     getHostMemorySizeKb := memKb;
     runningOnVMM := (false, None);
     uuidGenerate := "4c1d5a8e-2b0f-4a63-9d21-7e5b0c9f3a10";
     GenerateRandomBytes := λ _, ("0011223344556677", None);
     configValid := valid;
     KernelAssetPath := λ _, ("/usr/share/kata/vmlinuz", None);
     InitrdAssetPath := λ _, ("", None);
     ImageAssetPath := λ _, ("/usr/share/kata/kata.img", None);
     FirmwareAssetPath := λ _, ("", None);
     HypervisorAssetPath := λ _, ("/usr/bin/qemu-system-x86_64", None);
     newQemuArch := newArch;
     BuildSocketPath := λ l, (Join l "/", None);
     MakeNameID := λ t i n, substring 0 n (t +:+ "-" +:+ i);
     GetSCSIIdLun := λ i, ((i / 256)%Z, (i `mod` 256)%Z, None);
     filepathJoin := λ l, Join l "/";
     RunVMStoragePath := "/run/vc/vm";
     SandboxRuntimeRootPath := λ i, "/run/vc/sbs/" +:+ i;
     SandboxConfigurationRootPath := λ i, "/var/lib/vc/sbs/" +:+ i;
     AddressFormatCCW := λ b a, ("fe." +:+ types.ID b +:+ "." +:+ a, None);
     AddressFormatCCWForVirtServer := λ b a, ("0." +:+ types.ID b +:+ "." +:+ a, None)
  |}.

Definition okStart : list Event → string → option error := λ _ _, None.
Definition okReply : list Event → QmpCmd → option error := λ _ _, None.
Definition okStat : string → option error := λ _, None.
Definition noFile : string → string * option error :=
  λ _, ("", Some "no such file or directory").
Definition okValid : HypervisorConfig → option error := λ _, None.

(** An x86 [pc] machine with PCI bridges. *)
Definition pcMachine : govmmQemu.Machine :=
  {| govmmQemu.Machine_Type := "pc"; govmmQemu.Machine_Acceleration := "";
     govmmQemu.Machine_Options := "accel=kvm,kernel_irqchip,nvdimm" |}.

Definition pcArch (bs : list types.Bridge) : qemuArchBase :=
  {| machineType := "pc"; memoryOffset := 0; nestedRun := false; vhost := true;
     networkIndex := 0;
     qemuPaths := {[ "pc" := "/usr/bin/qemu-system-x86_64" ]};
     supportedQemuMachines := [pcMachine];
     kernelParamsNonDebug := [{| Key := "quiet"; Value := "" |}];
     kernelParamsDebug := [{| Key := "debug"; Value := "" |}];
     kernelParams := [];
     Bridges := bs |}.

(** A host whose QEMU accepts every command and offers [hcs] as
    hotpluggable CPUs. *)
Definition okHost (hcs : list govmmQemu.HotpluggableCPU) : Host :=
  testHost okStart okReply hcs (4194304, None) okStat noFile okValid (λ _, pcArch []).

Definition freeCPU (core : Z) : govmmQemu.HotpluggableCPU :=
  {| govmmQemu.HC_Type := "host-x86_64-cpu"; govmmQemu.VcpusCount := 1%Z;
     govmmQemu.Properties :=
       {| govmmQemu.Node := 0%Z; govmmQemu.Socket := core; govmmQemu.Die := 0%Z;
          govmmQemu.Core := 0%Z; govmmQemu.Thread := 0%Z |};
     govmmQemu.QOMPath := "" |}.

(** A configuration for the examples: the fields the examples vary, the
    others at their zero value. *)
Definition testConfig (max : N) (driver : config.BlockDriver) (fs : config.SharedFS)
    (fileBackedDir : string) (toBeTemplate fromTemplate debug : bool)
    (params : list Param) : HypervisorConfig :=
  {| NumVCPUs := 1; DefaultMaxVCPUs := max; MemorySize := 2048;
     MemSlots := 10; DefaultBridges := 1;
     KernelParams := params; HypervisorMachineType := "pc";
     MachineAccelerators := "";
     BlockDeviceDriver := driver;
     BlockDeviceCacheSet := false;
     BlockDeviceCacheDirect := false;
     BlockDeviceCacheNoflush := false;
     EnableIOThreads := false; SharedFS := fs;
     FileBackedMemRootDir := fileBackedDir; MemoryPath := "";
     EntropySource := "/dev/urandom"; VMid := ""; MemPrealloc := false;
     HugePages := false; Realtime := false; Mlock := false;
     Debug := debug; UseVSock := false;
     DisableNestingChecks := false;
     DisableVhostNet := false;
     HotplugVFIOOnRootBus := false;
     BootToBeTemplate := toBeTemplate; BootFromTemplate := fromTemplate |}.

(** A running controller: connected to QMP, booted with [boot] vCPUs of
    at most [max], with the hot-plugged vCPUs [hot] and the bridges [bs]. *)
Definition runningQemu (boot max : N) (hot : list CPUDevice) (bs : list types.Bridge)
  : qemu :=
  {| id := "sandbox0"; store := true;
     config := testConfig max config.VirtioBlock config.NoSharedFS "" false false false [];
     qmpMonitorCh := {| path := "/run/vc/vm/sandbox0/qmp.sock"; qmp := true |};
     qemuConfig := {|
       govmmQemu.Config_Name := "sandbox-sandbox0";
       govmmQemu.Config_UUID := "4c1d5a8e-2b0f-4a63-9d21-7e5b0c9f3a10";
       govmmQemu.Config_Path := "/usr/bin/qemu-system-x86_64";
       govmmQemu.Config_Machine := pcMachine;
       govmmQemu.Config_SMP := ArchBase.cpuTopology boot max;
       govmmQemu.Config_Memory := ArchBase.memoryTopology 2048 4096 10;
       govmmQemu.Config_Devices := [];
       govmmQemu.Config_CPUModel := "host";
       govmmQemu.Config_Kernel := govmmQemu.Config_Kernel govmmQemu.Config0;
       govmmQemu.Config_RTC := govmmQemu.Config_RTC govmmQemu.Config0;
       govmmQemu.Config_QMPSockets := [];
       govmmQemu.Config_Knobs := govmmQemu.Knobs0;
       govmmQemu.Config_Incoming := govmmQemu.Config_Incoming govmmQemu.Config0;
       govmmQemu.Config_VGA := "none";
       govmmQemu.Config_GlobalParam := "kvm-pit.lost_tick_policy=discard";
       govmmQemu.Config_Bios := "";
       govmmQemu.Config_PidFile := "/run/vc/vm/sandbox0/pid";
       govmmQemu.Config_LogFile := "";
       govmmQemu.Config_IOThreads := [] |};
     state := {| State_Bridges := bs; HotpluggedVCPUs := hot; HotpluggedMemory := 0%Z;
                 UUID := "4c1d5a8e-2b0f-4a63-9d21-7e5b0c9f3a10";
                 State_HotplugVFIOOnRootBus := false; VirtiofsdPid := 0%Z |};
     arch := pcArch bs; fds := []; nvdimmCount := 0%Z; stopped := false |}.

Definition world (q : qemu) : World := {| me := q; trace := [] |}.

(** *** Hot plugging of memory *)

Record memoryDevice := {
  slot : Z;
  sizeMB : Z;
  addr : N;
  probe : bool
}.

Definition set_slot (m : memoryDevice) (s : Z) : memoryDevice :=
  {| slot := s; sizeMB := sizeMB m; addr := addr m; probe := probe m |}.

Definition set_addr (m : memoryDevice) (a : N) : memoryDevice :=
  {| slot := slot m; sizeMB := sizeMB m; addr := a; probe := probe m |}.

Definition hostMemMB (h : Host) : N * option error :=
  match getHostMemorySizeKb h with
  | (_, Some e) => (0, Some ("Unable to read memory info: " +:+ e))
  | (hostMemKb, None) =>
      if bool_decide (hostMemKb = 0) then (0, Some "Error host memory size 0")
      else (hostMemKb / 1024, None)
  end.

Definition maxSlotOf (l : list govmmQemu.MemoryDevices) : Z :=
  fold_left (λ maxSlot device,
               if (maxSlot <? govmmQemu.MD_Slot device)%Z
               then govmmQemu.MD_Slot device else maxSlot) l (-1)%Z.

Definition hotplugAddMemory (h : Host) (memDev : memoryDevice)
  : M (Z * option error * memoryDevice) :=
  err ← exec h ExecQueryMemoryDevices;
  devices ← ask (memoryDevices h);
  let share := false in
  let target := "" in
  let memoryBack := "memory-backend-ram" in
  if err is Some e then
    mret (0%Z, Some ("failed to query memory devices: " +:+ e), memDev)
  else
    let memDev := if bool_decide (length devices ≠ 0%nat)
                  then set_slot memDev (maxSlotOf devices + 1)%Z else memDev in
    q ← getq;
    let '(target, memoryBack, share) :=
      if govmmQemu.HugePages (govmmQemu.Config_Knobs (qemuConfig q)) then
        ("/dev/hugepages", "memory-backend-file", true)
      else if bool_decide (SharedFS (config q) = config.VirtioFS)
              || bool_decide (FileBackedMemRootDir (config q) ≠ "") then
        (govmmQemu.Path (govmmQemu.Config_Memory (qemuConfig q)),
         "memory-backend-file", share)
      else (target, memoryBack, share) in
    let share := if govmmQemu.MemShared (govmmQemu.Config_Knobs (qemuConfig q))
                 then true else share in
    err ← exec h (ExecHotplugMemory memoryBack ("mem" +:+ fmt.Sprintf_dZ (slot memDev))
                    target (sizeMB memDev) share);
    if err is Some e then
      logf LError "hotplug memory";;
      mret (0%Z, Some e, memDev)
    else
      let finish (memDev : memoryDevice) : M (Z * option error * memoryDevice) :=
        modq (λ q, set_state q (set_HotpluggedMemory (state q)
                     (HotpluggedMemory (state q) + sizeMB memDev)%Z));;
        err ← storeState h;
        mret (sizeMB memDev, err, memDev) in
      if probe memDev then
        err ← exec h ExecQueryMemoryDevices;
        devices ← ask (memoryDevices h);
        if err is Some e then
          mret (0%Z, Some ("failed to query memory devices: " +:+ e), memDev)
        else
          match list.last devices with
          | Some d =>
              logf LDebug "recently hot-add memory device";;
              finish (set_addr memDev (govmmQemu.MD_Addr d))
          | None =>
              mret (0%Z,
                    Some "failed to probe address of recently hot-add memory device, no device exists",
                    memDev)
          end
      else finish memDev.

Definition hotplugMemory (h : Host) (memDev : memoryDevice) (op : operation)
  : M (Z * option error * memoryDevice) :=
  if negb ArchBase.supportGuestMemoryHotplug then
    mret (0%Z, Some "guest memory hotplug not supported", memDev)
  else if (sizeMB memDev <? 0)%Z then
    mret (0%Z, Some ("cannot hotplug negative size (" +:+ fmt.Sprintf_dZ (sizeMB memDev)
                     +:+ ") memory"), memDev)
  else
    logf LDebug "requested memory hotplug";;
    err ← qmpSetup h;
    if err is Some e then mret (0%Z, Some e, memDev)
    else
      q ← getq;
      let currentMemory := (Z.of_N (MemorySize (config q)) + HotpluggedMemory (state q))%Z in
      if bool_decide (sizeMB memDev = 0%Z) then
        logf LDebug "hotplug is not required";;
        mret (0%Z, None, memDev)
      else
        match op with
        | removeDevice =>
            logf LDebug ("Requested to remove memory: "
                         +:+ fmt.Sprintf_dZ (sizeMB memDev) +:+ " MB");;
            logf LWarn "hot-remove VM memory not supported";;
            mret (0%Z, None, memDev)
        | addDevice =>
            logf LDebug ("Requested to add memory: "
                         +:+ fmt.Sprintf_dZ (sizeMB memDev) +:+ " MB");;
            match hostMemMB h with
            | (_, Some e) => mret (0%Z, Some e, memDev)
            | (maxMem, None) =>
                if (Z.of_N maxMem <? currentMemory + sizeMB memDev)%Z then
                  mret (0%Z,
                        Some ("Unable to hotplug " +:+ fmt.Sprintf_dZ (sizeMB memDev)
                              +:+ " MiB memory, the SB has " +:+ fmt.Sprintf_dZ currentMemory
                              +:+ " MiB and the maximum amount is " +:+ fmt.Sprintf_d maxMem
                              +:+ " MiB"), memDev)
                else hotplugAddMemory h memDev
            end
        | otherOperation n =>
            mret (0%Z, Some ("invalid operation " +:+ fmt.Sprintf_dZ n), memDev)
        end.

(** *** Stopping the sandbox *)

(** Remove a directory tree; a failure is a warning. *)
Definition removeTree (h : Host) (dir : string) (warning : string) : M unit :=
  err ← ask (λ t, removeAll h t dir);
  emit (RemoveAll dir);;
  if err is Some _ then logf LWarn warning else skip.

Definition cleanupVM (h : Host) : M (option error) :=
  q ← getq;
  let dir := filepathJoin h [RunVMStoragePath h; id q] in
  '(link, err) ← ask (λ t, evalSymlinks h t dir);
  (if err is Some _ then logf LWarn "failed to resolve vm path" else skip);;
  logf LInfo "cleanup vm path";;
  removeTree h dir ("failed to remove vm path " +:+ dir);;
  (if bool_decide (link ≠ dir) && bool_decide (link ≠ "") then
     removeTree h link "failed to remove resolved vm path"
   else skip);;
  (if bool_decide (VMid (config q) ≠ "") then
     removeTree h (SandboxConfigurationRootPath h (VMid (config q)))
       "failed to remove vm path";;
     removeTree h (SandboxRuntimeRootPath h (VMid (config q)))
       "failed to remove vm path"
   else skip);;
  mret None.

Fixpoint logLines (lines : list string) : M unit :=
  match lines with
  | [] => skip
  | l :: rest => logf LDebug l;; logLines rest
  end.

(** With [Debug] on, the log of QEMU is copied to the log of the
    controller. *)
Definition dumpQemuLog (h : Host) : M unit :=
  q ← getq;
  if Debug (config q)
     && bool_decide (govmmQemu.Config_LogFile (qemuConfig q) ≠ "") then
    let '(lines, openErr, scanErr) :=
      readLog h (govmmQemu.Config_LogFile (qemuConfig q)) in
    if openErr is None then
      logLines lines;;
      (if scanErr is Some _ then logf LDebug "read qemu log failed" else skip)
    else skip
  else skip.

(** What [stopSandbox] does once it knows the instance is not stopped, up
    to its [return]. *)
Definition stopSandbox_body (h : Host) : M (option error) :=
  dumpQemuLog h;;
  err ← qmpSetup h;
  if err is Some e then mret (Some e)
  else
    err ← exec h ExecuteQuit;
    if err is Some e then
      logf LError "Fail to execute qmp QUIT";;
      mret (Some e)
    else mret None.

(** The function deferred by [stopSandbox]. *)
Definition stopSandbox_deferred (h : Host) : M unit :=
  cleanupVM h;;
  modq (λ q, set_stopped q true).

Definition stopSandbox (h : Host) : M (option error) :=
  logf LInfo "Stopping Sandbox";;
  q ← getq;
  if stopped q then
    logf LInfo "Already stopped";;
    mret None
  else
    err ← stopSandbox_body h;
    stopSandbox_deferred h;;
    mret err.

(** *** The process ids *)

Definition inCutset (cutset : string) (c : ascii) : bool :=
  bool_decide (c ∈ String.list_ascii_of_string cutset).

Fixpoint trimLeft (cutset : string) (cs : list ascii) : list ascii :=
  match cs with
  | c :: rest => if inCutset cutset c then trimLeft cutset rest else cs
  | [] => []
  end.

(** [strings.Trim] for a cutset of ASCII characters *)
Definition Trim (s cutset : string) : string :=
  String.string_of_list_ascii
    (rev (trimLeft cutset (rev (trimLeft cutset (String.list_ascii_of_string s))))).

Definition digitOf (c : ascii) : option Z :=
  let n := Z.of_nat (nat_of_ascii c) in
  if bool_decide (48 ≤ n ≤ 57)%Z then Some (n - 48)%Z else None.

Fixpoint parseDigits (cs : list ascii) (acc : Z) : option Z :=
  match cs with
  | [] => Some acc
  | c :: rest =>
      match digitOf c with
      | Some d => parseDigits rest (acc * 10 + d)%Z
      | None => None
      end
  end.

(** [strconv.Atoi] on a 64-bit platform: an optional sign and at least
    one decimal digit, within the range of an [int]. *)
Definition Atoi (s : string) : Z * option error :=
  let syntaxErr := (0%Z, Some ("strconv.Atoi: parsing " +:+ s +:+ ": invalid syntax")) in
  let rangeErr := Some ("strconv.Atoi: parsing " +:+ s +:+ ": value out of range") in
  let '(neg, body) :=
    match String.list_ascii_of_string s with
    | c :: rest =>
        if bool_decide (c = "-"%char) then (true, rest)
        else if bool_decide (c = "+"%char) then (false, rest)
        else (false, c :: rest)
    | [] => (false, [])
    end in
  match body with
  | [] => syntaxErr
  | _ =>
      match parseDigits body 0%Z with
      | None => syntaxErr
      | Some n =>
          let v := if neg then (- n)%Z else n in
          if (v <? - 2 ^ 63)%Z then ((- 2 ^ 63)%Z, rangeErr)
          else if (2 ^ 63 - 1 <? v)%Z then ((2 ^ 63 - 1)%Z, rangeErr)
          else (v, None)
      end
  end.

Definition getPids (h : Host) : M (list Z) :=
  q ← getq;
  let '(data, err) := readFile h (govmmQemu.Config_PidFile (qemuConfig q)) in
  if err is Some _ then
    logf LError "Could not read qemu pid file";;
    mret [0%Z]
  else
    let '(pid, err) := Atoi (Trim data (String "010" (String "009" " "))) in
    if err is Some _ then
      logf LError "Could not convert string to int";;
      mret [0%Z]
    else
      let pids := [] in
      let pids := pids ++ [pid] in
      let pids := if bool_decide (VirtiofsdPid (state q) ≠ 0%Z)
                  then pids ++ [VirtiofsdPid (state q)] else pids in
      mret pids.

(** *** The kernel parameters *)

Definition defaultKernelParameters : list Param := [{| Key := "panic"; Value := "1" |}].

(** Modelled from the spec: [SerializeParams] is declared in
    [hypervisor.go], which is not among the sources.  §4.3 and §8: the
    parameters are serialized as [key=value], one string per parameter,
    in order, later duplicates kept. *)
Definition SerializeParams (params : list Param) (delim : string) : list string :=
  map (λ p, Key p +:+ delim +:+ Value p) params.

Definition kernelParameters (q : qemu) : string :=
  let params := ArchBase.kernelParameters (arch q) (Debug (config q)) in
  let params := params ++ defaultKernelParameters in
  let params := params ++ [{| Key := "nr_cpus";
                              Value := fmt.Sprintf_d (DefaultMaxVCPUs (config q)) |}] in
  let params := params ++ [{| Key := vsockKernelOption;
                              Value := fmt.FormatBool (UseVSock (config q)) |}] in
  let params := params ++ KernelParams (config q) in
  let paramsStr := SerializeParams params "=" in
  Join paramsStr " ".

(** A host whose QEMU has gone: the socket refuses the connection. *)
Definition deadHost : Host :=
  testHost (λ _ _, Some "dial unix /run/vc/vm/sandbox0/qmp.sock: connect: connection refused")
    okReply [] (4194304, None) okStat noFile okValid (λ _, pcArch []).

(** A controller created but not connected to QMP. *)
Definition detachedQemu : qemu :=
  set_qmpMonitorCh (runningQemu 1 8 [] [])
    {| path := "/run/vc/vm/sandbox0/qmp.sock"; qmp := false |}.

Definition set_config (q : qemu) (c : HypervisorConfig) : qemu :=
  {| id := id q; store := store q; config := c;
     qmpMonitorCh := qmpMonitorCh q; qemuConfig := qemuConfig q; state := state q;
     arch := arch q; fds := fds q; nvdimmCount := nvdimmCount q;
     stopped := stopped q |}.

(** The controller of the test of the kernel parameters: an architecture
    without parameters of its own ([&qemuArchBase{}]). *)
Definition kernelParamsQemu (debug : bool) : qemu :=
  set_config (set_arch qemu0 qemuArchBase0)
    (testConfig 8 config.VirtioSCSI config.NoSharedFS "" false false debug
       [{| Key := "foo"; Value := "foo" |}; {| Key := "bar"; Value := "bar" |}]).

(** A controller whose PID file is [pidfile] and whose virtiofsd has the
    process id [virtiofsd]. *)
Definition pidsQemu (virtiofsd : Z) : qemu :=
  set_state (runningQemu 1 8 [] [])
    {| State_Bridges := []; HotpluggedVCPUs := []; HotpluggedMemory := 0%Z;
       UUID := "4c1d5a8e-2b0f-4a63-9d21-7e5b0c9f3a10";
       State_HotplugVFIOOnRootBus := false; VirtiofsdPid := virtiofsd |}.

Definition pidFileHost (content : string) : Host :=
  testHost okStart okReply [] (4194304, None) okStat (λ _, (content, None)) okValid
    (λ _, pcArch []).

(** *** Hot plugging of devices *)

Definition set_PCIAddr (d : config.BlockDrive) (a : string) : config.BlockDrive :=
  {| config.File := config.File d; config.Format := config.Format d;
     config.ID := config.ID d; config.Index := config.Index d;
     config.PCIAddr := a; config.DevNo := config.DevNo d;
     config.NvdimmID := config.NvdimmID d; config.ShareRW := config.ShareRW d |}.

Definition set_DevNo (d : config.BlockDrive) (a : string) : config.BlockDrive :=
  {| config.File := config.File d; config.Format := config.Format d;
     config.ID := config.ID d; config.Index := config.Index d;
     config.PCIAddr := config.PCIAddr d; config.DevNo := a;
     config.NvdimmID := config.NvdimmID d; config.ShareRW := config.ShareRW d |}.

Definition set_NvdimmID (d : config.BlockDrive) (a : string) : config.BlockDrive :=
  {| config.File := config.File d; config.Format := config.Format d;
     config.ID := config.ID d; config.Index := config.Index d;
     config.PCIAddr := config.PCIAddr d; config.DevNo := config.DevNo d;
     config.NvdimmID := a; config.ShareRW := config.ShareRW d |}.

Record TapInterface := {
  Tap_ID : string;
  Tap_Name : string;
  VMFds : list Z;
  VhostFds : list Z
}.

(** The endpoints of a network ([Endpoint] is an interface): a veth pair
    and a tap carry a [TapInterface], the other kinds do not. *)
Inductive Endpoint :=
| VethEndpoint (NetPair_TapInterface : TapInterface) (hardAddr pciAddr : string)
| TapEndpoint (Tap : TapInterface) (hardAddr pciAddr : string)
| OtherEndpoint (kind hardAddr pciAddr : string).

Definition HardwareAddr (e : Endpoint) : string :=
  match e with
  | VethEndpoint _ a _ | TapEndpoint _ a _ | OtherEndpoint _ a _ => a
  end.

Definition PciAddr (e : Endpoint) : string :=
  match e with
  | VethEndpoint _ _ a | TapEndpoint _ _ a | OtherEndpoint _ _ a => a
  end.

Definition SetPciAddr (e : Endpoint) (a : string) : Endpoint :=
  match e with
  | VethEndpoint t h _ => VethEndpoint t h a
  | TapEndpoint t h _ => TapEndpoint t h a
  | OtherEndpoint k h _ => OtherEndpoint k h a
  end.

Definition getQemuMachine (q : qemu) : govmmQemu.Machine * option error :=
  match ArchBase.machine (arch q) with
  | (_, Some e) => (govmmQemu.Machine0, Some e)
  | (machine, None) =>
      let accelerators := MachineAccelerators (config q) in
      if bool_decide (accelerators ≠ "") then
        let accelerators :=
          if String.prefix "," accelerators then accelerators
          else "," +:+ accelerators in
        ({| govmmQemu.Machine_Type := govmmQemu.Machine_Type machine;
            govmmQemu.Machine_Acceleration := govmmQemu.Machine_Acceleration machine;
            govmmQemu.Machine_Options :=
              govmmQemu.Machine_Options machine +:+ accelerators |}, None)
      else (machine, None)
  end.

Section Hotplug.
Context `{BridgeCapacity}.
Variable h : Host.

(** A deferred [if err != nil { q.arch.removeDeviceFromBridge(ID) }],
    run when the function returns, on the [err] its closure refers to. *)
Definition releaseSlotIf (err : option error) (ID : string) : M unit :=
  if err is Some _ then
    onArch (λ a, ArchBase.removeDeviceFromBridge a ID);; skip
  else skip.

(** A deferred [if err != nil { ...ExecuteBlockdevDel(drive.ID) }]. *)
Definition blockdevDelIf (err : option error) (ID : string) : M unit :=
  if err is Some _ then exec h (ExecuteBlockdevDel ID);; skip else skip.

(** A deferred [if err != nil { ...ExecuteNetdevDel(tap.Name) }]. *)
Definition netdevDelIf (err : option error) (name : string) : M unit :=
  if err is Some _ then exec h (ExecuteNetdevDel name);; skip else skip.

Definition addDeviceToBridge (ID : string) (t : types.BusType)
  : M (string * types.Bridge * option error) :=
  onArch (λ a, ArchBase.addDeviceToBridge a ID t).

(** The [switch] of [hotplugAddBlockDevice] on the driver.  Each [case]
    opens with [addr, bridge, err := ...]: inside the case, [err] is a
    variable of the case ([err1] here), not the result parameter of the
    function; a [return err] copies it into the result.  The value is
    the drive and what the function returns. *)
Definition hotplugAddBlockDevice_switch (drive : config.BlockDrive) (devID : string)
  : M (config.BlockDrive * option error) :=
  q ← getq;
  match BlockDeviceDriver (config q) with
  | config.VirtioBlockCCW =>
      let driver := "virtio-blk-ccw" in
      '(addr, bridge, err1) ← addDeviceToBridge (config.ID drive) types.CCW;
      if err1 is Some e then mret (drive, Some e)
      else
        let '(devNoHotplug, err1) := AddressFormatCCW h bridge addr in
        if err1 is Some e then mret (drive, Some e)
        else
          let '(devNo, err1) := AddressFormatCCWForVirtServer h bridge addr in
          let drive := set_DevNo drive devNo in
          if err1 is Some e then mret (drive, Some e)
          else
            err1 ← exec h (ExecuteDeviceAdd (config.ID drive) devID driver devNoHotplug ""
                             true false);
            if err1 is Some e then mret (drive, Some e)
            else mret (drive, None)
  | config.VirtioBlock =>
      let driver := "virtio-blk-pci" in
      '(addr, bridge, err1) ← addDeviceToBridge (config.ID drive) types.PCI;
      if err1 is Some e then mret (drive, Some e)
      else
        (* from here on [releaseSlotIf err1 drive.ID] is deferred *)
        let drive := set_PCIAddr drive
                       (fmt.Sprintf_0x 2 (Z.to_N (types.Addr bridge)) +:+ "/" +:+ addr) in
        err1 ← exec h (ExecutePCIDeviceAdd (config.ID drive) devID driver addr
                         (types.ID bridge) romFile 0 true defaultDisableModern);
        if err1 is Some e then
          releaseSlotIf err1 (config.ID drive);;
          mret (drive, Some e)
        else
          releaseSlotIf err1 (config.ID drive);;
          mret (drive, None)
  | config.VirtioSCSI =>
      let driver := "scsi-hd" in
      let bus := scsiControllerID +:+ ".0" in
      let '(scsiID, lun, err1) := GetSCSIIdLun h (config.Index drive) in
      if err1 is Some e then mret (drive, Some e)
      else
        err1 ← exec h (ExecuteSCSIDeviceAdd (config.ID drive) devID driver bus romFile
                         scsiID lun true defaultDisableModern);
        if err1 is Some e then mret (drive, Some e)
        else mret (drive, None)
  | d => mret (drive, Some ("Block device " +:+ config.BlockDriver_name d
                            +:+ " not recognized"))
  end.

Definition hotplugAddBlockDevice (drive : config.BlockDrive) (op : operation)
    (devID : string) : M (config.BlockDrive * option error) :=
  q ← getq;
  if bool_decide (BlockDeviceDriver (config q) = config.Nvdimm) then
    let '(blocksize, err1) := blockSize h (config.File drive) in
    if err1 is Some e then mret (drive, Some e)
    else
      err1 ← exec h (ExecuteNVDIMMDeviceAdd (config.ID drive) (config.File drive) blocksize);
      if err1 is Some e then
        logf LError ("Failed to add NVDIMM device " +:+ config.File drive);;
        mret (drive, Some e)
      else
        let drive := set_NvdimmID drive (fmt.Sprintf_dZ (nvdimmCount q)) in
        modq (λ q, set_nvdimmCount q (nvdimmCount q + 1)%Z);;
        mret (drive, None)
  else
    err ← (if BlockDeviceCacheSet (config q) then
             exec h (ExecuteBlockdevAddWithCache (config.File drive) (config.ID drive)
                       (BlockDeviceCacheDirect (config q))
                       (BlockDeviceCacheNoflush (config q)))
           else exec h (ExecuteBlockdevAdd (config.File drive) (config.ID drive)));
    if err is Some e then mret (drive, Some e)
    else
      (* from here on [blockdevDelIf err drive.ID] is deferred, on the
         result parameter *)
      '(drive', err) ← hotplugAddBlockDevice_switch drive devID;
      blockdevDelIf err (config.ID drive);;
      mret (drive', err).

Definition hotplugBlockDevice (drive : config.BlockDrive) (op : operation)
  : M (config.BlockDrive * option error) :=
  err ← qmpSetup h;
  if err is Some e then mret (drive, Some e)
  else
    let devID := "virtio-" +:+ config.ID drive in
    q ← getq;
    match op with
    | addDevice => hotplugAddBlockDevice drive op devID
    | _ =>
        err1 ← (if bool_decide (BlockDeviceDriver (config q) = config.VirtioBlock) then
                  onArch (λ a, ArchBase.removeDeviceFromBridge a (config.ID drive))
                else mret None);
        if err1 is Some e then mret (drive, Some e)
        else
          err1 ← exec h (ExecuteDeviceDel devID);
          if err1 is Some e then mret (drive, Some e)
          else
            err1 ← exec h (ExecuteBlockdevDel (config.ID drive));
            if err1 is Some e then mret (drive, Some e)
            else mret (drive, err)
    end.

(** [hotplugVFIODevice].  In the branch of the addition,
    [addr, bridge, err := q.arch.addDeviceToBridge(...)] declares a new
    [err] ([err1] here) that hides the result parameter; the deferred
    release of the slot tests that variable, while [return q...Add(...)]
    sets the result parameter only. *)
Definition hotplugVFIODevice (device : config.VFIODev) (op : operation)
  : M (option error) :=
  err ← qmpSetup h;
  if err is Some e then mret (Some e)
  else
    let devID := config.VFIODev_ID device in
    q ← getq;
    match op with
    | addDevice =>
        if State_HotplugVFIOOnRootBus (state q) then
          match config.VFIODev_Type device with
          | config.VFIODeviceNormalType =>
              exec h (ExecuteVFIODeviceAdd devID (config.BDF device) romFile)
          | config.VFIODeviceMediatedType =>
              exec h (ExecutePCIVFIOMediatedDeviceAdd devID (config.SysfsDev device)
                        "" "" romFile)
          | _ => mret (Some "Incorrect VFIO device type found")
          end
        else
          '(addr, bridge, err1) ← addDeviceToBridge devID types.PCI;
          if err1 is Some e then mret (Some e)
          else
            (* from here on [releaseSlotIf err1 devID] is deferred *)
            err ← match config.VFIODev_Type device with
                  | config.VFIODeviceNormalType =>
                      exec h (ExecutePCIVFIODeviceAdd devID (config.BDF device) addr
                                (types.ID bridge) romFile)
                  | config.VFIODeviceMediatedType =>
                      exec h (ExecutePCIVFIOMediatedDeviceAdd devID
                                (config.SysfsDev device) addr (types.ID bridge) romFile)
                  | _ => mret (Some "Incorrect VFIO device type found")
                  end;
            releaseSlotIf err1 devID;;
            mret err
    | _ =>
        err1 ← (if negb (State_HotplugVFIOOnRootBus (state q)) then
                  onArch (λ a, ArchBase.removeDeviceFromBridge a devID)
                else mret None);
        if err1 is Some e then mret (Some e)
        else
          err1 ← exec h (ExecuteDeviceDel devID);
          if err1 is Some e then mret (Some e)
          else mret None
    end.

(** The two loops of [hotAddNetDevice]: pass each descriptor to QEMU
    under the name [prefix<i>]; the vhost descriptors are closed locally
    once passed. *)
Fixpoint getFDs (prefix : string) (closeLocal : bool) (files : list Z) (i : N)
    (names : list string) : M (list string * option error) :=
  match files with
  | [] => mret (names, None)
  | fd :: rest =>
      let fdName := prefix +:+ fmt.Sprintf_d i in
      err ← exec h (ExecuteGetFD fdName fd);
      if err is Some e then mret (names, Some e)
      else
        (if closeLocal then emit (CloseFd fd) else skip);;
        getFDs prefix closeLocal rest (i + 1) (names ++ [fdName])
  end.

Definition hotAddNetDevice (name hardAddr : string) (VMFds VhostFds : list Z)
  : M (option error) :=
  '(VMFdNames, err) ← getFDs "fd" false VMFds 0 [];
  if err is Some e then mret (Some e)
  else
    '(VhostFdNames, err) ← getFDs "vhostfd" true VhostFds 0 [];
    if err is Some e then mret (Some e)
    else exec h (ExecuteNetdevAddByFds "tap" name VMFdNames VhostFdNames).

(** [hotplugNetDevice].  The release of the slot is deferred on the [err]
    that [addr, bridge, err := ...] declares in the branch of the addition
    ([err1] here); [machine, err = q.getQemuMachine()] assigns that
    variable, the two [return q...DeviceAdd(...)] set the result
    parameter only.  The deferred [netdev_del] tests the result parameter. *)
Definition hotplugNetDevice (endpoint : Endpoint) (op : operation)
  : M (option error * Endpoint) :=
  err ← qmpSetup h;
  if err is Some e then mret (Some e, endpoint)
  else
    match endpoint with
    | OtherEndpoint _ _ _ => mret (Some "this endpoint is not supported", endpoint)
    | VethEndpoint tap _ _ | TapEndpoint tap _ _ =>
        let devID := "virtio-" +:+ Tap_ID tap in
        match op with
        | addDevice =>
            err ← hotAddNetDevice (Tap_Name tap) (HardwareAddr endpoint)
                    (VMFds tap) (VhostFds tap);
            if err is Some e then mret (Some e, endpoint)
            else
              (* from here on [netdevDelIf err tap.Name] is deferred *)
              '(addr, bridge, err1) ← addDeviceToBridge (Tap_ID tap) types.PCI;
              if err1 is Some e then
                netdevDelIf (Some e) (Tap_Name tap);;
                mret (Some e, endpoint)
              else
                (* from here on [releaseSlotIf err1 tap.ID] is deferred too *)
                let pciAddr := fmt.Sprintf_0x 2 (Z.to_N (types.Addr bridge))
                               +:+ "/" +:+ addr in
                let endpoint := SetPciAddr endpoint pciAddr in
                q ← getq;
                let '(machine, err1) := getQemuMachine q in
                if err1 is Some e then
                  releaseSlotIf err1 (Tap_ID tap);;
                  netdevDelIf (Some e) (Tap_Name tap);;
                  mret (Some e, endpoint)
                else
                  err ← (if bool_decide (govmmQemu.Machine_Type machine
                                         = ArchBase.QemuCCWVirtio) then
                           let devNoHotplug :=
                             "fe." +:+ fmt.Sprintf_0x 0 (Z.to_N (types.Addr bridge))
                             +:+ "." +:+ fmt.Sprintf_xs addr in
                           exec h (ExecuteNetCCWDeviceAdd (Tap_Name tap) devID
                                     (HardwareAddr endpoint) devNoHotplug
                                     (Z.of_N (NumVCPUs (config q))))
                         else
                           exec h (ExecuteNetPCIDeviceAdd (Tap_Name tap) devID
                                     (HardwareAddr endpoint) addr (types.ID bridge) romFile
                                     (Z.of_N (NumVCPUs (config q))) defaultDisableModern));
                  releaseSlotIf err1 (Tap_ID tap);;
                  netdevDelIf err (Tap_Name tap);;
                  mret (err, endpoint)
        | _ =>
            err1 ← onArch (λ a, ArchBase.removeDeviceFromBridge a (Tap_ID tap));
            if err1 is Some e then mret (Some e, endpoint)
            else
              err1 ← exec h (ExecuteDeviceDel devID);
              if err1 is Some e then mret (Some e, endpoint)
              else
                err1 ← exec h (ExecuteNetdevDel (Tap_Name tap));
                if err1 is Some e then mret (Some e, endpoint)
                else mret (None, endpoint)
        end
    end.

End Hotplug.

(** The commands that attach a device to the guest. *)
Definition isDeviceAdd (c : QmpCmd) : bool :=
  match c with
  | ExecuteDeviceAdd _ _ _ _ _ _ _
  | ExecutePCIDeviceAdd _ _ _ _ _ _ _ _ _
  | ExecuteSCSIDeviceAdd _ _ _ _ _ _ _ _ _
  | ExecuteVFIODeviceAdd _ _ _
  | ExecutePCIVFIODeviceAdd _ _ _ _ _
  | ExecutePCIVFIOMediatedDeviceAdd _ _ _ _ _
  | ExecuteNetCCWDeviceAdd _ _ _ _ _
  | ExecuteNetPCIDeviceAdd _ _ _ _ _ _ _ _ => true
  | _ => false
  end.

(** A host whose QEMU rejects the commands in [bad] and accepts the
    others. *)
Definition rejectHost (bad : QmpCmd → bool) : Host :=
  testHost okStart (λ _ c, if bad c then Some "QMP command failed" else None) []
    (4194304, None) okStat noFile okValid (λ _, pcArch []).

Definition pciBridge0 : types.Bridge := types.NewBridge types.PCI "pci-bridge-0" ∅ 2%Z.
Definition ccwBridge0 : types.Bridge := types.NewBridge types.CCW "ccw-bridge-0" ∅ 0%Z.

(** An s390x machine with CCW bridges. *)
Definition s390Arch (bs : list types.Bridge) : qemuArchBase :=
  {| machineType := "s390-ccw-virtio"; memoryOffset := 0; nestedRun := false;
     vhost := true; networkIndex := 0;
     qemuPaths := {[ "s390-ccw-virtio" := "/usr/bin/qemu-system-s390x" ]};
     supportedQemuMachines :=
       [{| govmmQemu.Machine_Type := "s390-ccw-virtio";
           govmmQemu.Machine_Acceleration := "";
           govmmQemu.Machine_Options := "accel=kvm" |}];
     kernelParamsNonDebug := []; kernelParamsDebug := []; kernelParams := [];
     Bridges := bs |}.

Definition pcQemu : qemu := runningQemu 1 8 [] [pciBridge0].

Definition s390Qemu : qemu :=
  set_arch
    (set_config (runningQemu 1 8 [] [ccwBridge0])
       (testConfig 8 config.VirtioBlockCCW config.NoSharedFS "" false false false []))
    (s390Arch [ccwBridge0]).

Definition vfio0 : config.VFIODev :=
  {| config.VFIODev_ID := "vfio-0"; config.VFIODev_Type := config.VFIODeviceNormalType;
     config.BDF := "0000:03:00.0"; config.SysfsDev := "" |}.

Definition drive0 : config.BlockDrive :=
  {| config.File := "/dev/loop0"; config.Format := "raw"; config.ID := "drive-0";
     config.Index := 1%Z; config.PCIAddr := ""; config.DevNo := "";
     config.NvdimmID := ""; config.ShareRW := false |}.

Definition tap0 : Endpoint :=
  TapEndpoint {| Tap_ID := "tap-0"; Tap_Name := "tap0_kata"; VMFds := [7%Z];
                 VhostFds := [8%Z] |} "02:42:ac:11:00:02" "".

(** The slot maps of the bridges of the architecture. *)
Definition slots (w : World) : list (gmap N string) :=
  map types.Address (Bridges (arch (me w))).

(** *** Creating the sandbox *)

Definition set_FileBackedMem (k : govmmQemu.Knobs) (b : bool) : govmmQemu.Knobs :=
  {| govmmQemu.NoUserConfig := govmmQemu.NoUserConfig k;
     govmmQemu.NoDefaults := govmmQemu.NoDefaults k;
     govmmQemu.NoGraphic := govmmQemu.NoGraphic k;
     govmmQemu.Daemonize := govmmQemu.Daemonize k;
     govmmQemu.HugePages := govmmQemu.HugePages k;
     govmmQemu.MemPrealloc := govmmQemu.MemPrealloc k;
     govmmQemu.FileBackedMem := b;
     govmmQemu.MemShared := govmmQemu.MemShared k;
     govmmQemu.Mlock := govmmQemu.Mlock k;
     govmmQemu.Stopped := govmmQemu.Stopped k;
     govmmQemu.Realtime := govmmQemu.Realtime k |}.

Definition set_MemShared (k : govmmQemu.Knobs) (b : bool) : govmmQemu.Knobs :=
  {| govmmQemu.NoUserConfig := govmmQemu.NoUserConfig k;
     govmmQemu.NoDefaults := govmmQemu.NoDefaults k;
     govmmQemu.NoGraphic := govmmQemu.NoGraphic k;
     govmmQemu.Daemonize := govmmQemu.Daemonize k;
     govmmQemu.HugePages := govmmQemu.HugePages k;
     govmmQemu.MemPrealloc := govmmQemu.MemPrealloc k;
     govmmQemu.FileBackedMem := govmmQemu.FileBackedMem k;
     govmmQemu.MemShared := b;
     govmmQemu.Mlock := govmmQemu.Mlock k;
     govmmQemu.Stopped := govmmQemu.Stopped k;
     govmmQemu.Realtime := govmmQemu.Realtime k |}.

Definition set_MemPrealloc (k : govmmQemu.Knobs) (b : bool) : govmmQemu.Knobs :=
  {| govmmQemu.NoUserConfig := govmmQemu.NoUserConfig k;
     govmmQemu.NoDefaults := govmmQemu.NoDefaults k;
     govmmQemu.NoGraphic := govmmQemu.NoGraphic k;
     govmmQemu.Daemonize := govmmQemu.Daemonize k;
     govmmQemu.HugePages := govmmQemu.HugePages k;
     govmmQemu.MemPrealloc := b;
     govmmQemu.FileBackedMem := govmmQemu.FileBackedMem k;
     govmmQemu.MemShared := govmmQemu.MemShared k;
     govmmQemu.Mlock := govmmQemu.Mlock k;
     govmmQemu.Stopped := govmmQemu.Stopped k;
     govmmQemu.Realtime := govmmQemu.Realtime k |}.

Definition set_Path (m : govmmQemu.Memory) (p : string) : govmmQemu.Memory :=
  {| govmmQemu.Size := govmmQemu.Size m; govmmQemu.Slots := govmmQemu.Slots m;
     govmmQemu.MaxMem := govmmQemu.MaxMem m; govmmQemu.Path := p |}.

(** [setup] sets the controller up. *)
Definition setup (h : Host) (id : string) (hypervisorConfig : HypervisorConfig)
    (vcStore : bool) : M (option error) :=
  if configValid h hypervisorConfig is Some e then mret (Some e)
  else
    modq (λ q, set_setup q id vcStore hypervisorConfig (newQemuArch h hypervisorConfig));;
    q ← getq;
    match InitrdAssetPath h (config q) with
    | (_, Some e) => mret (Some e)
    | (initrdPath, None) =>
        match ImageAssetPath h (config q) with
        | (_, Some e) => mret (Some e)
        | (imagePath, None) =>
            modq (λ q, set_nvdimmCount q
                         (if bool_decide (initrdPath = "") && bool_decide (imagePath ≠ "")
                          then 1 else 0)%Z);;
            create ← (if store q then
                        let '(loaded, err) := storeLoad h in
                        if err is Some _ then mret true
                        else modq (λ q, set_state q loaded);; mret false
                      else mret (bool_decide (UUID (state q) = "")));
            modq (λ q, set_arch q (ArchBase.setBridges (arch q) (State_Bridges (state q))));;
            err ← (if create : bool then
                     logf LDebug "Creating bridges";;
                     modq (λ q, set_arch q
                                  (ArchBase.bridges (arch q) (DefaultBridges (config q))));;
                     logf LDebug "Creating UUID";;
                     modq (λ q, set_state q (set_UUID (state q) (uuidGenerate h)));;
                     modq (λ q, set_state q
                                  (set_State_HotplugVFIOOnRootBus (state q)
                                     (HotplugVFIOOnRootBus (config q))));;
                     emit (MkdirAll (SandboxRuntimeRootPath h id));;
                     if mkdirAll h (SandboxRuntimeRootPath h id) is Some e then mret (Some e)
                     else storeState h
                   else mret None);
            if err is Some e then mret (Some e)
            else
              match runningOnVMM h with
              | (_, Some e) => mret (Some e)
              | (nested, None) =>
                  q ← getq;
                  (if negb (DisableNestingChecks (config q)) && nested then
                     modq (λ q, set_arch q (ArchBase.enableNestingChecks (arch q)))
                   else
                     logf LDebug "Disable nesting environment checks";;
                     modq (λ q, set_arch q (ArchBase.disableNestingChecks (arch q))));;
                  (if negb (DisableVhostNet (config q)) then
                     modq (λ q, set_arch q (ArchBase.enableVhostNet (arch q)))
                   else
                     logf LDebug "Disable vhost_net";;
                     modq (λ q, set_arch q (ArchBase.disableVhostNet (arch q))));;
                  mret None
              end
        end
    end.

Definition cpuTopology (q : qemu) : govmmQemu.SMP :=
  ArchBase.cpuTopology (NumVCPUs (config q)) (DefaultMaxVCPUs (config q)).

Definition memoryTopology (h : Host) (q : qemu) : govmmQemu.Memory * option error :=
  match hostMemMB h with
  | (_, Some e) => (govmmQemu.Memory0, Some e)
  | (hostMemMb, None) =>
      let memMb := MemorySize (config q) in
      (ArchBase.memoryTopology memMb hostMemMb (MemSlots (config q) `mod` 256), None)
  end.

Definition qmpSocketPath (h : Host) (id : string) : string * option error :=
  BuildSocketPath h [RunVMStoragePath h; id; qmpSocket].

Definition getSandboxConsole (h : Host) (id : string) : string * option error :=
  BuildSocketPath h [RunVMStoragePath h; id; consoleSocket].

Definition qemuPath (h : Host) (q : qemu) : string * option error :=
  match HypervisorAssetPath h (config q) with
  | (_, Some e) => ("", Some e)
  | (p, None) =>
      match (if bool_decide (p = "") then ArchBase.qemuPath (arch q) else (p, None)) with
      | (_, Some e) => ("", Some e)
      | (p, None) =>
          if isNotExist h (osStat h p)
          then ("", Some ("QEMU path (" +:+ p +:+ ") does not exist"))
          else (p, None)
      end
  end.

Definition genericImage (h : Host) (path : string) : config.BlockDrive * option error :=
  let drive0 := {| config.File := ""; config.Format := ""; config.ID := "";
                   config.Index := 0%Z; config.PCIAddr := ""; config.DevNo := "";
                   config.NvdimmID := ""; config.ShareRW := false |} in
  if isNotExist h (osStat h path) then (drive0, osStat h path)
  else
    match GenerateRandomBytes h 8 with
    | (_, Some e) => (drive0, Some e)
    | (randBytes, None) =>
        let id := MakeNameID h "image" randBytes ArchBase.maxDevIDSize in
        ({| config.File := path; config.Format := "raw"; config.ID := id;
            config.Index := 0%Z; config.PCIAddr := ""; config.DevNo := "";
            config.NvdimmID := ""; config.ShareRW := false |}, None)
    end.

Definition arch_appendImage (h : Host) (a : qemuArchBase)
    (devices : list govmmQemu.Device) (path : string)
  : list govmmQemu.Device * option error :=
  match genericImage h path with
  | (_, Some e) => ([], Some e)
  | (drive, None) =>
      match ArchBase.appendBlockDevice a devices drive with
      | (_, Some e) => ([], Some e)
      | (devices, None) => (devices, None)
      end
  end.

Definition appendImage (h : Host) (q : qemu) (devices : list govmmQemu.Device)
  : list govmmQemu.Device * option error :=
  match ImageAssetPath h (config q) with
  | (_, Some e) => ([], Some e)
  | (imagePath, None) =>
      if bool_decide (imagePath ≠ "") then
        match arch_appendImage h (arch q) devices imagePath with
        | (_, Some e) => ([], Some e)
        | (devices, None) => (devices, None)
        end
      else (devices, None)
  end.

Definition genericSCSIController (h : Host) (enableIOThreads nestedRun : bool)
  : govmmQemu.Device * option govmmQemu.IOThread :=
  if enableIOThreads then
    let t := {| govmmQemu.IOThread_ID := "iothread-" +:+ (GenerateRandomBytes h 8).1 |} in
    (govmmQemu.SCSIController scsiControllerID nestedRun (govmmQemu.IOThread_ID t), Some t)
  else (govmmQemu.SCSIController scsiControllerID nestedRun "", None).

Definition createQmpSocket (h : Host) : M (list govmmQemu.QMPSocket * option error) :=
  q ← getq;
  match qmpSocketPath h (id q) with
  | (_, Some e) => mret ([], Some e)
  | (monitorSockPath, None) =>
      modq (λ q, set_qmpMonitorCh q {| path := monitorSockPath; qmp := false |});;
      mret ([{| govmmQemu.QMPSocket_Type := "unix";
                govmmQemu.QMPSocket_Name := monitorSockPath;
                govmmQemu.QMPSocket_Server := true;
                govmmQemu.QMPSocket_NoWait := true |}], None)
  end.

Definition buildDevices (h : Host) (initrdPath : string)
  : M (list govmmQemu.Device * option govmmQemu.IOThread * option error) :=
  q ← getq;
  match getSandboxConsole h (id q) with
  | (_, Some e) => mret ([], None, Some e)
  | (console, None) =>
      devices ← onArch (λ a, let '(a, devs) := ArchBase.appendBridges a [] in (devs, a));
      q ← getq;
      match ArchBase.appendConsole (arch q) devices console with
      | (_, Some e) => mret ([], None, Some e)
      | (devices, None) =>
          match (if bool_decide (initrdPath = "") then appendImage h q devices
                 else (devices, None)) with
          | (_, Some e) => mret ([], None, Some e)
          | (devices, None) =>
              if bool_decide (BlockDeviceDriver (config q) = config.VirtioSCSI) then
                let '(d, t) := genericSCSIController h (EnableIOThreads (config q))
                                 (nestedRun (arch q)) in
                mret (devices ++ [d], t, None)
              else mret (devices, None, None)
          end
      end
  end.

Definition setupTemplate (q : qemu) (knobs : govmmQemu.Knobs) (memory : govmmQemu.Memory)
  : govmmQemu.Incoming * govmmQemu.Knobs * govmmQemu.Memory :=
  let incoming := {| govmmQemu.Incoming_MigrationType := govmmQemu.MigrationNone |} in
  if BootToBeTemplate (config q) || BootFromTemplate (config q) then
    let knobs := set_FileBackedMem knobs true in
    let memory := set_Path memory (MemoryPath (config q)) in
    let knobs := if BootToBeTemplate (config q) then set_MemShared knobs true else knobs in
    let incoming := if BootFromTemplate (config q)
                    then {| govmmQemu.Incoming_MigrationType := govmmQemu.MigrationDefer |}
                    else incoming in
    (incoming, knobs, memory)
  else (incoming, knobs, memory).

(** The directory [setupFileBackedMem] looks for. *)
Definition fileBackedMemTarget (c : HypervisorConfig) : string :=
  if bool_decide (FileBackedMemRootDir c ≠ "") then FileBackedMemRootDir c
  else fallbackFileBackedMemDir.

Definition setupFileBackedMem (h : Host) (knobs : govmmQemu.Knobs)
    (memory : govmmQemu.Memory) : M (govmmQemu.Knobs * govmmQemu.Memory) :=
  q ← getq;
  let target := fileBackedMemTarget (config q) in
  if osStat h target is Some _ then
    logf LError "File backed memory location does not exist";;
    mret (knobs, memory)
  else
    let knobs := set_FileBackedMem knobs true in
    let knobs := set_MemShared knobs true in
    let memory := set_Path memory target in
    mret (knobs, memory).

Definition templatingError : error :=
  "VM templating has been enabled with either virtio-fs or file backed memory and this configuration will not work".

(** The second half of [createSandbox], from the RTC on: the sockets, the
    devices and the paths, and the launch configuration stored in the
    controller at the end. *)
Definition createSandbox_config (h : Host) (machine : govmmQemu.Machine)
    (smp : govmmQemu.SMP) (memory : govmmQemu.Memory) (knobs : govmmQemu.Knobs)
    (kernel : govmmQemu.Kernel) (incoming : govmmQemu.Incoming) (initrdPath : string)
  : M (option error) :=
  let rtc := {| govmmQemu.RTC_Base := "utc"; govmmQemu.RTC_DriftFix := "slew" |} in
  q ← getq;
  if bool_decide (UUID (state q) = "") then mret (Some "UUID should not be empty")
  else
    '(qmpSockets, err) ← createQmpSocket h;
    if err is Some e then mret (Some e)
    else
      '(devices, ioThread, err) ← buildDevices h initrdPath;
      if err is Some e then mret (Some e)
      else
        let cpuModel := ArchBase.cpuModel in
        q ← getq;
        match FirmwareAssetPath h (config q) with
        | (_, Some e) => mret (Some e)
        | (firmwarePath, None) =>
            match qemuPath h q with
            | (_, Some e) => mret (Some e)
            | (qemuPath, None) =>
                match ArchBase.appendRNGDevice devices rngID (EntropySource (config q)) with
                | (_, Some e) => mret (Some e)
                | (devices, None) =>
                    let qemuConfig := {|
                      govmmQemu.Config_Name := "sandbox-" +:+ id q;
                      govmmQemu.Config_UUID := UUID (state q);
                      govmmQemu.Config_Path := qemuPath;
                      govmmQemu.Config_Machine := machine;
                      govmmQemu.Config_SMP := smp;
                      govmmQemu.Config_Memory := memory;
                      govmmQemu.Config_Devices := devices;
                      govmmQemu.Config_CPUModel := cpuModel;
                      govmmQemu.Config_Kernel := kernel;
                      govmmQemu.Config_RTC := rtc;
                      govmmQemu.Config_QMPSockets := qmpSockets;
                      govmmQemu.Config_Knobs := knobs;
                      govmmQemu.Config_Incoming := incoming;
                      govmmQemu.Config_VGA := "none";
                      govmmQemu.Config_GlobalParam := "kvm-pit.lost_tick_policy=discard";
                      govmmQemu.Config_Bios := firmwarePath;
                      govmmQemu.Config_PidFile :=
                        filepathJoin h [RunVMStoragePath h; id q; "pid"];
                      govmmQemu.Config_LogFile := "";
                      govmmQemu.Config_IOThreads :=
                        if ioThread is Some t then [t] else [] |} in
                    modq (λ q, set_qemuConfig q qemuConfig);;
                    mret None
                end
            end
        end.

(** [createSandbox], up to the knobs of the memory; the rest is
    [createSandbox_config]. *)
Definition createSandbox (h : Host) (id : string) (hypervisorConfig : HypervisorConfig)
    (vcStore : bool) : M (option error) :=
  err ← setup h id hypervisorConfig vcStore;
  if err is Some e then mret (Some e)
  else
    q ← getq;
    match getQemuMachine q with
    | (_, Some e) => mret (Some e)
    | (machine, None) =>
        let smp := cpuTopology q in
        match memoryTopology h q with
        | (_, Some e) => mret (Some e)
        | (memory, None) =>
            let knobs := {|
              govmmQemu.NoUserConfig := true;
              govmmQemu.NoDefaults := true;
              govmmQemu.NoGraphic := true;
              govmmQemu.Daemonize := true;
              govmmQemu.HugePages := HugePages (config q);
              govmmQemu.MemPrealloc := MemPrealloc (config q);
              govmmQemu.FileBackedMem := false;
              govmmQemu.MemShared := false;
              govmmQemu.Mlock := Mlock (config q);
              govmmQemu.Stopped := false;
              govmmQemu.Realtime := Realtime (config q) |} in
            match KernelAssetPath h (config q) with
            | (_, Some e) => mret (Some e)
            | (kernelPath, None) =>
                match InitrdAssetPath h (config q) with
                | (_, Some e) => mret (Some e)
                | (initrdPath, None) =>
                    let kernel := {| govmmQemu.Kernel_Path := kernelPath;
                                     govmmQemu.Kernel_InitrdPath := initrdPath;
                                     govmmQemu.Kernel_Params := kernelParameters q |} in
                    let '(incoming, knobs, memory) := setupTemplate q knobs memory in
                    if bool_decide (SharedFS (config q) = config.VirtioFS)
                       || bool_decide (FileBackedMemRootDir (config q) ≠ "") then
                      if negb (BootToBeTemplate (config q) || BootFromTemplate (config q))
                      then
                        '(knobs, memory) ← setupFileBackedMem h knobs memory;
                        let knobs := if HugePages (config q)
                                     then set_MemPrealloc knobs true else knobs in
                        createSandbox_config h machine smp memory knobs kernel incoming
                          initrdPath
                      else mret (Some templatingError)
                    else
                      createSandbox_config h machine smp memory knobs kernel incoming
                        initrdPath
                end
            end
        end
    end.

(** Everything [createSandbox] needs besides the directory of the
    file-backed memory: the set-up, the machine type, the memory of the
    host, the paths of the assets, a UUID, the socket paths, the devices
    and the binary of QEMU. *)
Definition otherStepsSucceed (h : Host) (id : string) (hc : HypervisorConfig)
    (vcStore : bool) (w : World) : Prop :=
  let s := setup h id hc vcStore w in
  let b := buildDevices h (InitrdAssetPath h hc).1 s.2 in
  s.1 = None ∧
  (getQemuMachine (me s.2)).2 = None ∧
  (hostMemMB h).2 = None ∧
  (KernelAssetPath h hc).2 = None ∧
  (InitrdAssetPath h hc).2 = None ∧
  UUID (state (me s.2)) ≠ "" ∧
  (qmpSocketPath h id).2 = None ∧
  b.1.2 = None ∧
  (FirmwareAssetPath h hc).2 = None ∧
  (qemuPath h (me b.2)).2 = None.

(** What comes before the check of templating against file-backed
    memory. *)
Definition firstStepsSucceed (h : Host) (id : string) (hc : HypervisorConfig)
    (vcStore : bool) (w : World) : Prop :=
  let s := setup h id hc vcStore w in
  s.1 = None ∧
  (getQemuMachine (me s.2)).2 = None ∧
  (hostMemMB h).2 = None ∧
  (KernelAssetPath h hc).2 = None ∧
  (InitrdAssetPath h hc).2 = None.

(** Hosts for the examples of [createSandbox]: [missing] is a path that
    does not exist, [mt] the machine type of the architecture. *)
Definition archOf (mt : string) : qemuArchBase :=
  {| machineType := mt; memoryOffset := 0; nestedRun := false; vhost := true;
     networkIndex := 0;
     qemuPaths := {[ "pc" := "/usr/bin/qemu-system-x86_64" ]};
     supportedQemuMachines := [pcMachine];
     kernelParamsNonDebug := [{| Key := "quiet"; Value := "" |}];
     kernelParamsDebug := [{| Key := "debug"; Value := "" |}];
     kernelParams := [];
     Bridges := [] |}.

Definition createHost (missing mt : string) : Host :=
  testHost okStart okReply [] (4194304, None)
    (λ p, if bool_decide (p = missing) then Some "no such file or directory" else None)
    noFile okValid (λ _, archOf mt).

(** Two controllers with the same id, configuration and architecture:
    what the devices and the paths of a sandbox are built from. *)
Definition sameSetup (q q' : qemu) : Prop :=
  id q = id q' ∧ config q = config q' ∧ arch q = arch q'.

(** ** The callers of the hot plugging, and the saved state *)

(** *** Dispatching on the type of a device *)

(** What [hotplugDevice] is given: [devInfo interface{}] under the
    [devType] that says what it is.  The function asserts the type of
    [devInfo] after [devType]; a value here is a pair on which the
    assertion holds.  [otherDev] is any of the device types the [switch]
    has no case for, with the text [%v] prints for it. *)
Inductive deviceInfo :=
| blockDev (drive : config.BlockDrive)
| cpuDev (vcpus : N)
| vfioDev (device : config.VFIODev)
| memoryDev (memdev : memoryDevice)
| netDev (endpoint : Endpoint)
| otherDev (shown : string).

(** The [interface{}] that [hotplugDevice] returns: [nil], the [uint32]
    of [hotplugCPUs] or the [int] of [hotplugMemory]. *)
Inductive hotplugData :=
| nilData
| uint32Data (n : N)
| intData (z : Z).

(** [%+v] of such a value *)
Definition showData (d : hotplugData) : string :=
  match d with
  | nilData => "<nil>"
  | uint32Data n => fmt.Sprintf_d n
  | intData z => fmt.Sprintf_dZ z
  end.

(** [uint32(z)] of an [int] *)
Definition uint32_of_int (z : Z) : N := Z.to_N (z `mod` 2 ^ 32).

(** [calcHotplugMemMiBSize].  The source computes
    [uint32(math.Ceil(float64(mem)/float64(memorySectionSizeMB)))]: both
    operands are below [2^32] and exact as [float64]; when the quotient
    is not an integer it is at least [1/memorySectionSizeMB] away from
    the next integers, more than the rounding of the division can move
    it, so that the ceiling of the rounded quotient is the ceiling of
    the exact one.  The product is a [uint32] and wraps. *)
Definition calcHotplugMemMiBSize (mem memorySectionSizeMB : N) : N * option error :=
  if bool_decide (memorySectionSizeMB = 0) then (mem, None)
  else
    let ceil := if bool_decide (mem `mod` memorySectionSizeMB = 0)
                then mem / memorySectionSizeMB
                else mem / memorySectionSizeMB + 1 in
    (uint32 (ceil * memorySectionSizeMB), None).

Definition memoryDevice0 : memoryDevice :=
  {| slot := 0%Z; sizeMB := 0%Z; addr := 0; probe := false |}.

Definition set_size_probe (m : memoryDevice) (s : Z) (p : bool) : memoryDevice :=
  {| slot := slot m; sizeMB := s; addr := addr m; probe := p |}.

Section Dispatch.
Context `{BridgeCapacity}.
Variable h : Host.

(** The value is the data, the error, and the device as the callee left
    it (a drive, a memory device and an endpoint are passed by pointer). *)
Definition hotplugDevice (dev : deviceInfo) (op : operation)
  : M (hotplugData * option error * deviceInfo) :=
  match dev with
  | blockDev drive =>
      '(drive, err) ← hotplugBlockDevice h drive op;
      mret (nilData, err, blockDev drive)
  | cpuDev vcpus =>
      '(n, err) ← hotplugCPUs h vcpus op;
      mret (uint32Data n, err, dev)
  | vfioDev device =>
      err ← hotplugVFIODevice h device op;
      mret (nilData, err, dev)
  | memoryDev memdev =>
      '(n, err, memdev) ← hotplugMemory h memdev op;
      mret (intData n, err, memoryDev memdev)
  | netDev endpoint =>
      '(err, endpoint) ← hotplugNetDevice h endpoint op;
      mret (nilData, err, netDev endpoint)
  | otherDev shown =>
      mret (nilData,
            Some ("cannot hotplug device: unsupported device type '" +:+ shown +:+ "'"),
            dev)
  end.

Definition hotplugAddDevice (dev : deviceInfo)
  : M (hotplugData * option error * deviceInfo) :=
  '(data, err, dev) ← hotplugDevice dev addDevice;
  if err is Some e then mret (data, Some e, dev)
  else
    err ← storeState h;
    mret (data, err, dev).

Definition hotplugRemoveDevice (dev : deviceInfo)
  : M (hotplugData * option error * deviceInfo) :=
  '(data, err, dev) ← hotplugDevice dev removeDevice;
  if err is Some e then mret (data, Some e, dev)
  else
    err ← storeState h;
    mret (data, err, dev).

(** [resizeVCPUs]; the value is [(currentVCPUs, newVCPUs, err)]. *)
Definition resizeVCPUs (reqVCPUs : N) : M (N * N * option error) :=
  q ← getq;
  let currentVCPUs :=
    uint32 (NumVCPUs (config q)
            + uint32 (N.of_nat (length (HotpluggedVCPUs (state q))))) in
  let newVCPUs := currentVCPUs in
  if bool_decide (currentVCPUs < reqVCPUs) then
    let addCPUs := sub32 reqVCPUs currentVCPUs in
    '(data, err, _) ← hotplugAddDevice (cpuDev addCPUs);
    if err is Some e then mret (currentVCPUs, newVCPUs, Some e)
    else
      match data with
      | uint32Data vCPUsAdded =>
          mret (currentVCPUs, uint32 (newVCPUs + vCPUsAdded), None)
      | _ =>
          mret (currentVCPUs, newVCPUs,
                Some ("Could not get the vCPUs added, got " +:+ showData data))
      end
  else if bool_decide (reqVCPUs < currentVCPUs) then
    let removeCPUs := sub32 currentVCPUs reqVCPUs in
    '(data, err, _) ← hotplugRemoveDevice (cpuDev removeCPUs);
    if err is Some e then mret (currentVCPUs, newVCPUs, Some e)
    else
      match data with
      | uint32Data vCPUsRemoved =>
          mret (currentVCPUs, sub32 newVCPUs vCPUsRemoved, None)
      | _ =>
          mret (currentVCPUs, newVCPUs,
                Some ("Could not get the vCPUs removed, got " +:+ showData data))
      end
  else mret (currentVCPUs, newVCPUs, None).

(** What [resizeMemory] gets back from the dispatcher for a memory
    device: the device as [hotplugMemory] left it. *)
Definition memdevOf (dev : deviceInfo) (old : memoryDevice) : memoryDevice :=
  match dev with
  | memoryDev m => m
  | _ => old
  end.

(** [resizeMemory]; the value is [(currentMemory, addMemDevice, err)]. *)
Definition resizeMemory (reqMemMB memoryBlockSizeMB : N) (probe : bool)
  : M (N * memoryDevice * option error) :=
  q ← getq;
  let currentMemory :=
    uint32 (MemorySize (config q) + uint32_of_int (HotpluggedMemory (state q))) in
  err ← qmpSetup h;
  if err is Some e then mret (0, memoryDevice0, Some e)
  else
    let addMemDevice := memoryDevice0 in
    if bool_decide (currentMemory < reqMemMB) then
      let addMemMB := sub32 reqMemMB currentMemory in
      let '(memHotplugMB, err) := calcHotplugMemMiBSize addMemMB memoryBlockSizeMB in
      if err is Some e then mret (currentMemory, memoryDevice0, Some e)
      else
        let addMemDevice := set_size_probe addMemDevice (Z.of_N memHotplugMB) probe in
        '(data, err, dev) ← hotplugAddDevice (memoryDev addMemDevice);
        let addMemDevice := memdevOf dev addMemDevice in
        if err is Some e then mret (currentMemory, addMemDevice, Some e)
        else
          match data with
          | intData memoryAdded =>
              mret (uint32 (currentMemory + uint32_of_int memoryAdded),
                    addMemDevice, None)
          | _ =>
              mret (currentMemory, addMemDevice,
                    Some ("Could not get the memory added, got " +:+ showData data))
          end
    else if bool_decide (reqMemMB < currentMemory) then
      let addMemMB := sub32 currentMemory reqMemMB in
      let '(memHotunplugMB, err) := calcHotplugMemMiBSize addMemMB memoryBlockSizeMB in
      if err is Some e then mret (currentMemory, memoryDevice0, Some e)
      else
        let addMemDevice := set_size_probe addMemDevice (Z.of_N memHotunplugMB) probe in
        '(data, err, dev) ← hotplugRemoveDevice (memoryDev addMemDevice);
        let addMemDevice := memdevOf dev addMemDevice in
        if err is Some e then mret (currentMemory, addMemDevice, Some e)
        else
          match data with
          | intData memoryRemoved =>
              if bool_decide (memoryRemoved ≠ 0%Z) then
                mret (currentMemory, addMemDevice,
                      Some "memory hot unplug is not supported, something went wrong")
              else
                mret (sub32 currentMemory (uint32_of_int memoryRemoved),
                      addMemDevice, None)
          | _ =>
              mret (currentMemory, addMemDevice,
                    Some ("Could not get the memory removed, got " +:+ showData data))
          end
    else mret (currentMemory, addMemDevice, None).

End Dispatch.

(** *** The QMP session *)

(** [qmpShutdown]: closes the session, if one is open, and waits for
    the channel to report the disconnection. *)
Definition qmpShutdown : M unit :=
  q ← getq;
  if qmp (qmpMonitorCh q) then
    emit QMPShutdown;;
    modq (λ q, set_qmpMonitorCh q {| path := path (qmpMonitorCh q); qmp := false |})
  else skip.

(** [disconnect] *)
Definition disconnect : M unit := qmpShutdown.

(** *** Saving and loading the state *)

Module persistapi.

(** The fields of [persistapi.Bridge], [persistapi.CPUDevice] and
    [persistapi.HypervisorState] that [save] and [load] use. *)
Record Bridge := {
  DeviceAddr : gmap N string;
  Type_ : string;
  ID : string;
  Addr : Z
}.

Record CPUDevice := { ID_ : string }.

Record HypervisorState := {
  Pid : Z;
  Bridges : list Bridge;
  HotpluggedVCPUs : list CPUDevice;
  HotpluggedMemory : Z;
  UUID : string;
  HotplugVFIOOnRootBus : bool;
  VirtiofsdPid : Z;
  HypervisorType : string
}.

End persistapi.

(** [types.Type(s)], the conversion of a string to the type of a bus,
    and [string(t)] back. *)
Definition TypeOfString (s : string) : types.BusType :=
  if bool_decide (s = "pci") then types.PCI
  else if bool_decide (s = "pcie") then types.PCIE
  else if bool_decide (s = "ccw") then types.CCW
  else types.OtherType s.

(** [OtherType] stands for the strings that name none of the three
    buses. *)
Definition properType (t : types.BusType) : Prop :=
  TypeOfString (types.Type_name t) = t.

Section Persist.
Variable h : Host.
(** [string(QemuHypervisor)], a constant of [hypervisor.go] *)
Variable QemuHypervisor : string.

Definition saveBridge (bridge : types.Bridge) : persistapi.Bridge :=
  {| persistapi.DeviceAddr := types.Address bridge;
     persistapi.Type_ := types.Type_name (types.Type_ bridge);
     persistapi.ID := types.ID bridge;
     persistapi.Addr := types.Addr bridge |}.

Definition save : M persistapi.HypervisorState :=
  pids ← getPids h;
  q ← getq;
  mret {| persistapi.Pid := match pids with pid :: _ => pid | [] => 0%Z end;
          persistapi.VirtiofsdPid := VirtiofsdPid (state q);
          persistapi.HypervisorType := QemuHypervisor;
          persistapi.UUID := UUID (state q);
          persistapi.HotpluggedMemory := HotpluggedMemory (state q);
          persistapi.HotplugVFIOOnRootBus := State_HotplugVFIOOnRootBus (state q);
          persistapi.Bridges := map saveBridge (ArchBase.getBridges (arch q));
          persistapi.HotpluggedVCPUs :=
            map (λ cpu, {| persistapi.ID_ := CPU_ID cpu |}) (HotpluggedVCPUs (state q)) |}.

Definition loadBridge (bridge : persistapi.Bridge) : types.Bridge :=
  types.NewBridge (TypeOfString (persistapi.Type_ bridge)) (persistapi.ID bridge)
    (persistapi.DeviceAddr bridge) (persistapi.Addr bridge).

Definition load (s : persistapi.HypervisorState) (q : qemu) : qemu :=
  set_state q
    {| UUID := persistapi.UUID s;
       HotpluggedMemory := persistapi.HotpluggedMemory s;
       State_HotplugVFIOOnRootBus := persistapi.HotplugVFIOOnRootBus s;
       VirtiofsdPid := persistapi.VirtiofsdPid s;
       State_Bridges := State_Bridges (state q) ++ map loadBridge (persistapi.Bridges s);
       HotpluggedVCPUs :=
         HotpluggedVCPUs (state q)
         ++ map (λ cpu, {| CPU_ID := persistapi.ID_ cpu |}) (persistapi.HotpluggedVCPUs s) |}.

End Persist.

(** *** The bridges of a machine type ([genericBridges]) *)

Definition QemuPC : string := "pc".
Definition QemuQ35 : string := "q35".
Definition QemuVirt : string := "virt".
Definition QemuPseries : string := "pseries".

Fixpoint newBridges (bt : types.BusType) (i : N) (count : nat) : list types.Bridge :=
  match count with
  | O => []
  | S count' =>
      types.NewBridge bt (types.Type_name bt +:+ "-bridge-" +:+ fmt.Sprintf_d i) ∅ 0
      :: newBridges bt (i + 1) count'
  end.

Definition genericBridges (number : N) (machineType : string) : list types.Bridge :=
  if bool_decide (machineType = QemuQ35) || bool_decide (machineType = QemuPC) then
    newBridges types.PCI 0 (N.to_nat number)
  else if bool_decide (machineType = QemuVirt) then
    newBridges types.PCIE 0 (N.to_nat number)
  else if bool_decide (machineType = QemuPseries) then
    newBridges types.PCI 0 (N.to_nat number)
  else if bool_decide (machineType = ArchBase.QemuCCWVirtio) then
    newBridges types.CCW 0 (N.to_nat number)
  else [].

(** *** Well-formed lists of vCPUs, and what the trace shows *)

(** The number a string of decimal digits writes, continuing from
    [acc]: the way back from [%d]. *)
Definition digitValue (c : ascii) : N := N.of_nat (nat_of_ascii c) - 48.

Fixpoint decimalValue (s : string) (acc : N) : N :=
  match s with
  | EmptyString => acc
  | String c rest => decimalValue rest (10 * acc + digitValue c)
  end.

(** The entry at position [k] of the hot-plugged vCPUs is named
    [cpu-<k>]. *)
Definition namedByPosition (l : list CPUDevice) : Prop :=
  ∀ k c, l !! k = Some c → c = cpuIDAt k.

(** A device occupies a slot of one of the bridges. *)
Definition onBridge (ID : string) (bs : list types.Bridge) : Prop :=
  ∃ b a, b ∈ bs ∧ types.Address b !! a = Some ID.

Section Full.
Context `{BridgeCapacity}.

(** A bridge has no free slot among those its bus type gives it. *)
Definition full (b : types.Bridge) : Prop :=
  ∀ cap a, types.maxCapacity (types.Type_ b) = Some cap → 1 ≤ a ≤ cap →
           is_Some (types.Address b !! a).

End Full.


Definition isCPUDeviceAdd (c : QmpCmd) : bool :=
  match c with
  | ExecuteCPUDeviceAdd _ _ _ _ _ _ _ => true
  | _ => false
  end.

(** The driver and the core of a hotpluggable CPU, as a [device_add]
    carries them, and those of a [device_add] of a CPU. *)
Definition cpuKey (hc : govmmQemu.HotpluggableCPU) : string * string :=
  (govmmQemu.HC_Type hc, fmt.Sprintf_dZ (govmmQemu.Core (govmmQemu.Properties hc))).

Definition cpuOf (c : QmpCmd) : option (string * string) :=
  match c with
  | ExecuteCPUDeviceAdd driver _ _ _ coreID _ _ => Some (driver, coreID)
  | _ => None
  end.

(** A command that is not the [device_add] of a CPU with a socket, a die
    or a thread id. *)
Definition noTopology (c : QmpCmd) : Prop :=
  match c with
  | ExecuteCPUDeviceAdd _ _ socketID dieID _ threadID _ =>
      socketID = "" ∧ dieID = "" ∧ threadID = ""
  | _ => True
  end.

(** The directory trees that a trace removes, in order *)
Definition removals (t : list Event) : list string :=
  omap (fun e => match e with RemoveAll d => Some d | _ => None end) t.
(** ** Slot strings of [addDeviceToBridge] *)

Section SlotStrings.

Lemma length_append (s1 s2 : string) :
  String.length (s1 +:+ s2) = (String.length s1 + String.length s2)%nat.
Proof. induction s1 as [|c s1 IH]; simpl; [reflexivity | now rewrite IH]. Qed.

Lemma allHex_append (s1 s2 : string) :
  fmt.allHex (s1 +:+ s2) = fmt.allHex s1 && fmt.allHex s2.
Proof.
  unfold fmt.allHex. induction s1 as [|c s1 IH]; simpl; [reflexivity|].
  rewrite IH. now rewrite andb_assoc.
Qed.

Lemma length_zeros (k : nat) : String.length (fmt.zeros k) = k.
Proof. induction k; simpl; congruence. Qed.

Lemma allHex_zeros (k : nat) : fmt.allHex (fmt.zeros k) = true.
Proof. induction k; [reflexivity|]. unfold fmt.allHex in *. simpl. now rewrite IHk. Qed.

Lemma isHexDigit_digitChar (d : N) : d < 16 → fmt.isHexDigit (fmt.digitChar d) = true.
Proof.
  intros Hd.
  assert (Hall : forallb (fun k => fmt.isHexDigit (fmt.digitChar (N.of_nat k)))
                   (seq 0 16) = true) by (vm_compute; reflexivity).
  rewrite forallb_forall in Hall.
  specialize (Hall (N.to_nat d)). rewrite N2Nat.id in Hall.
  apply Hall, in_seq. lia.
Qed.

Lemma allHex_digits (fuel : nat) : ∀ n acc,
  fmt.allHex acc = true → fmt.allHex (fmt.digits 16 fuel n acc) = true.
Proof.
  induction fuel as [|fuel IH]; intros n acc Hacc; simpl; [assumption|].
  assert (Hstep : fmt.allHex (String (fmt.digitChar (n `mod` 16)) acc) = true).
  { unfold fmt.allHex in *. simpl. rewrite Hacc, andb_true_r.
    apply isHexDigit_digitChar. apply N.mod_lt. lia. }
  destruct (n `div` 16 =? 0); [assumption | now apply IH].
Qed.

(** A value below [16^k] has at most [k] hexadecimal digits, and any
    value has at least one. *)
Lemma length_digits_le (fuel : nat) : ∀ (k : nat) n acc,
  (1 ≤ k)%nat → n < 16 ^ N.of_nat k →
  (String.length (fmt.digits 16 fuel n acc) ≤ k + String.length acc)%nat.
Proof.
  induction fuel as [|fuel IH]; intros k n acc Hk Hn; simpl; [lia|].
  destruct (N.eqb_spec (n `div` 16) 0) as [Hz|Hnz]; simpl; [lia|].
  destruct k as [|[|k]]; [lia| |].
  - exfalso. apply Hnz. apply N.div_small. simpl in Hn. lia.
  - specialize (IH (S k) (n `div` 16) (String (fmt.digitChar (n `mod` 16)) acc)).
    simpl in IH. etransitivity; [apply IH|]; [lia| |lia].
    apply N.Div0.div_lt_upper_bound.
    replace (N.of_nat (S (S k))) with (N.succ (N.of_nat (S k))) in Hn by lia.
    now rewrite N.pow_succ_r' in Hn.
Qed.

Lemma length_digits_ge (fuel : nat) n acc :
  (S (String.length acc) ≤ String.length (fmt.digits 16 (S fuel) n acc))%nat.
Proof.
  revert n acc. induction fuel as [|fuel IH]; intros n acc.
  - simpl. destruct (n `div` 16 =? 0); simpl; lia.
  - change (fmt.digits 16 (S (S fuel)) n acc)
      with (let acc' := String (fmt.digitChar (n `mod` 16)) acc in
            if n `div` 16 =? 0 then acc' else fmt.digits 16 (S fuel) (n `div` 16) acc').
    simpl. destruct (n `div` 16 =? 0); simpl; [lia|].
    etransitivity; [|apply IH]. simpl. lia.
Qed.

(** [%0wx] of a value below [16^w] is exactly [w] hexadecimal digits. *)
Lemma Sprintf_0x_exact (w : nat) (n : N) :
  (1 ≤ w)%nat → n < 16 ^ N.of_nat w →
  String.length (fmt.Sprintf_0x w n) = w ∧ fmt.allHex (fmt.Sprintf_0x w n) = true.
Proof.
  intros Hw Hn. unfold fmt.Sprintf_0x, fmt.FormatUint. cbv zeta.
  pose proof (length_digits_le (S (N.to_nat (N.log2 n))) w n "" Hw Hn) as Hle.
  simpl String.length in Hle at 2. split.
  - rewrite length_append, length_zeros. lia.
  - rewrite allHex_append, allHex_zeros. apply allHex_digits. reflexivity.
Qed.

(** A wider value is printed in full: the width is a minimum. *)
Lemma Sprintf_0x_wide : fmt.Sprintf_0x 4 0x10000 = "10000" ∧ fmt.Sprintf_0x 2 0x100 = "100".
Proof. split; reflexivity. Qed.

Context `{BridgeCapacity}.

Lemma firstFree_bounds (m : gmap N string) (fuel : nat) : ∀ i a,
  types.firstFree m fuel i = Some a → i ≤ a < i + N.of_nat fuel ∧ m !! a = None.
Proof.
  induction fuel as [|fuel IH]; intros i a Hf; simpl in Hf; [discriminate|].
  destruct (m !! i) eqn:Hi.
  - apply IH in Hf as [Hb Hm]. split; [lia | assumption].
  - injection Hf as <-. split; [lia | assumption].
Qed.

(** What a successful [AddDevice] returns: a free slot within the
    capacity of the bridge, now holding the device. *)
Lemma AddDevice_ok (b b' : types.Bridge) (id : string) (addr : N) :
  types.AddDevice b id = ((addr, None), b') →
  ∃ cap, types.maxCapacity (types.Type_ b) = Some cap ∧ 1 ≤ addr ≤ cap ∧
         types.Address b !! addr = None ∧
         b' = types.set_Address b (<[addr := id]> (types.Address b)).
Proof.
  unfold types.AddDevice. destruct (types.maxCapacity (types.Type_ b)) as [cap|];
    [|discriminate].
  destruct (types.firstFree _ _ _) as [a|] eqn:Hf; [|discriminate].
  intros [= <- <-]. apply firstFree_bounds in Hf. exists cap. repeat split; try tauto; lia.
Qed.

Lemma addDeviceToBridge_range_ok (bs : list types.Bridge) (ID : string)
    (t : types.BusType) : ∀ s b bs',
  ArchBase.addDeviceToBridge_range bs ID t = ((s, b, None), bs') →
  ∃ cap addr, types.maxCapacity t = Some cap ∧ 1 ≤ addr ≤ cap ∧
    match t with
    | types.CCW => s = fmt.Sprintf_0x 4 addr
    | types.PCI | types.PCIE => s = fmt.Sprintf_0x 2 addr
    | types.OtherType _ => False
    end.
Proof.
  induction bs as [|b0 bs IH]; intros s b bs' Hr; simpl in Hr; [discriminate|].
  destruct (decide (t ≠ types.Type_ b0)) as [Hne|Heq].
  - destruct (ArchBase.addDeviceToBridge_range bs ID t) as [[[s1 b1] e1] rest] eqn:Hrec.
    injection Hr as -> -> -> <-. eapply IH. reflexivity.
  - apply dec_stable in Heq.
    destruct (types.AddDevice b0 ID) as [[addr err] b1] eqn:Hadd.
    destruct err as [e|].
    + destruct (ArchBase.addDeviceToBridge_range bs ID t) as [[[s1 b2] e1] rest] eqn:Hrec.
      injection Hr as -> -> -> <-. eapply IH. reflexivity.
    + apply AddDevice_ok in Hadd as (cap & Hcap & Hb & _ & _). rewrite <- Heq in Hcap.
      destruct t; try (injection Hr as <- <- <-; exists cap, addr; auto).
      simpl in Hcap. discriminate.
Qed.

End SlotStrings.

(** C9.  When the capacity of a PCI(e) bridge is below [16^2] and that of
    a CCW bridge below [16^4], a successful [addDeviceToBridge] returns,
    for every device id, a slot string of hexadecimal digits whose length
    is fixed by the bus type alone: four for CCW, two for PCI and PCIe;
    it succeeds for no other bus type. *)
Theorem addDeviceToBridge_slot_format `{BridgeCapacity} (q q' : qemuArchBase)
    (ID : string) (t : types.BusType) (s : string) (b : types.Bridge) :
  PCIBridgeMaxCapacity < 16 ^ 2 →
  CCWBridgeMaxCapacity < 16 ^ 4 →
  ArchBase.addDeviceToBridge q ID t = ((s, b, None), q') →
  fmt.allHex s = true ∧
  match t with
  | types.CCW => String.length s = 4%nat
  | types.PCI | types.PCIE => String.length s = 2%nat
  | types.OtherType _ => False
  end.
Proof.
  intros Hpci Hccw. unfold ArchBase.addDeviceToBridge.
  destruct (decide (length (Bridges q) = 0%nat)); [discriminate|].
  destruct (ArchBase.addDeviceToBridge_range (Bridges q) ID t) as [[[s1 b1] e1] bs] eqn:Hr.
  intros [= -> -> -> <-].
  apply addDeviceToBridge_range_ok in Hr as (cap & addr & Hcap & Haddr & Hs).
  destruct t; simpl in Hcap; try discriminate; injection Hcap as <-; subst s.
  - destruct (Sprintf_0x_exact 2 addr) as [Hl Hh]; [lia | simpl; lia | auto].
  - destruct (Sprintf_0x_exact 2 addr) as [Hl Hh]; [lia | simpl; lia | auto].
  - destruct (Sprintf_0x_exact 4 addr) as [Hl Hh]; [lia | simpl; lia | auto].
Qed.

Lemma addDeviceToBridge_slot_format_witness :
  fmt.allHex "02" = true ∧ String.length "02" = 2%nat.
Proof.
  apply (addDeviceToBridge_slot_format (H := busCapacity)
           (pcArch [types.NewBridge types.PCI "pci-bridge-0" {[ 1 := "virtio-drive0" ]} 2%Z])
           (ArchBase.addDeviceToBridge (H := busCapacity)
              (pcArch [types.NewBridge types.PCI "pci-bridge-0" {[ 1 := "virtio-drive0" ]} 2%Z])
              "net0" types.PCI).2
           "net0" types.PCI "02"
           (ArchBase.addDeviceToBridge (H := busCapacity)
              (pcArch [types.NewBridge types.PCI "pci-bridge-0" {[ 1 := "virtio-drive0" ]} 2%Z])
              "net0" types.PCI).1.1.2).
  - reflexivity.
  - reflexivity.
  - vm_compute. reflexivity.
Defined.

Example addDeviceToBridge_ccw :
  (ArchBase.addDeviceToBridge (H := busCapacity)
     (pcArch [types.NewBridge types.PCI "pci-bridge-0" ∅ 2%Z;
              types.NewBridge types.CCW "ccw-bridge-0" {[ 1 := "a"; 2 := "b" ]} 0%Z])
     "drive1" types.CCW).1.1.1 = "0003".
Proof. vm_compute. reflexivity. Qed.

(** ** Hot plugging of vCPUs *)

(** Case analysis on a scrutinee of the goal that has no case analysis
    inside it. *)
Ltac break_match :=
  match goal with
  | |- context [match ?x with _ => _ end] =>
      lazymatch x with
      | context [match _ with _ => _ end] => fail
      | _ => destruct x eqn:?
      end
  end.

Ltac munfold :=
  unfold exec, onArch, logf, skip in *;
  unfold mbind, mret, M_bind, M_ret, getq, putq, modq, emit, ask in *.

Lemma qmpCmds_app (t1 t2 : list Event) : qmpCmds (t1 ++ t2) = qmpCmds t1 ++ qmpCmds t2.
Proof. unfold qmpCmds. apply omap_app. Qed.

Lemma qmpCmds_cons (c : QmpCmd) (t : list Event) : qmpCmds (Qmp c :: t) = c :: qmpCmds t.
Proof. reflexivity. Qed.

Lemma storeState_spec (h : Host) (w : World) :
  ∃ new, trace (storeState h w).2 = trace w ++ new ∧ qmpCmds new = [] ∧
         logsAt LWarn new = [] ∧
         cpus (storeState h w).2 = cpus w ∧
         HotpluggedMemory (state (me (storeState h w).2)) = HotpluggedMemory (state (me w)) ∧
         arch (me (storeState h w).2) = arch (me w) ∧
         persisted (storeState h w).2.
Proof.
  unfold storeState, persisted. munfold. simpl.
  destruct (store (me w)) eqn:Hs; simpl.
  - exists [Store (set_State_Bridges (state (me w)) (ArchBase.getBridges (arch (me w))))].
    repeat split; try reflexivity. intros _. now rewrite last_snoc.
  - exists []. rewrite app_nil_r. repeat split; try reflexivity. congruence.
Qed.

Lemma last_Some_snoc {A} (l : list A) (x : A) :
  list.last l = Some x → l = removelast l ++ [x].
Proof.
  destruct l as [|y l] using rev_ind; [discriminate|].
  rewrite last_snoc. intros [= ->]. now rewrite removelast_last.
Qed.

(** The loop of [hotplugRemoveCPUs]: [k] vCPUs leave the tail of the list,
    last first; the run ends either after all [todo] rounds, or at the
    first [device_del] that fails, after which the state is persisted. *)
Lemma hotplugRemoveCPUs_range_spec (h : Host) (amount : N) (todo : nat) :
  ∀ (i : N) (w : World),
    (todo ≤ length (cpus w))%nat →
    i + N.of_nat todo = amount →
    ∃ (k : nat) (new : list Event),
      let r := hotplugRemoveCPUs_range h amount todo i w in
      (k ≤ todo)%nat ∧
      r.1.1 = i + N.of_nat k ∧
      trace r.2 = trace w ++ new ∧
      cpus r.2 = take (length (cpus w) - k) (cpus w) ∧
      persisted r.2 ∧
      ((k = todo ∧
        qmpCmds new = deviceDels (rev (drop (length (cpus w) - k) (cpus w))))
       ∨
       (k < todo ∧ is_Some r.1.2 ∧
        qmpCmds new = deviceDels (rev (drop (length (cpus w) - S k) (cpus w))) ∧
        ∃ c, list.last (qmpCmds new) = Some c ∧ rejectedLast h r.2 c))%nat.
Proof.
  induction todo as [|todo IH]; intros i w Hlen Hi.
  - exists 0%nat. simpl hotplugRemoveCPUs_range. munfold.
    destruct (storeState_spec h w) as (new & Ht & Hq & _ & Hc & _ & _ & Hp).
    destruct (storeState h w) as [err w'] eqn:Hs. simpl in *.
    exists new. split_and!; try assumption.
    + lia.
    + lia.
    + rewrite Hc, Nat.sub_0_r. now rewrite firstn_all.
    + left. split; [reflexivity|]. rewrite Hq, Nat.sub_0_r, drop_all. reflexivity.
  - simpl hotplugRemoveCPUs_range. munfold. simpl.
    destruct (list.last (cpus w)) as [cpu|] eqn:Hlast.
    2:{ apply last_None in Hlast. rewrite Hlast in Hlen. simpl in Hlen. lia. }
    apply last_Some_snoc in Hlast.
    set (pre := removelast (cpus w)) in *.
    assert (Hpre : length (cpus w) = S (length pre)).
    { rewrite Hlast at 1. rewrite length_app. simpl. lia. }
    destruct (qmpReply h (trace w) (ExecuteDeviceDel (CPU_ID cpu))) as [e|] eqn:Hrep.
    + (* the device_del fails *)
      set (w1 := {| me := me w; trace := trace w ++ [Qmp (ExecuteDeviceDel (CPU_ID cpu))] |}).
      destruct (storeState_spec h w1) as (new & Ht & Hq & _ & Hc & _ & _ & Hp).
      destruct (storeState h w1) as [err w'] eqn:Hs. simpl in *.
      exists 0%nat, ([Qmp (ExecuteDeviceDel (CPU_ID cpu))] ++ new).
      split_and!.
      * lia.
      * lia.
      * rewrite Ht. now rewrite app_assoc.
      * rewrite Hc, Nat.sub_0_r. now rewrite firstn_all.
      * assumption.
      * right. split; [lia|]. split; [eauto|].
        rewrite qmpCmds_app, Hq, app_nil_r. split.
        -- rewrite Hpre.
           replace (S (length pre) - 1)%nat with (length pre) by lia.
           rewrite Hlast, drop_app_length. reflexivity.
        -- exists (ExecuteDeviceDel (CPU_ID cpu)). split; [reflexivity|].
           exists (trace w), new, e. rewrite Ht. subst w1. simpl.
           rewrite <- app_assoc. auto.
    + (* the device_del succeeds *)
      set (w1 := {| me := set_state (me w) (set_HotpluggedVCPUs (state (me w)) pre);
                    trace := trace w ++ [Qmp (ExecuteDeviceDel (CPU_ID cpu))] |}).
      destruct (IH (i + 1) w1) as (k & new & Hk & Hr & Ht & Hc & Hp & Hcase).
      { simpl. lia. }
      { lia. }
      exists (S k), ([Qmp (ExecuteDeviceDel (CPU_ID cpu))] ++ new).
      simpl in *. fold pre. fold w1.
      assert (Htake : take (length pre - k) pre = take (length (cpus w) - S k) (cpus w)).
      { rewrite Hpre. replace (S (length pre) - S k)%nat with (length pre - k)%nat by lia.
        rewrite Hlast. rewrite take_app_le by lia. reflexivity. }
      assert (Hdrop : ∀ j, (j ≤ length pre)%nat →
                rev (drop (length (cpus w) - S j) (cpus w))
                = cpu :: rev (drop (length pre - j) pre)).
      { intros j Hj. rewrite Hpre.
        replace (S (length pre) - S j)%nat with (length pre - j)%nat by lia.
        rewrite Hlast. rewrite drop_app_le by lia. rewrite rev_app_distr. reflexivity. }
      split_and!.
      * lia.
      * rewrite Hr. lia.
      * rewrite Ht. simpl. now rewrite <- app_assoc.
      * rewrite Hc. exact Htake.
      * assumption.
      * destruct Hcase as [[-> Hq]|(Hlt & Herr & Hq & c & Hc1 & Hc2)].
        -- left. split; [reflexivity|]. rewrite Hq.
           rewrite Hdrop by lia. reflexivity.
        -- right. split; [lia|]. split; [assumption|]. rewrite Hq. split.
           ++ rewrite (Hdrop (S k)) by lia. reflexivity.
           ++ exists c. split; [|assumption].
              destruct (qmpCmds new); [discriminate|]. rewrite <- Hq. exact Hc1.
Qed.

(** C3.  [hotplugRemoveCPUs amount], with [pre] the hot-plugged vCPUs
    before the call:
    - when [amount] exceeds the length of [pre] it returns [(0, error)]
      and changes nothing;
    - otherwise it returns the number [k] of vCPUs it removed, the list
      is [pre] without its last [k] entries, the state has been
      persisted, and either [k = amount] and [device_del] was issued for
      exactly the last [amount] entries, last first, or [k < amount], an
      error is returned, and [device_del] was issued for the last [k + 1]
      entries, last first, QEMU having rejected the last of them;
    - when no error is returned, [amount] is returned and exactly the
      last [amount] entries are gone. *)
Theorem hotplugRemoveCPUs_lifo (h : Host) (amount : N) (w : World) :
  let r := hotplugRemoveCPUs h amount w in
  let pre := cpus w in
  let n := N.to_nat amount in
  ((length pre < n)%nat → r.1.1 = 0 ∧ is_Some r.1.2 ∧ r.2 = w) ∧
  ((r.1.1 = 0 ∧ is_Some r.1.2 ∧ r.2 = w) ∨
   (n ≤ length pre)%nat ∧
   ∃ (k : nat) (new : list Event),
     r.1.1 = N.of_nat k ∧
     trace r.2 = trace w ++ new ∧
     cpus r.2 = take (length pre - k) pre ∧
     persisted r.2 ∧
     ((k = n ∧ qmpCmds new = deviceDels (rev (drop (length pre - n) pre))) ∨
      (k < n ∧ is_Some r.1.2 ∧
       qmpCmds new = deviceDels (rev (drop (length pre - S k) pre)) ∧
       ∃ c, list.last (qmpCmds new) = Some c ∧ rejectedLast h r.2 c))%nat) ∧
  (r.1.2 = None →
   r.1.1 = amount ∧ (n ≤ length pre)%nat ∧
   cpus r.2 = take (length pre - n) pre ∧
   ∃ new, trace r.2 = trace w ++ new ∧
          qmpCmds new = deviceDels (rev (drop (length pre - n) pre))).
Proof.
  intros r pre n.
  assert (Hmod : uint32 (N.of_nat (length pre)) ≤ N.of_nat (length pre)).
  { unfold uint32. apply N.Div0.mod_le. }
  assert (Hlt32 : uint32 (N.of_nat (length pre)) < 2 ^ 32).
  { unfold uint32. apply N.mod_lt. lia. }
  assert (Hcases :
    (r.1.1 = 0 ∧ is_Some r.1.2 ∧ r.2 = w ∧
     uint32 (N.of_nat (length pre)) < amount) ∨
    (n ≤ length pre)%nat ∧
    ∃ (k : nat) (new : list Event),
      r.1.1 = N.of_nat k ∧
      trace r.2 = trace w ++ new ∧
      cpus r.2 = take (length pre - k) pre ∧
      persisted r.2 ∧
      ((k = n ∧ qmpCmds new = deviceDels (rev (drop (length pre - n) pre))) ∨
       (k < n ∧ is_Some r.1.2 ∧
        qmpCmds new = deviceDels (rev (drop (length pre - S k) pre)) ∧
        ∃ c, list.last (qmpCmds new) = Some c ∧ rejectedLast h r.2 c))%nat).
  { subst r. unfold hotplugRemoveCPUs. munfold. simpl. fold pre.
    case_bool_decide as Hguard.
    - left. simpl. eauto.
    - right. assert (Hn : (n ≤ length pre)%nat) by (subst n; lia).
      split; [assumption|].
      destruct (hotplugRemoveCPUs_range_spec h amount n 0 w Hn)
        as (k & new & Hk & Hr & Ht & Hc & Hp & Hcase); [subst n; lia|].
      cbv zeta in *. fold n. exists k, new.
      split_and!; try assumption.
      destruct Hcase as [[-> Hq]|Hfail]; [left|right]; auto. }
  split_and!.
  - intros Hlen. destruct Hcases as [(H1 & H2 & H3 & _)|[Hn _]]; [auto | lia].
  - destruct Hcases as [(H1 & H2 & H3 & _)|Hrun]; [left|right]; auto.
  - intros Hok. destruct Hcases as [(_ & [e He] & _)|[Hn Hrun]]; [congruence|].
    destruct Hrun as (k & new & Hr & Ht & Hc & _ & [[-> Hq]|(_ & [e He] & _)]);
      [|congruence].
    split_and!; try assumption.
    + rewrite Hr. subst n. lia.
    + eauto.
Qed.

(** The loop of [hotplugAddCPUs], entered with [c] vCPUs added so far:
    the list only grows, at its end, by vCPUs named after the length of
    the list at the time, and the count returned is [c] plus the number
    of vCPUs the loop added; without an error that count is [amount]. *)
Lemma hotplugAddCPUs_range_spec (h : Host) (machine : govmmQemu.Machine) (amount : N)
    (hcs : list govmmQemu.HotpluggableCPU) :
  amount < 2 ^ 32 →
  ∀ (c : N) (w : World),
    c < amount →
    let r := hotplugAddCPUs_range h machine amount hcs c w in
    ∃ added : list CPUDevice,
      cpus r.2 = cpus w ++ added ∧
      r.1.1 = c + N.of_nat (length added) ∧
      (∀ j, (j < length added)%nat → added !! j = Some (cpuIDAt (length (cpus w) + j))) ∧
      (r.1.2 = None → r.1.1 = amount).
Proof.
  intros H32. induction hcs as [|hc rest IH]; intros c w Hc.
  - simpl hotplugAddCPUs_range. munfold.
    destruct (storeState_spec h w) as (new & _ & _ & _ & Hcp & _ & _ & _).
    destruct (storeState h w) as [err w'] eqn:Hs. simpl in Hcp.
    exists []. cbv zeta. rewrite app_nil_r.
    destruct err; simpl; (split_and!; [assumption | lia | intros j Hj; simpl in Hj; lia | discriminate]).
  - simpl hotplugAddCPUs_range. case_bool_decide as Hq; [apply IH; assumption|].
    munfold. simpl.
    set (cpuID := "cpu-" +:+ fmt.Sprintf_d (N.of_nat (length (cpus w)))).
    match goal with |- context [qmpReply h (trace w) ?cmd] =>
      set (c0 := cmd); destruct (qmpReply h (trace w) c0) as [e|] eqn:Hrep end.
    + specialize (IH c {| me := me w; trace := trace w ++ [Qmp c0] |} Hc). exact IH.
    + assert (Hu : uint32 (c + 1) = c + 1).
      { unfold uint32. apply N.mod_small. lia. }
      rewrite Hu. cbn [me trace].
      set (w1 := {| me := set_state (me w) (set_HotpluggedVCPUs (state (me w))
                                              (cpus w ++ [{| CPU_ID := cpuID |}]));
                    trace := trace w ++ [Qmp c0] |}).
      case_bool_decide as Hdone.
      * destruct (storeState_spec h w1) as (new & _ & _ & _ & Hcp & _ & _ & _).
        destruct (storeState h w1) as [err w'] eqn:Hs. simpl in Hcp |- *.
        exists [cpuIDAt (length (cpus w))]. split_and!.
        -- exact Hcp.
        -- simpl. lia.
        -- intros [|j] Hj; simpl in Hj; [|lia]. rewrite Nat.add_0_r. reflexivity.
        -- reflexivity.
      * destruct (IH (c + 1) w1) as (added & Ha & Hr & Hids & Hok); [lia|].
        exists (cpuIDAt (length (cpus w)) :: added). split_and!.
        -- rewrite Ha. simpl. rewrite <- app_assoc. reflexivity.
        -- rewrite Hr. simpl length. lia.
        -- intros [|j] Hj; simpl in Hj.
           ++ rewrite Nat.add_0_r. reflexivity.
           ++ simpl. rewrite Hids by lia. simpl. rewrite length_app. simpl.
              f_equal. f_equal. lia.
        -- exact Hok.
Qed.

Lemma sub32_lt (a b : N) : sub32 a b < 2 ^ 32.
Proof. unfold sub32, uint32. apply N.mod_lt. lia. Qed.

(** C4, as the code has it.  Whatever [hotplugAddCPUs amount] returns,
    the hot-plugged vCPUs after the call are those before it followed by
    as many new entries as the count returned, and the entry at position
    [k] of the list is named [cpu-<k>].  When no error is returned the
    count is [amount], unless [amount] exceeds what is left up to
    [DefaultMaxVCPUs]: then it is what is left. *)
Theorem hotplugAddCPUs_appends (h : Host) (amount : N) (w : World) :
  amount < 2 ^ 32 →
  let r := hotplugAddCPUs h amount w in
  ∃ added : list CPUDevice,
    cpus r.2 = cpus w ++ added ∧
    r.1.1 = N.of_nat (length added) ∧
    (∀ j, (j < length added)%nat → added !! j = Some (cpuIDAt (length (cpus w) + j))) ∧
    (r.1.2 = None →
     r.1.1 = if exceedsMax (me w) amount
             then sub32 (DefaultMaxVCPUs (config (me w))) (currentVCPUs (me w))
             else amount).
Proof.
  intros H32. unfold hotplugAddCPUs. munfold. cbn [me trace].
  set (amount' := if exceedsMax (me w) amount
                  then sub32 (DefaultMaxVCPUs (config (me w))) (currentVCPUs (me w))
                  else amount).
  assert (H32' : amount' < 2 ^ 32).
  { subst amount'. destruct (exceedsMax (me w) amount); [apply sub32_lt | assumption]. }
  assert (Hrange : ∀ machine l w1, cpus w1 = cpus w → amount' ≠ 0 →
            ∃ added : list CPUDevice,
              cpus (hotplugAddCPUs_range h machine amount' l 0 w1).2 = cpus w ++ added ∧
              (hotplugAddCPUs_range h machine amount' l 0 w1).1.1
              = N.of_nat (length added) ∧
              (∀ j, (j < length added)%nat →
                    added !! j = Some (cpuIDAt (length (cpus w) + j))) ∧
              ((hotplugAddCPUs_range h machine amount' l 0 w1).1.2 = None →
               (hotplugAddCPUs_range h machine amount' l 0 w1).1.1 = amount')).
  { intros machine l w1 Hw1 Hnz.
    destruct (hotplugAddCPUs_range_spec h machine amount' l H32' 0 w1)
      as (added & Ha & Hr & Hids & Hok); [lia|].
    exists added. rewrite <- Hw1. split_and!; auto. }
  assert (Hnil : ∀ err : option error, (err = None → 0 = amount') →
            ∃ added : list CPUDevice,
              cpus w = cpus w ++ added ∧ 0 = N.of_nat (length added) ∧
              (∀ j, (j < length added)%nat →
                    added !! j = Some (cpuIDAt (length (cpus w) + j))) ∧
              (err = None → 0 = amount')).
  { intros err Hz. exists []. rewrite app_nil_r. split_and!; auto.
    intros j Hj. simpl in Hj. lia. }
  subst amount'.
  destruct (exceedsMax (me w) amount) eqn:Hex; simpl;
    (case_bool_decide as Hz; simpl; [apply Hnil; congruence|]);
    match goal with |- context [qmpReply h ?t ExecuteQueryHotpluggableCPUs] =>
      destruct (qmpReply h t ExecuteQueryHotpluggableCPUs) as [e|] end;
    simpl; try (apply Hnil; discriminate);
    (destruct (ArchBase.machine (arch (me w))) as [machine [e|]];
     simpl; [apply Hnil; discriminate|]);
    apply Hrange; auto.
Qed.

Example hotplugAddCPUs_two_of_three :
  let w := world (runningQemu 1 8 [cpuIDAt 0] []) in
  let r := hotplugAddCPUs (okHost [freeCPU 1; freeCPU 2; freeCPU 3]) 2 w in
  r.1 = (2, None) ∧ cpus r.2 = [cpuIDAt 0; cpuIDAt 1; cpuIDAt 2] ∧
  CPU_ID (cpuIDAt 2) = "cpu-2".
Proof. vm_compute. auto. Qed.

(** C4 fails as stated: with 6 vCPUs at boot, none hot-plugged and a
    maximum of 8, a request for 5 returns without an error after adding 2. *)
Lemma hotplugAddCPUs_clamped :
  let w := world (runningQemu 6 8 [] []) in
  let r := hotplugAddCPUs (okHost [freeCPU 6; freeCPU 7; freeCPU 8]) 5 w in
  r.1 = (2, None) ∧ cpus r.2 = [cpuIDAt 0; cpuIDAt 1] ∧
  ¬ (r.1.2 = None → length (cpus r.2) = (length (cpus w) + 5)%nat).
Proof.
  vm_compute. split_and!; [reflexivity | reflexivity |].
  intros H. specialize (H eq_refl). discriminate.
Qed.

Lemma hotplugAddCPUs_appends_witness :
  let w := world (runningQemu 1 8 [cpuIDAt 0] []) in
  let r := hotplugAddCPUs (okHost [freeCPU 1; freeCPU 2; freeCPU 3]) 2 w in
  ∃ added : list CPUDevice,
    cpus r.2 = cpus w ++ added ∧
    r.1.1 = N.of_nat (length added) ∧
    (∀ j, (j < length added)%nat → added !! j = Some (cpuIDAt (length (cpus w) + j))) ∧
    (r.1.2 = None →
     r.1.1 = if exceedsMax (me w) 2
             then sub32 (DefaultMaxVCPUs (config (me w))) (currentVCPUs (me w))
             else 2).
Proof.
  apply (hotplugAddCPUs_appends (okHost [freeCPU 1; freeCPU 2; freeCPU 3]) 2
           (world (runningQemu 1 8 [cpuIDAt 0] []))).
  reflexivity.
Defined.

Example hotplugRemoveCPUs_two :
  let w := world (runningQemu 1 8 [cpuIDAt 0; cpuIDAt 1; cpuIDAt 2] []) in
  let r := hotplugRemoveCPUs (okHost []) 2 w in
  r.1 = (2, None) ∧ cpus r.2 = [cpuIDAt 0] ∧
  qmpCmds (trace r.2) = [ExecuteDeviceDel "cpu-2"; ExecuteDeviceDel "cpu-1"].
Proof. vm_compute. auto. Qed.

(** ** Hot plugging of memory *)

Lemma qmpSetup_spec (h : Host) (w : World) :
  ∃ new, trace (qmpSetup h w).2 = trace w ++ new ∧
         Forall (λ c, c = ExecuteQMPCapabilities) (qmpCmds new) ∧
         logsAt LWarn new = [] ∧
         state (me (qmpSetup h w).2) = state (me w) ∧
         arch (me (qmpSetup h w).2) = arch (me w) ∧
         config (me (qmpSetup h w).2) = config (me w) ∧
         stopped (me (qmpSetup h w).2) = stopped (me w) ∧
         (qmp (qmpMonitorCh (me w)) = true → (qmpSetup h w) = (None, w)).
Proof.
  unfold qmpSetup. munfold. simpl.
  destruct (qmp (qmpMonitorCh (me w))) eqn:Hq; simpl.
  - exists []. rewrite app_nil_r. split_and!; auto.
  - destruct (qmpStart h (trace w) (path (qmpMonitorCh (me w)))) as [e|]; simpl.
    + eexists. rewrite <- app_assoc. split; [reflexivity|].
      split_and!; auto; try discriminate; repeat constructor.
    + match goal with |- context [qmpReply h ?t ExecuteQMPCapabilities] =>
        destruct (qmpReply h t ExecuteQMPCapabilities) as [e|] end; simpl.
      * eexists. rewrite <- !app_assoc. split; [reflexivity|].
        split_and!; auto; try discriminate; repeat constructor.
      * eexists. rewrite <- !app_assoc. split; [reflexivity|].
        split_and!; auto; try discriminate; repeat constructor.
Qed.

(** C2, as the code has it.  [hotplugMemory] with the operation
    [removeDevice] returns 0 for every memory device, leaves the device
    and the state of the controller as they were, and sends QEMU nothing
    but, at most, the negotiation of a QMP session not yet open.  It
    returns an error when the size is negative (and then does nothing at
    all) or when the QMP session cannot be set up; otherwise it returns
    no error, and warns that hot-remove is not supported unless the size
    is 0. *)
Theorem hotplugMemory_remove (h : Host) (memDev : memoryDevice) (w : World) :
  let r := hotplugMemory h memDev removeDevice w in
  let w1 := {| me := me w; trace := trace w ++ [Log LDebug "requested memory hotplug"] |} in
  r.1.1.1 = 0%Z ∧
  r.1.2 = memDev ∧
  state (me r.2) = state (me w) ∧
  (∃ new, trace r.2 = trace w ++ new ∧
          Forall (λ c, c = ExecuteQMPCapabilities) (qmpCmds new) ∧
          (logsAt LWarn new = [] ∨
           logsAt LWarn new = ["hot-remove VM memory not supported"]) ∧
          ((0 ≤ sizeMB memDev)%Z → (qmpSetup h w1).1 = None →
           logsAt LWarn new = if bool_decide (sizeMB memDev = 0%Z) then []
                              else ["hot-remove VM memory not supported"])) ∧
  ((sizeMB memDev < 0)%Z → is_Some r.1.1.2 ∧ r.2 = w) ∧
  ((0 ≤ sizeMB memDev)%Z → r.1.1.2 = (qmpSetup h w1).1).
Proof.
  cbv zeta. unfold hotplugMemory, ArchBase.supportGuestMemoryHotplug. cbn [negb].
  destruct (Z.ltb_spec (sizeMB memDev) 0) as [Hneg|Hpos].
  - cbv zeta. munfold. simpl. split_and!; auto; try lia.
    exists []. rewrite app_nil_r. split_and!; auto. lia.
  - cbv zeta. munfold. cbn [me trace].
    set (w1 := {| me := me w; trace := trace w ++ [Log LDebug "requested memory hotplug"] |}).
    destruct (qmpSetup_spec h w1) as (new & Ht & Hq & Hl & Hst & _).
    destruct (qmpSetup h w1) as [[e|] w2] eqn:Hs; cbn [fst snd] in *.
    + split_and!; auto; try lia.
      exists ([Log LDebug "requested memory hotplug"] ++ new). rewrite Ht. subst w1. simpl.
      rewrite <- app_assoc. split_and!; auto. discriminate.
    + case_bool_decide as Hz; simpl.
      * split_and!; auto; try lia.
        exists ([Log LDebug "requested memory hotplug"] ++ new
                ++ [Log LDebug "hotplug is not required"]).
        rewrite Ht. subst w1. simpl. rewrite <- !app_assoc. split; [reflexivity|].
        assert (Hw : logsAt LWarn (new ++ [Log LDebug "hotplug is not required"]) = []).
        { unfold logsAt in *. rewrite omap_app, Hl. reflexivity. }
        split_and!; auto.
        unfold qmpCmds in *. simpl. rewrite omap_app. simpl. now rewrite app_nil_r.
      * split_and!; auto; try lia.
        eexists ([Log LDebug "requested memory hotplug"] ++ new ++ [_; _]).
        rewrite Ht. subst w1. simpl. rewrite <- !app_assoc. split; [reflexivity|].
        assert (Hw : logsAt LWarn (new ++ [Log LDebug ("Requested to remove memory: "
                        +:+ fmt.Sprintf_dZ (sizeMB memDev) +:+ " MB");
                      Log LWarn "hot-remove VM memory not supported"])
                     = ["hot-remove VM memory not supported"]).
        { unfold logsAt in *. rewrite omap_app, Hl. reflexivity. }
        split_and!; auto.
        unfold qmpCmds in *. simpl. rewrite omap_app. simpl. now rewrite app_nil_r.
Qed.

(** C2 fails as stated: a device of negative size is an error, also for
    a removal. *)
Lemma hotplugMemory_remove_negative :
  let memDev := {| slot := 0; sizeMB := -1; addr := 0; probe := false |} in
  (hotplugMemory (okHost []) memDev removeDevice (world (runningQemu 1 8 [] []))).1.1
  = (0%Z, Some "cannot hotplug negative size (-1) memory").
Proof. vm_compute. reflexivity. Qed.

Example hotplugMemory_remove_128 :
  let memDev := {| slot := 0; sizeMB := 128; addr := 0; probe := false |} in
  let w := world (runningQemu 1 8 [] []) in
  let r := hotplugMemory (okHost []) memDev removeDevice w in
  r.1 = (0%Z, None, memDev) ∧ me r.2 = me w ∧ qmpCmds (trace r.2) = [] ∧
  logsAt LWarn (trace r.2) = ["hot-remove VM memory not supported"].
Proof. vm_compute. auto. Qed.

(** ** Stopping the sandbox *)

Lemma stopSandbox_stopped (h : Host) (w : World) :
  stopped (me w) = true →
  stopSandbox h w
  = (None, {| me := me w;
              trace := trace w ++ [Log LInfo "Stopping Sandbox"; Log LInfo "Already stopped"] |}).
Proof.
  intros Hs. unfold stopSandbox. munfold. simpl. rewrite Hs. simpl.
  now rewrite <- app_assoc.
Qed.

Lemma stopSandbox_marks_stopped (h : Host) (w : World) :
  stopped (me (stopSandbox h w).2) = true.
Proof.
  destruct (stopped (me w)) eqn:Hs.
  - rewrite stopSandbox_stopped by assumption. exact Hs.
  - unfold stopSandbox, stopSandbox_deferred. munfold. cbn [me trace]. rewrite Hs.
    destruct (stopSandbox_body h _) as [err w1].
    destruct (cleanupVM h w1) as [x w2]. reflexivity.
Qed.

Lemma logLines_me (lines : list string) (w : World) : me (logLines lines w).2 = me w.
Proof.
  revert w. induction lines as [|l lines IH]; intros w; simpl; [reflexivity|].
  munfold. simpl. now rewrite IH.
Qed.

Lemma dumpQemuLog_me (h : Host) (w : World) : me (dumpQemuLog h w).2 = me w.
Proof.
  unfold dumpQemuLog. munfold. cbn [me trace].
  destruct (Debug (config (me w)) && _); [|reflexivity].
  destruct (readLog h _) as [[lines [e|]] scanErr]; [reflexivity|].
  pose proof (logLines_me lines w) as Hl.
  destruct (logLines lines w) as [[] w1]. simpl in *.
  destruct scanErr; simpl; assumption.
Qed.

(** With the QMP session open and a QEMU that accepts [quit], the body of
    [stopSandbox] returns no error. *)
Lemma stopSandbox_body_ok (h : Host) (w : World) :
  qmp (qmpMonitorCh (me w)) = true →
  (∀ t, qmpReply h t ExecuteQuit = None) →
  (stopSandbox_body h w).1 = None.
Proof.
  intros Hq Hquit. unfold stopSandbox_body. munfold.
  pose proof (dumpQemuLog_me h w) as Hme.
  destruct (dumpQemuLog h w) as [[] w1]. cbn [snd] in Hme.
  destruct (qmpSetup_spec h w1) as (_ & _ & _ & _ & _ & _ & _ & _ & Hs).
  rewrite Hs by (rewrite Hme; assumption). cbn [fst snd me trace].
  rewrite Hquit. reflexivity.
Qed.

(** C8, as the code has it.  Whatever the first [stopSandbox] returns, it
    leaves the instance marked as stopped; a second call right after it
    returns no error and does nothing but log two lines: no QMP command,
    no directory removed, the controller unchanged.  The first call
    returns no error on an instance already stopped, and on one whose QMP
    session is open when QEMU accepts [quit]. *)
Theorem stopSandbox_twice (h : Host) (w : World) :
  let r1 := stopSandbox h w in
  let r2 := stopSandbox h r1.2 in
  stopped (me r1.2) = true ∧
  r2.1 = None ∧
  me r2.2 = me r1.2 ∧
  trace r2.2 = trace r1.2 ++ [Log LInfo "Stopping Sandbox"; Log LInfo "Already stopped"] ∧
  (stopped (me w) = true → r1.1 = None) ∧
  (qmp (qmpMonitorCh (me w)) = true → (∀ t, qmpReply h t ExecuteQuit = None) →
   r1.1 = None).
Proof.
  cbv zeta. pose proof (stopSandbox_marks_stopped h w) as Hs.
  rewrite (stopSandbox_stopped h _ Hs). split_and!; auto.
  - intros Hw. now rewrite (stopSandbox_stopped h w Hw).
  - intros Hq Hquit. destruct (stopped (me w)) eqn:Hw.
    + now rewrite (stopSandbox_stopped h w Hw).
    + unfold stopSandbox, stopSandbox_deferred. munfold. cbn [me trace]. rewrite Hw.
      match goal with |- context [stopSandbox_body h ?w1] =>
        pose proof (stopSandbox_body_ok h w1 Hq Hquit) as Hb;
        destruct (stopSandbox_body h w1) as [err w2] end.
      destruct (cleanupVM h w2) as [x w3]. simpl in *. assumption.
Qed.

(** C8 fails as stated: when QEMU no longer answers on its socket the
    first call returns the error of the connection (and the second call
    none). *)
Lemma stopSandbox_first_fails :
  let r1 := stopSandbox deadHost (world detachedQemu) in
  let r2 := stopSandbox deadHost r1.2 in
  r1.1 = Some "dial unix /run/vc/vm/sandbox0/qmp.sock: connect: connection refused" ∧
  r2.1 = None.
Proof. vm_compute. auto. Qed.

Example stopSandbox_running :
  let r1 := stopSandbox (okHost []) (world (runningQemu 1 8 [] [])) in
  r1.1 = None ∧ qmpCmds (trace r1.2) = [ExecuteQuit] ∧ stopped (me r1.2) = true.
Proof. vm_compute. auto. Qed.

(** ** The process ids *)

(** C10.  [getPids] returns [[0]] when the PID file cannot be read and
    when its trimmed contents are not an integer, whatever the process id
    of virtiofsd; when the contents are the integer [p] it returns [[p]]
    if that process id is 0 and [[p; VirtiofsdPid]] if not.  The
    controller is left as it was. *)
Theorem getPids_spec (h : Host) (w : World) :
  let pids := (getPids h w).1 in
  let file := readFile h (govmmQemu.Config_PidFile (qemuConfig (me w))) in
  let parsed := Atoi (Trim file.1 (String "010" (String "009" " "))) in
  (is_Some file.2 → pids = [0%Z]) ∧
  (file.2 = None → is_Some parsed.2 → pids = [0%Z]) ∧
  (file.2 = None → parsed.2 = None →
   pids = if bool_decide (VirtiofsdPid (state (me w)) = 0%Z) then [parsed.1]
          else [parsed.1; VirtiofsdPid (state (me w))]) ∧
  me (getPids h w).2 = me w.
Proof.
  cbv zeta. unfold getPids. munfold. cbn [me trace].
  destruct (readFile h _) as [data [e|]]; cbn [fst snd].
  - split_and!; auto; try discriminate.
  - destruct (Atoi _) as [pid [e|]]; cbn [fst snd].
    + split_and!; auto; try discriminate; try (intros [? ?]; discriminate).
    + split_and!; auto; try (intros _ [? ?]; discriminate); try (intros [? ?]; discriminate).
      intros _ _. simpl. repeat case_bool_decide; try congruence; reflexivity.
Qed.

Example getPids_100_200 :
  (getPids (pidFileHost "100") (world (pidsQemu 200))).1 = [100%Z; 200%Z] ∧
  (getPids (pidFileHost "100") (world (pidsQemu 0))).1 = [100%Z] ∧
  (getPids (pidFileHost "") (world (pidsQemu 200))).1 = [0%Z] ∧
  (getPids (okHost []) (world (pidsQemu 200))).1 = [0%Z] ∧
  (getPids (pidFileHost (String "010" "4711" +:+ String "010" "")) (world (pidsQemu 0))).1
  = [4711%Z].
Proof. vm_compute. auto 10. Qed.

(** ** The kernel parameters *)

(** C6.  [kernelParameters] joins with spaces the [key=value] strings of
    the parameters of the architecture for the debug flag, then [panic=1],
    then [nr_cpus] with [DefaultMaxVCPUs], then [agent.use_vsock] with
    [UseVSock], then the parameters of the configuration; for an
    architecture without parameters, 8 vCPUs at most, no vsock and the
    parameters [foo=foo] and [bar=bar] that is the string of the test,
    with and without debug. *)
Theorem kernelParameters_order :
  (∀ q : qemu,
     kernelParameters q
     = Join (SerializeParams
               (ArchBase.kernelParameters (arch q) (Debug (config q))
                ++ [{| Key := "panic"; Value := "1" |}]
                ++ [{| Key := "nr_cpus"; Value := fmt.Sprintf_d (DefaultMaxVCPUs (config q)) |}]
                ++ [{| Key := "agent.use_vsock";
                       Value := if UseVSock (config q) then "true" else "false" |}]
                ++ KernelParams (config q)) "=") " ") ∧
  (∀ debug : bool,
     kernelParameters (kernelParamsQemu debug)
     = "panic=1 nr_cpus=8 agent.use_vsock=false foo=foo bar=bar").
Proof.
  split.
  - intros q. unfold kernelParameters, defaultKernelParameters, vsockKernelOption,
      fmt.FormatBool. cbv zeta. rewrite <- !app_assoc. reflexivity.
  - intros [|]; vm_compute; reflexivity.
Qed.

(** ** Rolling back the slot of a bridge *)

(** C1 does not hold of the code.  When QEMU rejects the [device_add],
    the slot allocated for the device stays in the slot map of the bridge
    - for a VFIO device not on the root bus, and for a network device:
      the deferred release tests an [err] that the failing [return] does
      not set;
    - for a block device on [virtio-blk-ccw]: no release is deferred.
    The [netdev_add] and the [blockdev_add] are undone. *)
Theorem hotplug_add_keeps_slot_on_failure :
  let host := rejectHost isDeviceAdd in
  (let r := hotplugVFIODevice (H := busCapacity) host vfio0 addDevice (world pcQemu) in
   r.1 = Some "QMP command failed" ∧
   slots (world pcQemu) = [∅] ∧
   slots r.2 = [{[ 1 := "vfio-0" ]}]) ∧
  (let r := hotplugNetDevice (H := busCapacity) host tap0 addDevice (world pcQemu) in
   r.1.1 = Some "QMP command failed" ∧
   slots r.2 = [{[ 1 := "tap-0" ]}] ∧
   list.last (qmpCmds (trace r.2)) = Some (ExecuteNetdevDel "tap0_kata")) ∧
  (let r := hotplugBlockDevice (H := busCapacity) host drive0 addDevice (world s390Qemu) in
   r.1.2 = Some "QMP command failed" ∧
   slots (world s390Qemu) = [∅] ∧
   slots r.2 = [{[ 1 := "drive-0" ]}] ∧
   list.last (qmpCmds (trace r.2)) = Some (ExecuteBlockdevDel "drive-0")).
Proof. vm_compute. auto 20. Qed.

(** The path of [virtio-blk] (PCI) does release the slot, and so does the
    network path when it is the machine type that cannot be found. *)
Example hotplug_add_releases_slot :
  (let r := hotplugBlockDevice (H := busCapacity) (rejectHost isDeviceAdd) drive0 addDevice
              (world pcQemu) in
   r.1.2 = Some "QMP command failed" ∧ slots r.2 = [∅] ∧
   qmpCmds (trace r.2)
   = [ExecuteBlockdevAdd "/dev/loop0" "drive-0";
      ExecutePCIDeviceAdd "drive-0" "virtio-drive-0" "virtio-blk-pci" "01" "pci-bridge-0"
        "" 0 true false;
      ExecuteBlockdevDel "drive-0"]) ∧
  (let q := set_arch pcQemu (set_Bridges (archOf "q36") [pciBridge0]) in
   let r := hotplugNetDevice (H := busCapacity) (okHost []) tap0 addDevice (world q) in
   r.1.1 = Some "unrecognised machine type: q36" ∧ slots r.2 = [∅]).
Proof. vm_compute. auto 20. Qed.

Example hotplug_add_succeeds :
  let r := hotplugNetDevice (H := busCapacity) (okHost []) tap0 addDevice (world pcQemu) in
  r.1.1 = None ∧ slots r.2 = [{[ 1 := "tap-0" ]}] ∧ PciAddr r.1.2 = "02/01".
Proof. vm_compute. auto. Qed.

(** ** Creating the sandbox *)

(** The three cases of [TestQemuFileBackedMem]. *)
Example createSandbox_file_backed_mem :
  (let hc := testConfig 8 config.VirtioBlock config.VirtioFS "" false false false [] in
   let r := createSandbox (createHost "/tmp/xyzabc" "pc") "testSandbox" hc true (world qemu0) in
   let c := qemuConfig (me r.2) in
   r.1 = None ∧
   govmmQemu.FileBackedMem (govmmQemu.Config_Knobs c) = true ∧
   govmmQemu.MemShared (govmmQemu.Config_Knobs c) = true ∧
   govmmQemu.Path (govmmQemu.Config_Memory c) = "/dev/shm") ∧
  (let hc := testConfig 8 config.VirtioBlock config.VirtioFS "" true false false [] in
   let r := createSandbox (createHost "/tmp/xyzabc" "pc") "testSandbox" hc true (world qemu0) in
   r.1 = Some templatingError ∧ qemuConfig (me r.2) = govmmQemu.Config0) ∧
  (let hc := testConfig 8 config.VirtioBlock config.NoSharedFS "/tmp/xyzabc" false false false
               [] in
   let r := createSandbox (createHost "/tmp/xyzabc" "pc") "testSandbox" hc true (world qemu0) in
   let c := qemuConfig (me r.2) in
   r.1 = None ∧
   govmmQemu.FileBackedMem (govmmQemu.Config_Knobs c) = false ∧
   govmmQemu.MemShared (govmmQemu.Config_Knobs c) = false ∧
   govmmQemu.Path (govmmQemu.Config_Memory c) = "" ∧
   govmmQemu.Config_Name c = "sandbox-testSandbox").
Proof. vm_compute. auto 20. Qed.

(** [setup] leaves the launch configuration alone, and when it succeeds
    the controller holds the id and the configuration it was given. *)
Lemma setup_spec (h : Host) (id0 : string) (hc : HypervisorConfig) (vcStore : bool)
    (w : World) :
  let s := setup h id0 hc vcStore w in
  qemuConfig (me s.2) = qemuConfig (me w) ∧
  (s.1 = None → config (me s.2) = hc ∧ id (me s.2) = id0).
Proof.
  cbv zeta. unfold setup, storeState. munfold. simpl.
  repeat (break_match; simpl in *); split; auto; discriminate.
Qed.

(** C5, as the code has it.  With virtio-fs or a directory for
    file-backed memory on one side and templating (to be a template, or
    from a template) on the other, [createSandbox] fails and the launch
    configuration of the controller stays what it was; when the steps
    before the check succeed (the set-up, the machine type, the memory of
    the host, the paths of the kernel and of the initrd) the error is the
    one about templating. *)
Theorem createSandbox_template_conflict (h : Host) (id0 : string) (hc : HypervisorConfig)
    (vcStore : bool) (w : World) :
  SharedFS hc = config.VirtioFS ∨ FileBackedMemRootDir hc ≠ "" →
  BootToBeTemplate hc = true ∨ BootFromTemplate hc = true →
  let r := createSandbox h id0 hc vcStore w in
  is_Some r.1 ∧
  qemuConfig (me r.2) = qemuConfig (me w) ∧
  (firstStepsSucceed h id0 hc vcStore w → r.1 = Some templatingError).
Proof.
  intros Hfs Htpl. cbv zeta.
  pose proof (setup_spec h id0 hc vcStore w) as [Hqc Hok]. cbv zeta in Hqc, Hok.
  assert (Hcond : bool_decide (SharedFS hc = config.VirtioFS)
                  || bool_decide (FileBackedMemRootDir hc ≠ "") = true).
  { destruct Hfs as [Hv|Hd]; [rewrite (bool_decide_eq_true_2 _ Hv) |
                              rewrite (bool_decide_eq_true_2 _ Hd), orb_true_r]; reflexivity. }
  assert (Htp : BootToBeTemplate hc || BootFromTemplate hc = true).
  { destruct Htpl as [-> | ->]; [|rewrite orb_true_r]; reflexivity. }
  unfold createSandbox, firstStepsSucceed, memoryTopology, setupTemplate. munfold.
  destruct (setup h id0 hc vcStore w) as [[e|] w1]; cbn [fst snd] in *.
  - split_and!; eauto. intros (Hs & _). discriminate.
  - destruct (Hok eq_refl) as [Hc Hid]. cbn [me]. rewrite !Hc, Hcond, Htp. cbn [negb].
    destruct (getQemuMachine (me w1)) as [machine [e|]]; cbn [fst snd].
    { split_and!; eauto. intros (_ & Hm & _). discriminate. }
    destruct (hostMemMB h) as [mem [e|]]; cbn [fst snd].
    { split_and!; eauto. intros (_ & _ & Hm & _). discriminate. }
    destruct (KernelAssetPath h hc) as [kernelPath [e|]]; cbn [fst snd].
    { split_and!; eauto. intros (_ & _ & _ & Hk & _). discriminate. }
    destruct (InitrdAssetPath h hc) as [initrdPath [e|]]; cbn [fst snd].
    { split_and!; eauto. intros (_ & _ & _ & _ & Hi). discriminate. }
    destruct (BootToBeTemplate hc), (BootFromTemplate hc); cbn [fst snd];
      split_and!; eauto.
Qed.

(** C5 fails as stated: with virtio-fs and a VM to be a template, on a
    machine type that the architecture does not know, [createSandbox]
    returns the error about the machine type. *)
Lemma createSandbox_other_error_first :
  let hc := testConfig 8 config.VirtioBlock config.VirtioFS "" true false false [] in
  (createSandbox (createHost "/tmp/xyzabc" "q36") "testSandbox" hc true (world qemu0)).1
  = Some "unrecognised machine type: q36".
Proof. vm_compute. reflexivity. Qed.

Lemma createSandbox_template_conflict_witness :
  let hc := testConfig 8 config.VirtioBlock config.VirtioFS "" true false false [] in
  let r := createSandbox (createHost "/tmp/xyzabc" "pc") "testSandbox" hc true (world qemu0) in
  is_Some r.1 ∧
  qemuConfig (me r.2) = qemuConfig (me (world qemu0)) ∧
  (firstStepsSucceed (createHost "/tmp/xyzabc" "pc") "testSandbox" hc true (world qemu0) →
   r.1 = Some templatingError).
Proof.
  apply (createSandbox_template_conflict (createHost "/tmp/xyzabc" "pc") "testSandbox"
           (testConfig 8 config.VirtioBlock config.VirtioFS "" true false false [])
           true (world qemu0)).
  - left. reflexivity.
  - left. reflexivity.
Defined.

Example createSandbox_first_steps :
  firstStepsSucceed (createHost "/tmp/xyzabc" "pc") "testSandbox"
    (testConfig 8 config.VirtioBlock config.VirtioFS "" true false false []) true
    (world qemu0).
Proof. vm_compute. auto 10. Qed.

Lemma buildDevices_same (h : Host) (p : string) (w w' : World) :
  sameSetup (me w) (me w') →
  (buildDevices h p w).1 = (buildDevices h p w').1 ∧
  sameSetup (me (buildDevices h p w).2) (me (buildDevices h p w').2).
Proof.
  intros (Hid & Hc & Ha). destruct w as [q t], w' as [q' t']. simpl in *.
  destruct q, q'. simpl in *. subst.
  unfold buildDevices, appendImage, sameSetup. munfold. simpl.
  repeat (break_match; simpl in * ); auto; congruence.
Qed.

Lemma buildDevices_config (h : Host) (p : string) (w : World) :
  config (me (buildDevices h p w).2) = config (me w).
Proof.
  unfold buildDevices. munfold. simpl.
  repeat (break_match; simpl in * ); auto.
Qed.

Lemma qemuPath_same (h : Host) (q q' : qemu) :
  sameSetup q q' → qemuPath h q = qemuPath h q'.
Proof. intros (_ & Hc & Ha). unfold qemuPath. now rewrite Hc, Ha. Qed.

(** The second half of [createSandbox] stores the knobs and the memory it
    is given, and succeeds when its own steps do. *)
Lemma createSandbox_config_spec (h : Host) (machine : govmmQemu.Machine)
    (smp : govmmQemu.SMP) (memory : govmmQemu.Memory) (knobs : govmmQemu.Knobs)
    (kernel : govmmQemu.Kernel) (incoming : govmmQemu.Incoming) (p : string)
    (w w0 : World) :
  let r := createSandbox_config h machine smp memory knobs kernel incoming p w in
  (r.1 = None →
   govmmQemu.Config_Knobs (qemuConfig (me r.2)) = knobs ∧
   govmmQemu.Config_Memory (qemuConfig (me r.2)) = memory) ∧
  (me w = me w0 →
   UUID (state (me w0)) ≠ "" →
   (qmpSocketPath h (id (me w0))).2 = None →
   (buildDevices h p w0).1.2 = None →
   (FirmwareAssetPath h (config (me w0))).2 = None →
   (qemuPath h (me (buildDevices h p w0).2)).2 = None →
   r.1 = None).
Proof.
  cbv zeta. unfold createSandbox_config, createQmpSocket. munfold. cbn [me trace].
  case_bool_decide as Hu.
  { simpl. split; [discriminate|]. intros Hme Hu'. rewrite Hme in Hu. contradiction. }
  destruct (qmpSocketPath h (id (me w))) as [sock [e|]] eqn:Hsock; cbn [fst snd me trace].
  { split; [discriminate|]. intros Hme _ Hs. rewrite Hme in Hsock. rewrite Hsock in Hs.
    discriminate. }
  set (w1 := {| me := set_qmpMonitorCh (me w) {| path := sock; qmp := false |};
                trace := trace w |}).
  assert (Hsame : ∀ w0, me w = me w0 → sameSetup (me w1) (me w0)).
  { intros w2 Hme. subst w1. rewrite <- Hme. repeat split. }
  destruct (buildDevices h p w1) as [[[devices ioThread] err] w2] eqn:Hb.
  assert (Hb2 : ∀ w0, me w = me w0 →
            (buildDevices h p w0).1 = (devices, ioThread, err) ∧
            sameSetup (me w2) (me (buildDevices h p w0).2)).
  { intros w3 Hme. destruct (buildDevices_same h p w1 w3 (Hsame w3 Hme)) as [H1 H2].
    rewrite Hb in H1, H2. auto. }
  destruct err as [e|]; cbn [fst snd me trace].
  { split; [discriminate|]. intros Hme _ _ Hd. destruct (Hb2 w0 Hme) as [H1 _].
    rewrite H1 in Hd. discriminate. }
  assert (Hcfg : ∀ w0, me w = me w0 → config (me w2) = config (me w0)).
  { intros w3 Hme. pose proof (buildDevices_config h p w1) as Hc. rewrite Hb in Hc.
    simpl in Hc. rewrite Hc, Hme. reflexivity. }
  destruct (FirmwareAssetPath h (config (me w2))) as [fw [e|]] eqn:Hfw; cbn [fst snd].
  { split; [discriminate|]. intros Hme _ _ _ Hf. rewrite (Hcfg w0 Hme) in Hfw.
    rewrite Hfw in Hf. discriminate. }
  destruct (qemuPath h (me w2)) as [qp [e|]] eqn:Hqp; cbn [fst snd].
  { split; [discriminate|]. intros Hme _ _ _ _ Hq. destruct (Hb2 w0 Hme) as [_ Hs].
    rewrite (qemuPath_same h _ _ Hs) in Hqp. rewrite Hqp in Hq. discriminate. }
  simpl. auto.
Qed.

(** C7, as the code has it.  With templating off and a directory for the
    file-backed memory ([FileBackedMemRootDir], or [/dev/shm] when it is
    empty) that does not exist, a [createSandbox] that returns no error
    leaves a launch configuration with [FileBackedMem] and [MemShared]
    off and an empty [Memory.Path]; and it returns no error when its other
    steps succeed: the missing directory is only logged. *)
Theorem createSandbox_missing_mem_path (h : Host) (id0 : string) (hc : HypervisorConfig)
    (vcStore : bool) (w : World) :
  BootToBeTemplate hc = false →
  BootFromTemplate hc = false →
  is_Some (osStat h (fileBackedMemTarget hc)) →
  let r := createSandbox h id0 hc vcStore w in
  let c := qemuConfig (me r.2) in
  (r.1 = None →
   govmmQemu.FileBackedMem (govmmQemu.Config_Knobs c) = false ∧
   govmmQemu.MemShared (govmmQemu.Config_Knobs c) = false ∧
   govmmQemu.Path (govmmQemu.Config_Memory c) = "") ∧
  (otherStepsSucceed h id0 hc vcStore w → r.1 = None).
Proof.
  intros Hb1 Hb2 [e0 Hstat]. cbv zeta.
  pose proof (setup_spec h id0 hc vcStore w) as [_ Hok]. cbv zeta in Hok.
  unfold createSandbox, otherStepsSucceed, memoryTopology, setupTemplate,
    setupFileBackedMem. munfold.
  destruct (setup h id0 hc vcStore w) as [[e|] w1]; cbn [fst snd] in *.
  { split; [discriminate | intros (Hs & _); discriminate]. }
  destruct (Hok eq_refl) as [Hc Hid]. cbn [me trace]. rewrite !Hc, Hb1, Hb2.
  cbn [orb negb].
  destruct (getQemuMachine (me w1)) as [machine [e|]]; cbn [fst snd].
  { split; [discriminate | intros (_ & Hm & _); discriminate]. }
  destruct (hostMemMB h) as [mem [e|]]; cbn [fst snd].
  { split; [discriminate | intros (_ & _ & Hm & _); discriminate]. }
  destruct (KernelAssetPath h hc) as [kernelPath [e|]]; cbn [fst snd].
  { split; [discriminate | intros (_ & _ & _ & Hk & _); discriminate]. }
  destruct (InitrdAssetPath h hc) as [initrdPath [e|]]; cbn [fst snd].
  { split; [discriminate | intros (_ & _ & _ & _ & Hi & _); discriminate]. }
  destruct (bool_decide (SharedFS hc = config.VirtioFS)
            || bool_decide (FileBackedMemRootDir hc ≠ "")); cbn [fst snd me trace].
  - rewrite ?Hc, Hstat. cbn [fst snd me trace].
    match goal with |- context [createSandbox_config h ?m ?s ?mem ?k ?ker ?inc ?p ?w2] =>
      destruct (createSandbox_config_spec h m s mem k ker inc p w2 w1) as [Hk Hs] end.
    cbv zeta in Hk, Hs. split.
    + intros Hr. destruct (Hk Hr) as [-> ->]. destruct (HugePages hc); auto.
    + intros (_ & _ & _ & _ & _ & Hu & Hq & Hd & Hf & Hp). rewrite <- Hid in Hq.
      rewrite <- Hc in Hf. apply Hs; auto.
  - match goal with |- context [createSandbox_config h ?m ?s ?mem ?k ?ker ?inc ?p ?w2] =>
      destruct (createSandbox_config_spec h m s mem k ker inc p w2 w1) as [Hk Hs] end.
    cbv zeta in Hk, Hs. split.
    + intros Hr. destruct (Hk Hr) as [-> ->]. auto.
    + intros (_ & _ & _ & _ & _ & Hu & Hq & Hd & Hf & Hp). rewrite <- Hid in Hq.
      rewrite <- Hc in Hf. apply Hs; auto.
Qed.

(** C7 fails as stated: the directory is missing, templating is off, and
    [createSandbox] fails all the same because the memory of the host
    cannot be told. *)
Lemma createSandbox_missing_path_other_failure :
  let hc := testConfig 8 config.VirtioBlock config.NoSharedFS "/tmp/xyzabc" false false false
              [] in
  let host := testHost okStart okReply [] (0, None)
                (λ p, if bool_decide (p = "/tmp/xyzabc")
                      then Some "no such file or directory" else None)
                noFile okValid (λ _, archOf "pc") in
  osStat host (fileBackedMemTarget hc) = Some "no such file or directory" ∧
  (createSandbox host "testSandbox" hc true (world qemu0)).1
  = Some "Error host memory size 0".
Proof. vm_compute. auto. Qed.

Lemma createSandbox_missing_mem_path_witness :
  let hc := testConfig 8 config.VirtioBlock config.NoSharedFS "/tmp/xyzabc" false false false
              [] in
  let host := createHost "/tmp/xyzabc" "pc" in
  let r := createSandbox host "testSandbox" hc true (world qemu0) in
  let c := qemuConfig (me r.2) in
  (r.1 = None →
   govmmQemu.FileBackedMem (govmmQemu.Config_Knobs c) = false ∧
   govmmQemu.MemShared (govmmQemu.Config_Knobs c) = false ∧
   govmmQemu.Path (govmmQemu.Config_Memory c) = "") ∧
  (otherStepsSucceed host "testSandbox" hc true (world qemu0) → r.1 = None).
Proof.
  apply (createSandbox_missing_mem_path (createHost "/tmp/xyzabc" "pc") "testSandbox"
           (testConfig 8 config.VirtioBlock config.NoSharedFS "/tmp/xyzabc" false false
              false [])
           true (world qemu0)).
  - reflexivity.
  - reflexivity.
  - vm_compute. eauto.
Defined.

Example createSandbox_other_steps :
  otherStepsSucceed (createHost "/tmp/xyzabc" "pc") "testSandbox"
    (testConfig 8 config.VirtioBlock config.NoSharedFS "/tmp/xyzabc" false false false [])
    true (world qemu0).
Proof. vm_compute. split_and!; auto; discriminate. Qed.

(** ** Slots of the bridges: allocation and release *)

Section BridgeOps.
Context `{BridgeCapacity}.

Lemma set_Address_same (b : types.Bridge) : types.set_Address b (types.Address b) = b.
Proof. now destruct b. Qed.

Lemma set_Bridges_same (q : qemuArchBase) : set_Bridges q (Bridges q) = q.
Proof. now destruct q. Qed.

Lemma firstFree_lowest (m : gmap N string) (fuel : nat) : ∀ i a,
  types.firstFree m fuel i = Some a → ∀ a', i ≤ a' < a → is_Some (m !! a').
Proof.
  induction fuel as [|fuel IH]; intros i a Hf a' Ha; simpl in Hf; [discriminate|].
  destruct (m !! i) eqn:Hi.
  - destruct (decide (a' = i)) as [->|Hne]; [eauto|]. eapply IH; [eassumption|lia].
  - injection Hf as <-. lia.
Qed.

Lemma firstFree_None (m : gmap N string) (fuel : nat) : ∀ i,
  types.firstFree m fuel i = None → ∀ a, i ≤ a < i + N.of_nat fuel → is_Some (m !! a).
Proof.
  induction fuel as [|fuel IH]; intros i Hf a Ha; simpl in Hf; [lia|].
  destruct (m !! i) eqn:Hi; [|discriminate].
  destruct (decide (a = i)) as [->|Hne]; [eauto|]. eapply IH; [eassumption|lia].
Qed.

Lemma AddDevice_err (b b' : types.Bridge) (id : string) (a : N) (e : error) :
  types.AddDevice b id = ((a, Some e), b') → b' = b.
Proof.
  unfold types.AddDevice. repeat break_match; congruence.
Qed.

Lemma RemoveDevice_err (b b' : types.Bridge) (id : string) (e : error) :
  types.RemoveDevice b id = (Some e, b') →
  b' = b ∧ ∀ a, types.Address b !! a ≠ Some id.
Proof.
  unfold types.RemoveDevice.
  destruct (List.find _ _) as [[a v]|] eqn:Hf; [discriminate|].
  intros [= _ <-]. split; [reflexivity|]. intros a Ha.
  apply elem_of_map_to_list, list_elem_of_In in Ha.
  eapply find_none in Hf; [|exact Ha]. simpl in Hf. now case_bool_decide.
Qed.

Lemma RemoveDevice_ok (b b' : types.Bridge) (id : string) :
  types.RemoveDevice b id = (None, b') →
  ∃ a, types.Address b !! a = Some id ∧
       b' = types.set_Address b (delete a (types.Address b)).
Proof.
  unfold types.RemoveDevice.
  destruct (List.find _ _) as [[a v]|] eqn:Hf; [|discriminate].
  intros [= <-]. apply find_some in Hf as [Hin Hv]. simpl in Hv.
  case_bool_decide; [subst v|discriminate].
  apply list_elem_of_In, elem_of_map_to_list in Hin. eauto.
Qed.

Lemma RemoveDevice_absent (b : types.Bridge) (id : string) :
  (∀ a, types.Address b !! a ≠ Some id) →
  ∃ e, types.RemoveDevice b id = (Some e, b).
Proof.
  intros Habs. destruct (types.RemoveDevice b id) as [[e|] b'] eqn:Hr.
  - apply RemoveDevice_err in Hr as Hr'. destruct Hr' as [-> _]. eauto.
  - apply RemoveDevice_ok in Hr as (a & Ha & _). now apply Habs in Ha.
Qed.

(** Releasing a device right after its allocation, on a bridge that did
    not hold it, gives the bridge back. *)
Lemma AddDevice_RemoveDevice (b b' : types.Bridge) (id : string) (a : N) :
  (∀ a, types.Address b !! a ≠ Some id) →
  types.AddDevice b id = ((a, None), b') →
  types.RemoveDevice b' id = (None, b).
Proof.
  intros Habs Hadd. apply AddDevice_ok in Hadd as (cap & _ & _ & Hfree & ->).
  destruct (types.RemoveDevice _ id) as [[e|] b''] eqn:Hr.
  - apply RemoveDevice_err in Hr as [_ Hno]. exfalso. apply (Hno a).
    simpl. apply lookup_insert_eq.
  - apply RemoveDevice_ok in Hr as (a' & Ha' & ->). simpl in *.
    destruct (decide (a' = a)) as [->|Hne].
    + rewrite delete_insert_eq. rewrite delete_id by assumption.
      now destruct b.
    + rewrite lookup_insert_ne in Ha' by congruence. now apply Habs in Ha'.
Qed.

Lemma onBridge_cons (ID : string) (b : types.Bridge) (bs : list types.Bridge) :
  onBridge ID (b :: bs) ↔ (∃ a, types.Address b !! a = Some ID) ∨ onBridge ID bs.
Proof.
  unfold onBridge. split.
  - intros (b0 & a & Hin & Ha). apply elem_of_cons in Hin as [->|Hin]; eauto.
  - intros [[a Ha]|(b0 & a & Hin & Ha)].
    + exists b, a. split; [left|assumption].
    + exists b0, a. split; [now right|assumption].
Qed.

Lemma removeDeviceFromBridge_range_absent (bs : list types.Bridge) (ID : string) :
  ¬ onBridge ID bs →
  ∀ err, ∃ err', ArchBase.removeDeviceFromBridge_range bs ID err = (err', bs) ∧
                 (bs = [] → err' = err) ∧ (bs ≠ [] → is_Some err').
Proof.
  induction bs as [|b bs IH]; intros Hno err; simpl.
  - exists err. split_and!; auto. congruence.
  - rewrite onBridge_cons in Hno.
    destruct (RemoveDevice_absent b ID) as [e He].
    { intros a Ha. apply Hno. eauto. }
    rewrite He.
    destruct (IH (λ Hb, Hno (or_intror Hb)) (Some e)) as (err' & -> & Hnil & Hcons).
    exists err'. split_and!; auto; [congruence|].
    intros _. destruct bs; [rewrite Hnil by reflexivity; eauto | apply Hcons; congruence].
Qed.

Lemma AddDevice_lowest (b b' : types.Bridge) (id : string) (addr : N) :
  types.AddDevice b id = ((addr, None), b') →
  ∀ a', 1 ≤ a' < addr → is_Some (types.Address b !! a').
Proof.
  unfold types.AddDevice. destruct (types.maxCapacity (types.Type_ b)) as [cap|];
    [|discriminate].
  destruct (types.firstFree _ _ _) as [a|] eqn:Hf; [|discriminate].
  intros [= <- <-]. eapply firstFree_lowest. eassumption.
Qed.

Lemma AddDevice_full (b b' : types.Bridge) (id : string) (addr cap : N) (e : error) :
  types.AddDevice b id = ((addr, Some e), b') →
  types.maxCapacity (types.Type_ b) = Some cap →
  ∀ a, 1 ≤ a ≤ cap → is_Some (types.Address b !! a).
Proof.
  unfold types.AddDevice. intros Hadd Hcap. rewrite Hcap in Hadd.
  destruct (types.firstFree _ _ _) as [a|] eqn:Hf; [discriminate|].
  intros a Ha. eapply firstFree_None; [eassumption|lia].
Qed.

Lemma addDeviceToBridge_range_fail (bs : list types.Bridge) (ID : string)
    (t : types.BusType) : ∀ s b e bs',
  ArchBase.addDeviceToBridge_range bs ID t = ((s, b, Some e), bs') →
  bs' = bs ∧ Forall (λ b0, types.Type_ b0 = t → full b0) bs.
Proof.
  induction bs as [|b0 bs IH]; intros s b e bs' Hr; simpl in Hr.
  - injection Hr as <- <- <- <-. split; [reflexivity|constructor].
  - destruct (decide (t ≠ types.Type_ b0)) as [Hne|Heq].
    + destruct (ArchBase.addDeviceToBridge_range bs ID t) as [[[s1 b1] e1] rest] eqn:Hrec.
      injection Hr as -> -> -> <-. destruct (IH _ _ _ _ eq_refl) as [-> Hall].
      split; [reflexivity|]. constructor; [congruence|assumption].
    + apply dec_stable in Heq.
      destruct (types.AddDevice b0 ID) as [[addr err] b1] eqn:Hadd.
      destruct err as [e0|].
      * destruct (ArchBase.addDeviceToBridge_range bs ID t) as [[[s1 b2] e1] rest] eqn:Hrec.
        injection Hr as -> -> -> <-. destruct (IH _ _ _ _ eq_refl) as [-> Hall].
        apply AddDevice_err in Hadd as Hb. subst b1.
        split; [reflexivity|]. constructor; [|assumption].
        intros _ cap a Hcap Ha. eapply AddDevice_full; eassumption.
      * apply AddDevice_ok in Hadd as (cap & Hcap & _). rewrite <- Heq in Hcap.
        destruct t; simpl in Hcap; discriminate.
Qed.

Lemma addDeviceToBridge_range_alloc (bs : list types.Bridge) (ID : string)
    (t : types.BusType) : ∀ s b bs',
  ArchBase.addDeviceToBridge_range bs ID t = ((s, b, None), bs') →
  ∃ (i : nat) (b0 : types.Bridge) (a : N),
    bs !! i = Some b0 ∧ types.Type_ b0 = t ∧
    types.Address b0 !! a = None ∧ 1 ≤ a ∧
    (∀ a', 1 ≤ a' < a → is_Some (types.Address b0 !! a')) ∧
    b = types.set_Address b0 (<[a := ID]> (types.Address b0)) ∧
    bs' = <[i := b]> bs ∧
    (∀ j bj, (j < i)%nat → bs !! j = Some bj → types.Type_ bj = t → full bj).
Proof.
  induction bs as [|b0 bs IH]; intros s b bs' Hr; simpl in Hr; [discriminate|].
  destruct (decide (t ≠ types.Type_ b0)) as [Hne|Heq].
  - destruct (ArchBase.addDeviceToBridge_range bs ID t) as [[[s1 b1] e1] rest] eqn:Hrec.
    injection Hr as -> -> -> <-.
    destruct (IH _ _ _ eq_refl)
      as (i & b2 & a & Hi & Ht & Hfree & Ha & Hlow & Hb & -> & Hbefore).
    exists (S i), b2, a. split_and!; auto.
    intros [|j] bj Hj Hbj Htj; simpl in Hbj.
    + injection Hbj as <-. congruence.
    + eapply Hbefore; [|eassumption|assumption]. lia.
  - apply dec_stable in Heq.
    destruct (types.AddDevice b0 ID) as [[addr err] b1] eqn:Hadd.
    destruct err as [e0|].
    + destruct (ArchBase.addDeviceToBridge_range bs ID t) as [[[s1 b2] e1] rest] eqn:Hrec.
      injection Hr as -> -> -> <-.
      apply AddDevice_err in Hadd as Hb1. subst b1.
      destruct (IH _ _ _ eq_refl)
        as (i & b3 & a & Hi & Ht & Hfree & Ha & Hlow & Hb & -> & Hbefore).
      exists (S i), b3, a. split_and!; auto.
      intros [|j] bj Hj Hbj Htj; simpl in Hbj.
      * injection Hbj as <-. intros cap a0 Hcap Ha0. eapply AddDevice_full; eassumption.
      * eapply Hbefore; [|eassumption|assumption]. lia.
    + pose proof (AddDevice_lowest _ _ _ _ Hadd) as Hlow.
      apply AddDevice_ok in Hadd as (cap & Hcap & Hb & Hfree & Hb1).
      assert (Hres : b = b1 ∧ bs' = b1 :: bs).
      { destruct t; try (injection Hr as <- <- <-; auto).
        rewrite <- Heq in Hcap. simpl in Hcap. discriminate. }
      destruct Hres as [-> ->].
      exists 0%nat, b0, addr. split_and!; auto; try lia.
Qed.

(** X1.  An allocation that fails changes nothing: when
    [addDeviceToBridge] returns an error, the architecture, with the
    slots of all its bridges, is as it was before; and it fails only
    when there is no bridge at all, or when every bridge of the
    requested bus type is full. *)
Theorem addDeviceToBridge_failure_keeps_bridges (q q' : qemuArchBase) (ID : string)
    (t : types.BusType) (s : string) (b : types.Bridge) (e : error) :
  ArchBase.addDeviceToBridge q ID t = ((s, b, Some e), q') →
  q' = q ∧ Forall (λ b0, types.Type_ b0 = t → full b0) (Bridges q).
Proof.
  unfold ArchBase.addDeviceToBridge.
  destruct (decide (length (Bridges q) = 0%nat)) as [Hz|Hnz].
  - intros [= <- <- <- <-]. split; [reflexivity|].
    destruct (Bridges q); [constructor|discriminate].
  - destruct (ArchBase.addDeviceToBridge_range (Bridges q) ID t) as [[[s1 b1] e1] bs] eqn:Hr.
    intros [= -> -> -> <-]. apply addDeviceToBridge_range_fail in Hr as [-> Hall].
    split; [apply set_Bridges_same|assumption].
Qed.

(** X2.  A successful [addDeviceToBridge] takes the lowest free slot,
    from 1 on, of the first bridge of the requested bus type that has
    one (the bridges of that type before it are full), records the
    device there, returns that bridge, and leaves every other slot of
    every bridge as it was. *)
Theorem addDeviceToBridge_first_free (q q' : qemuArchBase) (ID : string)
    (t : types.BusType) (s : string) (b : types.Bridge) :
  ArchBase.addDeviceToBridge q ID t = ((s, b, None), q') →
  ∃ (i : nat) (b0 : types.Bridge) (a : N),
    Bridges q !! i = Some b0 ∧ types.Type_ b0 = t ∧
    types.Address b0 !! a = None ∧ 1 ≤ a ∧
    (∀ a', 1 ≤ a' < a → is_Some (types.Address b0 !! a')) ∧
    b = types.set_Address b0 (<[a := ID]> (types.Address b0)) ∧
    q' = set_Bridges q (<[i := b]> (Bridges q)) ∧
    (∀ j bj, (j < i)%nat → Bridges q !! j = Some bj → types.Type_ bj = t → full bj).
Proof.
  unfold ArchBase.addDeviceToBridge.
  destruct (decide (length (Bridges q) = 0%nat)) as [Hz|Hnz]; [discriminate|].
  destruct (ArchBase.addDeviceToBridge_range (Bridges q) ID t) as [[[s1 b1] e1] bs] eqn:Hr.
  intros [= -> -> -> <-].
  apply addDeviceToBridge_range_alloc in Hr
    as (i & b0 & a & Hi & Ht & Hfree & Ha & Hlow & Hb & -> & Hbefore).
  exists i, b0, a. split_and!; auto.
Qed.

Lemma addDeviceToBridge_range_release (bs : list types.Bridge) (ID : string)
    (t : types.BusType) : ∀ s b bs',
  ¬ onBridge ID bs →
  ArchBase.addDeviceToBridge_range bs ID t = ((s, b, None), bs') →
  ∀ err, ArchBase.removeDeviceFromBridge_range bs' ID err = (None, bs).
Proof.
  induction bs as [|b0 bs IH]; intros s b bs' Hno Hr err; simpl in Hr; [discriminate|].
  rewrite onBridge_cons in Hno.
  assert (Hb0 : ∀ a, types.Address b0 !! a ≠ Some ID) by (intros a Ha; apply Hno; eauto).
  assert (Hbs : ¬ onBridge ID bs) by tauto.
  destruct (RemoveDevice_absent b0 ID Hb0) as [e0 Hrm].
  destruct (decide (t ≠ types.Type_ b0)) as [Hne|Heq].
  - destruct (ArchBase.addDeviceToBridge_range bs ID t) as [[[s1 b1] e1] rest] eqn:Hrec.
    injection Hr as -> -> -> <-. simpl. rewrite Hrm.
    now rewrite (IH _ _ _ Hbs eq_refl (Some e0)).
  - apply dec_stable in Heq.
    destruct (types.AddDevice b0 ID) as [[addr err0] b1] eqn:Hadd.
    destruct err0 as [e1|].
    + destruct (ArchBase.addDeviceToBridge_range bs ID t) as [[[s1 b2] e2] rest] eqn:Hrec.
      injection Hr as -> -> -> <-.
      apply AddDevice_err in Hadd as Hb1. subst b1. simpl. rewrite Hrm.
      now rewrite (IH _ _ _ Hbs eq_refl (Some e0)).
    + pose proof (AddDevice_RemoveDevice _ _ _ _ Hb0 Hadd) as Hback.
      apply AddDevice_ok in Hadd as (cap & Hcap & _).
      assert (Hres : bs' = b1 :: bs).
      { destruct t; try (injection Hr as <- <- <-; auto).
        rewrite <- Heq in Hcap. simpl in Hcap. discriminate. }
      subst bs'. simpl. now rewrite Hback.
Qed.

(** X3.  Allocation and release undo each other: for a device that
    occupies no slot, [removeDeviceFromBridge] after a successful
    [addDeviceToBridge] returns no error and gives back the architecture
    as it was before the allocation. *)
Theorem addDeviceToBridge_then_remove (q q' : qemuArchBase) (ID : string)
    (t : types.BusType) (s : string) (b : types.Bridge) :
  ¬ onBridge ID (Bridges q) →
  ArchBase.addDeviceToBridge q ID t = ((s, b, None), q') →
  ArchBase.removeDeviceFromBridge q' ID = (None, q).
Proof.
  intros Hno. unfold ArchBase.addDeviceToBridge, ArchBase.removeDeviceFromBridge.
  destruct (decide (length (Bridges q) = 0%nat)) as [Hz|Hnz]; [discriminate|].
  destruct (ArchBase.addDeviceToBridge_range (Bridges q) ID t) as [[[s1 b1] e1] bs] eqn:Hr.
  intros [= -> -> -> <-].
  destruct q; simpl in *.
  now rewrite (addDeviceToBridge_range_release _ _ _ _ _ _ Hno Hr None).
Qed.

Lemma removeDeviceFromBridge_range_spec (bs : list types.Bridge) (ID : string) :
  ∀ err err' bs',
    ArchBase.removeDeviceFromBridge_range bs ID err = (err', bs') →
    (bs = [] → err' = err ∧ bs' = []) ∧
    (bs ≠ [] → is_Some err' → bs' = bs ∧ ¬ onBridge ID bs) ∧
    (bs ≠ [] → err' = None →
     ∃ (i : nat) (b : types.Bridge) (a : N),
       bs !! i = Some b ∧ types.Address b !! a = Some ID ∧
       bs' = <[i := types.set_Address b (delete a (types.Address b))]> bs ∧
       ¬ onBridge ID (take i bs)).
Proof.
  induction bs as [|b0 bs IH]; intros err err' bs' Hr; simpl in Hr.
  - injection Hr as <- <-. split_and!; auto; congruence.
  - split; [discriminate|].
    destruct (types.RemoveDevice b0 ID) as [[e|] b1] eqn:Hrm.
    + destruct (ArchBase.removeDeviceFromBridge_range bs ID (Some e)) as [r rest] eqn:Hrec.
      injection Hr as <- <-.
      apply RemoveDevice_err in Hrm as [-> Hb0].
      destruct (IH _ _ _ Hrec) as (Hnil & Herr & Hok).
      destruct bs as [|b2 bs2].
      * destruct (Hnil eq_refl) as [-> ->]. split; [|discriminate].
        intros _ _. split; [reflexivity|].
        rewrite onBridge_cons. intros [[a Ha]|(b & a & Hin & _)];
          [now apply Hb0 in Ha | inversion Hin].
      * split.
        -- intros _ Hs. destruct (Herr ltac:(discriminate) Hs) as [-> Hno].
           split; [reflexivity|].
           rewrite onBridge_cons. intros [[a Ha]|Hon]; [now apply Hb0 in Ha|tauto].
        -- intros _ Hn.
           destruct (Hok ltac:(discriminate) Hn) as (i & b & a & Hi & Ha & -> & Hbefore).
           exists (S i), b, a. split_and!; auto.
           simpl. rewrite onBridge_cons.
           intros [[a0 Ha0]|Hon]; [now apply Hb0 in Ha0|tauto].
    + injection Hr as <- <-.
      apply RemoveDevice_ok in Hrm as (a & Ha & ->).
      split; [intros _ [x Hx]; discriminate|].
      intros _ _. exists 0%nat, b0, a. split_and!; auto.
      simpl. intros (b & a0 & Hin & _). inversion Hin.
Qed.

(** X4.  [removeDeviceFromBridge] frees one slot that the device
    occupies, on the first bridge that holds the device, and touches
    nothing else; it returns an error, and changes nothing, exactly when
    there are bridges and none of them holds the device.  Without any
    bridge it returns no error, whatever the device. *)
Theorem removeDeviceFromBridge_release (q : qemuArchBase) (ID : string) :
  let r := ArchBase.removeDeviceFromBridge q ID in
  (Bridges q = [] → r = (None, q)) ∧
  (is_Some r.1 → r.2 = q ∧ Bridges q ≠ [] ∧ ¬ onBridge ID (Bridges q)) ∧
  (Bridges q ≠ [] → r.1 = None →
   ∃ (i : nat) (b : types.Bridge) (a : N),
     Bridges q !! i = Some b ∧ types.Address b !! a = Some ID ∧
     r.2 = set_Bridges q (<[i := types.set_Address b (delete a (types.Address b))]>
                            (Bridges q)) ∧
     ¬ onBridge ID (take i (Bridges q))).
Proof.
  cbv zeta. unfold ArchBase.removeDeviceFromBridge.
  destruct (ArchBase.removeDeviceFromBridge_range (Bridges q) ID None) as [err bs] eqn:Hr.
  apply removeDeviceFromBridge_range_spec in Hr as (Hnil & Herr & Hok). simpl.
  split_and!.
  - intros Hq. destruct (Hnil Hq) as [-> ->]. rewrite <- Hq. now rewrite set_Bridges_same.
  - intros Hs. destruct (Bridges q) as [|b0 bs0] eqn:Hq.
    + destruct (Hnil eq_refl) as [-> _]. destruct Hs; discriminate.
    + destruct (Herr ltac:(discriminate) Hs) as [-> Hno].
      rewrite <- Hq. rewrite set_Bridges_same. rewrite Hq. split_and!; auto; discriminate.
  - intros Hq Hn. destruct (Hok Hq Hn) as (i & b & a & Hi & Ha & -> & Hbefore).
    exists i, b, a. auto.
Qed.

End BridgeOps.

Lemma addDeviceToBridge_failure_keeps_bridges_witness :
  let q := pcArch [types.NewBridge types.PCI "pci-bridge-0" {[ 1 := "drive-0" ]} 2%Z] in
  let r := ArchBase.addDeviceToBridge (H := busCapacity) q "net0" types.CCW in
  r.2 = q ∧ Forall (λ b0, types.Type_ b0 = types.CCW → full (H := busCapacity) b0) (Bridges q).
Proof.
  cbv zeta.
  apply (addDeviceToBridge_failure_keeps_bridges (H := busCapacity)
           (pcArch [types.NewBridge types.PCI "pci-bridge-0" {[ 1 := "drive-0" ]} 2%Z])
           _ "net0" types.CCW "" ArchBase.Bridge0 "no more bridge slots available").
  vm_compute. reflexivity.
Defined.

Lemma addDeviceToBridge_first_free_witness :
  let q := pcArch [ccwBridge0;
                   types.NewBridge types.PCI "pci-bridge-0" {[ 1 := "drive-0" ]} 2%Z] in
  let r := ArchBase.addDeviceToBridge (H := busCapacity) q "net0" types.PCI in
  ∃ (i : nat) (b0 : types.Bridge) (a : N),
    Bridges q !! i = Some b0 ∧ types.Type_ b0 = types.PCI ∧
    types.Address b0 !! a = None ∧ 1 ≤ a ∧
    (∀ a', 1 ≤ a' < a → is_Some (types.Address b0 !! a')) ∧
    r.1.1.2 = types.set_Address b0 (<[a := "net0"]> (types.Address b0)) ∧
    r.2 = set_Bridges q (<[i := r.1.1.2]> (Bridges q)) ∧
    (∀ j bj, (j < i)%nat → Bridges q !! j = Some bj → types.Type_ bj = types.PCI →
             full (H := busCapacity) bj).
Proof.
  cbv zeta.
  apply (addDeviceToBridge_first_free (H := busCapacity)
           (pcArch [ccwBridge0;
                    types.NewBridge types.PCI "pci-bridge-0" {[ 1 := "drive-0" ]} 2%Z])
           _ "net0" types.PCI "02").
  vm_compute. reflexivity.
Defined.

Lemma addDeviceToBridge_then_remove_witness :
  let q := pcArch [types.NewBridge types.PCI "pci-bridge-0" {[ 1 := "drive-0" ]} 2%Z] in
  ArchBase.removeDeviceFromBridge
    (ArchBase.addDeviceToBridge (H := busCapacity) q "net0" types.PCI).2 "net0"
  = (None, q).
Proof.
  cbv zeta.
  apply (addDeviceToBridge_then_remove (H := busCapacity)
           (pcArch [types.NewBridge types.PCI "pci-bridge-0" {[ 1 := "drive-0" ]} 2%Z])
           _ "net0" types.PCI "02"
           (ArchBase.addDeviceToBridge (H := busCapacity)
              (pcArch [types.NewBridge types.PCI "pci-bridge-0" {[ 1 := "drive-0" ]} 2%Z])
              "net0" types.PCI).1.1.2).
  - intros (b & a & Hb & Ha). apply list_elem_of_singleton in Hb. subst b.
    vm_compute in Ha.
    destruct a as [|[p|p|]]; simpl in Ha; try discriminate; destruct p; discriminate.
  - vm_compute. reflexivity.
Defined.

(** ** Names of the hot-plugged vCPUs *)

Lemma digitValue_digitChar (d : N) : d < 10 → digitValue (fmt.digitChar d) = d.
Proof.
  intros Hd.
  assert (Hc : d = 0 ∨ d = 1 ∨ d = 2 ∨ d = 3 ∨ d = 4 ∨ d = 5 ∨ d = 6 ∨ d = 7
               ∨ d = 8 ∨ d = 9) by lia.
  repeat (destruct Hc as [->|Hc]; [reflexivity|]). subst d. reflexivity.
Qed.

Lemma decimalValue_digits (fuel : nat) : ∀ n acc,
  n < 2 ^ N.of_nat fuel →
  ∃ k : N, ∀ a, decimalValue (fmt.digits 10 fuel n acc) a
                = decimalValue acc (a * 10 ^ k + n).
Proof.
  induction fuel as [|fuel IH]; intros n acc Hn.
  - exists 0. intros a. simpl in *. f_equal. lia.
  - simpl fmt.digits.
    assert (Hmod : n `mod` 10 < 10) by (apply N.mod_lt; lia).
    destruct (n / 10 =? 0) eqn:Hq.
    + apply N.eqb_eq in Hq. exists 1. intros a. simpl.
      rewrite digitValue_digitChar by assumption. f_equal.
      pose proof (N.div_mod n 10 ltac:(lia)). lia.
    + destruct (IH (n / 10) (String (fmt.digitChar (n `mod` 10)) acc)) as [k Hk].
      { replace (N.of_nat (S fuel)) with (N.succ (N.of_nat fuel)) in Hn by lia.
        rewrite N.pow_succ_r in Hn by lia.
        apply N.Div0.div_lt_upper_bound. lia. }
      exists (k + 1). intros a. rewrite Hk. simpl.
      rewrite digitValue_digitChar by assumption. f_equal.
      rewrite N.pow_add_r.
      pose proof (N.div_mod n 10 ltac:(lia)). lia.
Qed.

Lemma decimalValue_Sprintf_d (n : N) : decimalValue (fmt.Sprintf_d n) 0 = n.
Proof.
  unfold fmt.Sprintf_d, fmt.FormatUint.
  destruct (decimalValue_digits (S (N.to_nat (N.log2 n))) n "") as [k Hk].
  - destruct (decide (n = 0)) as [->|Hnz]; [reflexivity|].
    replace (N.of_nat (S (N.to_nat (N.log2 n)))) with (N.succ (N.log2 n)) by lia.
    apply N.log2_spec. lia.
  - rewrite Hk. simpl. lia.
Qed.

Lemma Sprintf_d_inj (n m : N) : fmt.Sprintf_d n = fmt.Sprintf_d m → n = m.
Proof.
  intros Heq. rewrite <- (decimalValue_Sprintf_d n), <- (decimalValue_Sprintf_d m).
  now rewrite Heq.
Qed.

Lemma cpuIDAt_inj (j k : nat) : cpuIDAt j = cpuIDAt k → j = k.
Proof.
  unfold cpuIDAt. intros [= Heq]. apply Sprintf_d_inj in Heq. lia.
Qed.

Lemma namedByPosition_NoDup (l : list CPUDevice) : namedByPosition l → NoDup l.
Proof.
  intros Hn. apply NoDup_alt. intros i j c Hi Hj.
  apply Hn in Hi, Hj. subst c. now apply cpuIDAt_inj.
Qed.

Lemma namedByPosition_app (l added : list CPUDevice) :
  namedByPosition l →
  (∀ j, (j < length added)%nat → added !! j = Some (cpuIDAt (length l + j))) →
  namedByPosition (l ++ added).
Proof.
  intros Hl Ha k c Hk. destruct (decide (k < length l)%nat) as [Hlt|Hge].
  - rewrite lookup_app_l in Hk by assumption. now apply Hl.
  - rewrite lookup_app_r in Hk by lia.
    assert (Hj : (k - length l < length added)%nat).
    { apply lookup_lt_is_Some. eauto. }
    rewrite Ha in Hk by assumption. injection Hk as <-. f_equal. lia.
Qed.

Lemma namedByPosition_take (l : list CPUDevice) (n : nat) :
  namedByPosition l → namedByPosition (take n l).
Proof.
  intros Hl k c Hk. apply Hl. destruct (decide (k < n)%nat).
  - now rewrite lookup_take_lt in Hk.
  - rewrite lookup_take_ge in Hk by lia. discriminate.
Qed.

(** ** Hot plugging of vCPUs: what the loops send and keep *)

Lemma storeState_me (h : Host) (w : World) :
  me (storeState h w).2
  = (if store (me w)
     then set_state (me w)
            (set_State_Bridges (state (me w)) (ArchBase.getBridges (arch (me w))))
     else me w) ∧
  trace (storeState h w).2
  = trace w ++ (if store (me w)
                then [Store (set_State_Bridges (state (me w))
                               (ArchBase.getBridges (arch (me w))))]
                else []).
Proof.
  unfold storeState. munfold. simpl.
  destruct (store (me w)); simpl; [auto|]. rewrite app_nil_r. now destruct w.
Qed.

Lemma storeState_keeps (h : Host) (w : World) :
  config (me (storeState h w).2) = config (me w) ∧
  qemuConfig (me (storeState h w).2) = qemuConfig (me w) ∧
  qmpMonitorCh (me (storeState h w).2) = qmpMonitorCh (me w) ∧
  store (me (storeState h w).2) = store (me w) ∧
  nvdimmCount (me (storeState h w).2) = nvdimmCount (me w).
Proof.
  destruct (storeState_me h w) as [Hm _]. rewrite Hm.
  destruct (store (me w)) eqn:E; simpl; split_and!; auto.
Qed.

Lemma omap_cpuOf_cons (c0 : QmpCmd) (new : list Event) (key : string * string) :
  cpuOf c0 = Some key →
  omap cpuOf (qmpCmds ([Qmp c0] ++ new)) = key :: omap cpuOf (qmpCmds new).
Proof. intros Hk. rewrite qmpCmds_app. simpl. now rewrite Hk. Qed.

Lemma qmpCmds_snoc_cmd (c0 : QmpCmd) (new : list Event) :
  qmpCmds ([Qmp c0] ++ new) = c0 :: qmpCmds new.
Proof. reflexivity. Qed.

Lemma hotplugAddCPUs_range_effect (h : Host) (machine : govmmQemu.Machine) (amount : N)
    (hcs : list govmmQemu.HotpluggableCPU) :
  ∀ (c : N) (w : World),
    c < amount →
    let r := hotplugAddCPUs_range h machine amount hcs c w in
    ∃ new : list Event,
      trace r.2 = trace w ++ new ∧
      r.1.1 ≤ amount ∧
      omap cpuOf (qmpCmds new)
        `prefix_of` map cpuKey (filter (λ hc, govmmQemu.QOMPath hc = "") hcs) ∧
      (length (cpus r.2) ≤ length (cpus w) + length (omap cpuOf (qmpCmds new)))%nat ∧
      (govmmQemu.Machine_Type machine = "pseries"
       ∨ govmmQemu.Machine_Type machine = "s390-ccw-virtio" →
       Forall noTopology (qmpCmds new)) ∧
      config (me r.2) = config (me w) ∧
      qemuConfig (me r.2) = qemuConfig (me w) ∧
      arch (me r.2) = arch (me w).
Proof.
  induction hcs as [|hc rest IH]; intros c w Hc.
  - simpl hotplugAddCPUs_range. munfold.
    destruct (storeState_spec h w) as (new & Ht & Hq & _ & Hcp & _ & Ha & _).
    destruct (storeState_keeps h w) as (Hcf & Hqc & _).
    destruct (storeState h w) as [err w'] eqn:Hs. simpl in *.
    assert (Hres : ∃ new0, trace w' ++ (if err is Some e then [Log LError
        ("failed to save hypervisor state after hotplug " +:+ fmt.Sprintf_d c
           +:+ " vCPUs: " +:+ e)] else []) = trace w ++ new0 ∧ qmpCmds new0 = []).
    { destruct err; eexists; rewrite Ht, <- ?app_assoc; split; try reflexivity.
      - rewrite qmpCmds_app, Hq. reflexivity.
      - rewrite qmpCmds_app, Hq. reflexivity. }
    destruct Hres as (new0 & Ht0 & Hq0).
    exists new0. cbv zeta.
    destruct err; simpl in *; rewrite ?app_nil_r in Ht0; rewrite Ht0, Hq0, Hcp; simpl;
      split_and!; auto; try lia; apply prefix_nil.
  - simpl hotplugAddCPUs_range. rewrite filter_cons.
    case_bool_decide as Hq.
    + rewrite decide_False by assumption. apply IH; assumption.
    + rewrite decide_True by assumption.
      munfold. simpl.
      set (cpuID := "cpu-" +:+ fmt.Sprintf_d (N.of_nat (length (cpus w)))).
      set (z := bool_decide (govmmQemu.Machine_Type machine = "pseries")
                || bool_decide (govmmQemu.Machine_Type machine = "s390-ccw-virtio")).
      match goal with |- context [qmpReply h (trace w) ?cmd] =>
        set (c0 := cmd); destruct (qmpReply h (trace w) c0) as [e|] eqn:Hrep end.
      all: assert (Hkey : cpuOf c0 = Some (cpuKey hc)) by reflexivity.
      all: assert (Hz : govmmQemu.Machine_Type machine = "pseries"
                        ∨ govmmQemu.Machine_Type machine = "s390-ccw-virtio" →
                        noTopology c0).
      all: try (intros Hm; assert (Hzt : z = true)
                  by (subst z; destruct Hm as [-> | ->]; reflexivity);
                subst c0; simpl; rewrite Hzt; auto).
      * destruct (IH c {| me := me w; trace := trace w ++ [Qmp c0] |} Hc)
          as (new & Ht & Hle & Hpre & Hlen & Htop & Hcf & Hqc & Ha).
        cbv zeta in *. cbn [me trace fst snd] in *.
        exists ([Qmp c0] ++ new). rewrite Ht, <- app_assoc.
        rewrite (omap_cpuOf_cons _ _ _ Hkey), qmpCmds_snoc_cmd.
        split_and!; auto.
        -- now apply prefix_cons.
        -- simpl. lia.
      * assert (Hu : uint32 (c + 1) ≤ c + 1) by (unfold uint32; apply N.Div0.mod_le).
        cbn [me trace].
        set (w1 := {| me := set_state (me w) (set_HotpluggedVCPUs (state (me w))
                                                (cpus w ++ [{| CPU_ID := cpuID |}]));
                      trace := trace w ++ [Qmp c0] |}).
        case_bool_decide as Hdone.
        -- destruct (storeState_spec h w1) as (new & Ht & Hq1 & _ & Hcp & _ & Ha & _).
           destruct (storeState_keeps h w1) as (Hcf & Hqc & _).
           destruct (storeState h w1) as [err w'] eqn:Hs. subst w1.
           cbn [me trace fst snd] in *.
           exists ([Qmp c0] ++ new). rewrite Ht, <- app_assoc.
           rewrite (omap_cpuOf_cons _ _ _ Hkey), qmpCmds_snoc_cmd, Hq1.
           split_and!; auto.
           ++ apply prefix_cons, prefix_nil.
           ++ rewrite Hcp. simpl. rewrite length_app. simpl. lia.
        -- destruct (decide (uint32 (c + 1) < amount)) as [Hlt|Hge].
           ++ destruct (IH (uint32 (c + 1)) w1 Hlt)
                as (new & Ht & Hle & Hpre & Hlen & Htop & Hcf & Hqc & Ha).
              cbv zeta in *. subst w1. cbn [me trace fst snd] in *.
              exists ([Qmp c0] ++ new). rewrite Ht, <- app_assoc.
              rewrite (omap_cpuOf_cons _ _ _ Hkey), qmpCmds_snoc_cmd.
              split_and!; auto.
              ** now apply prefix_cons.
              ** simpl in Hlen. rewrite length_app in Hlen. simpl in *. lia.
           ++ exfalso. lia.
Qed.

Lemma hotplugAddCPUs_effect (h : Host) (amount : N) (w : World) :
  amount < 2 ^ 32 →
  let r := hotplugAddCPUs h amount w in
  let amount' := if exceedsMax (me w) amount
                 then sub32 (DefaultMaxVCPUs (config (me w))) (currentVCPUs (me w))
                 else amount in
  ∃ (added : list CPUDevice) (new t : list Event),
    cpus r.2 = cpus w ++ added ∧
    r.1.1 = N.of_nat (length added) ∧
    r.1.1 ≤ amount' ∧
    (∀ j, (j < length added)%nat → added !! j = Some (cpuIDAt (length (cpus w) + j))) ∧
    (r.1.2 = None → r.1.1 = amount') ∧
    trace r.2 = trace w ++ new ∧
    omap cpuOf (qmpCmds new)
      `prefix_of` map cpuKey (filter (λ hc, govmmQemu.QOMPath hc = "")
                                (hotpluggableCPUs h t)) ∧
    (length added ≤ length (omap cpuOf (qmpCmds new)))%nat ∧
    (∀ m, ArchBase.machine (arch (me w)) = (m, None) →
          govmmQemu.Machine_Type m = "pseries"
          ∨ govmmQemu.Machine_Type m = "s390-ccw-virtio" →
          Forall noTopology (qmpCmds new)) ∧
    config (me r.2) = config (me w) ∧
    qemuConfig (me r.2) = qemuConfig (me w) ∧
    arch (me r.2) = arch (me w).
Proof.
  intros H32 r amount'.
  assert (H32' : amount' < 2 ^ 32).
  { subst amount'. destruct (exceedsMax (me w) amount); [apply sub32_lt | assumption]. }
  pose (P := λ r : N * option error * World,
    ∃ (added : list CPUDevice) (new t : list Event),
      cpus r.2 = cpus w ++ added ∧
      r.1.1 = N.of_nat (length added) ∧
      r.1.1 ≤ amount' ∧
      (∀ j, (j < length added)%nat → added !! j = Some (cpuIDAt (length (cpus w) + j))) ∧
      (r.1.2 = None → r.1.1 = amount') ∧
      trace r.2 = trace w ++ new ∧
      omap cpuOf (qmpCmds new)
        `prefix_of` map cpuKey (filter (λ hc, govmmQemu.QOMPath hc = "")
                                  (hotpluggableCPUs h t)) ∧
      (length added ≤ length (omap cpuOf (qmpCmds new)))%nat ∧
      (∀ m, ArchBase.machine (arch (me w)) = (m, None) →
            govmmQemu.Machine_Type m = "pseries"
            ∨ govmmQemu.Machine_Type m = "s390-ccw-virtio" →
            Forall noTopology (qmpCmds new)) ∧
      config (me r.2) = config (me w) ∧
      qemuConfig (me r.2) = qemuConfig (me w) ∧
      arch (me r.2) = arch (me w)).
  change (P r).
  assert (Hnil : ∀ (err : option error) (pre : list Event),
            omap cpuOf (qmpCmds pre) = [] → Forall noTopology (qmpCmds pre) →
            (err = None → 0 = amount') →
            P ((0, err), {| me := me w; trace := trace w ++ pre |})).
  { intros err pre Hpre Htop Hz. exists [], pre, []. simpl. rewrite app_nil_r, Hpre.
    split_and!; auto; try lia. apply prefix_nil. }
  assert (Hrange : ∀ machine (pre : list Event),
            ArchBase.machine (arch (me w)) = (machine, None) →
            omap cpuOf (qmpCmds pre) = [] → Forall noTopology (qmpCmds pre) →
            amount' ≠ 0 →
            P (hotplugAddCPUs_range h machine amount'
                 (hotpluggableCPUs h (trace w ++ pre)) 0
                 {| me := me w; trace := trace w ++ pre |})).
  { intros machine pre Hm Hpre Htop Hnz.
    set (w1 := {| me := me w; trace := trace w ++ pre |}).
    destruct (hotplugAddCPUs_range_spec h machine amount'
                (hotpluggableCPUs h (trace w ++ pre)) H32' 0 w1)
      as (added & Ha & Hr & Hids & Hok); [lia|].
    destruct (hotplugAddCPUs_range_effect h machine amount'
                (hotpluggableCPUs h (trace w ++ pre)) 0 w1)
      as (new & Ht & Hle & Hpfx & Hlen & Htopo & Hcf & Hqc & Harch); [lia|].
    cbv zeta in *.
    exists added, (pre ++ new), (trace w ++ pre).
    rewrite qmpCmds_app, omap_app, Hpre. simpl.
    split_and!; auto.
    - rewrite Ht. subst w1. simpl. now rewrite app_assoc.
    - rewrite Ha in Hlen. subst w1. simpl in Hlen. rewrite length_app in Hlen. lia.
    - intros m Hm' Hty. apply Forall_app. split; [assumption|].
      apply Htopo. rewrite Hm in Hm'. injection Hm' as <-. assumption. }
  subst r. unfold hotplugAddCPUs. munfold. cbn [me trace].
  fold amount'.
  destruct (exceedsMax (me w) amount) eqn:Hex; cbn [fst snd me trace];
    (case_bool_decide as Hz; cbn [fst snd me trace];
     [rewrite <- ?app_assoc;
      apply Hnil; [reflexivity | unfold qmpCmds; simpl; repeat constructor
                  | intros _; symmetry; exact Hz]|]).
  all: match goal with |- context [qmpReply ?h0 ?t ExecuteQueryHotpluggableCPUs] =>
      destruct (qmpReply h0 t ExecuteQueryHotpluggableCPUs) as [e|] end;
    cbn [fst snd me trace].
  all: try (rewrite <- ?app_assoc;
         apply Hnil; [reflexivity | unfold qmpCmds; simpl; repeat constructor
                     | discriminate]).
  all: (destruct (ArchBase.machine (arch (me w))) as [machine [e|]] eqn:Hm;
     cbn [fst snd me trace];
     [rewrite <- ?app_assoc;
      apply Hnil; [reflexivity | unfold qmpCmds; simpl; repeat constructor
                  | discriminate]|]).
  all: rewrite <- ?app_assoc;
    apply Hrange; [reflexivity | reflexivity | unfold qmpCmds; simpl; repeat constructor
                  | exact Hz].
Qed.

Lemma qmpSetup_keeps (h : Host) (w : World) :
  qemuConfig (me (qmpSetup h w).2) = qemuConfig (me w) ∧
  store (me (qmpSetup h w).2) = store (me w) ∧
  nvdimmCount (me (qmpSetup h w).2) = nvdimmCount (me w) ∧
  id (me (qmpSetup h w).2) = id (me w) ∧
  fds (me (qmpSetup h w).2) = fds (me w) ∧
  path (qmpMonitorCh (me (qmpSetup h w).2)) = path (qmpMonitorCh (me w)) ∧
  ((qmpSetup h w).1 = None ↔ qmp (qmpMonitorCh (me (qmpSetup h w).2)) = true).
Proof.
  unfold qmpSetup. munfold. simpl.
  destruct (qmp (qmpMonitorCh (me w))) eqn:Hq; simpl.
  - rewrite Hq. split_and!; auto. tauto.
  - destruct (qmpStart h (trace w) (path (qmpMonitorCh (me w)))) as [e|]; simpl.
    + rewrite Hq. split_and!; auto. split; discriminate.
    + match goal with |- context [qmpReply h ?t ExecuteQMPCapabilities] =>
        destruct (qmpReply h t ExecuteQMPCapabilities) as [e|] end; simpl.
      * rewrite Hq. split_and!; auto. split; discriminate.
      * split_and!; auto. tauto.
Qed.

(** X5.  The names of the hot-plugged vCPUs never collide: if the entry
    at every position [k] of the list is named [cpu-<k>], then after
    [hotplugCPUs], whatever the operation and whatever QEMU answers,
    this is still so, and no two entries of the list are equal. *)
Theorem hotplugCPUs_keeps_names (h : Host) (vcpus : N) (op : operation) (w : World) :
  vcpus < 2 ^ 32 →
  namedByPosition (cpus w) →
  namedByPosition (cpus (hotplugCPUs h vcpus op w).2)
  ∧ NoDup (cpus (hotplugCPUs h vcpus op w).2).
Proof.
  intros H32 Hn.
  assert (Hgoal : namedByPosition (cpus (hotplugCPUs h vcpus op w).2)).
  2:{ split; [assumption|]. now apply namedByPosition_NoDup. }
  unfold hotplugCPUs. case_bool_decide as Hz; [exact Hn|].
  munfold.
  destruct (qmpSetup_spec h w) as (new & _ & _ & _ & Hst & _).
  destruct (qmpSetup h w) as [[e|] w1] eqn:Hs; simpl in Hst; simpl.
  { now rewrite Hst. }
  assert (Hn1 : namedByPosition (cpus w1)) by now rewrite Hst.
  assert (Hrem : namedByPosition (cpus (hotplugRemoveCPUs h vcpus w1).2)).
  { unfold hotplugRemoveCPUs. munfold. simpl.
    case_bool_decide as Hguard; [exact Hn1|].
    assert (Hmod : uint32 (N.of_nat (length (cpus w1))) ≤ N.of_nat (length (cpus w1))).
    { unfold uint32. apply N.Div0.mod_le. }
    destruct (hotplugRemoveCPUs_range_spec h vcpus (N.to_nat vcpus) 0 w1)
      as (k & new1 & _ & _ & _ & Hc & _); [lia|lia|].
    cbv zeta in Hc. rewrite Hc. now apply namedByPosition_take. }
  destruct op; try exact Hrem.
  destruct (hotplugAddCPUs_effect h vcpus w1 H32)
    as (added & new1 & t & Ha & _ & _ & Hids & _).
  rewrite Ha. now apply namedByPosition_app.
Qed.

Lemma hotplugCPUs_keeps_names_witness :
  let w := world (runningQemu 1 8 [cpuIDAt 0] []) in
  let h := okHost [freeCPU 1; freeCPU 2; freeCPU 3] in
  namedByPosition (cpus (hotplugCPUs h 2 addDevice w).2)
  ∧ NoDup (cpus (hotplugCPUs h 2 addDevice w).2).
Proof.
  cbv zeta.
  apply (hotplugCPUs_keeps_names (okHost [freeCPU 1; freeCPU 2; freeCPU 3]) 2 addDevice
           (world (runningQemu 1 8 [cpuIDAt 0] []))).
  - reflexivity.
  - intros [|k] c Hk; [injection Hk as <-; reflexivity | discriminate].
Defined.

Lemma uint32_small (n : N) : n < 2 ^ 32 → uint32 n = n.
Proof. intros Hn. unfold uint32. now apply N.mod_small. Qed.

Lemma uint32_lt (n : N) : uint32 n < 2 ^ 32.
Proof. unfold uint32. apply N.mod_lt. lia. Qed.

Lemma uint32_le (n : N) : uint32 n ≤ n.
Proof. unfold uint32. apply N.Div0.mod_le. Qed.

Lemma sub32_small (a b : N) : b ≤ a → a < 2 ^ 32 → sub32 a b = a - b.
Proof.
  intros Hb Ha. unfold sub32. rewrite (uint32_small b) by lia.
  unfold uint32. replace (a + 2 ^ 32 - b) with (a - b + 1 * 2 ^ 32) by lia.
  rewrite N.Div0.mod_add. apply N.mod_small. lia.
Qed.

Lemma hotplugRemoveCPUs_effect (h : Host) (amount : N) (w : World) :
  let r := hotplugRemoveCPUs h amount w in
  ∃ (k : nat) (new : list Event),
    (k ≤ length (cpus w))%nat ∧
    r.1.1 = N.of_nat k ∧
    cpus r.2 = take (length (cpus w) - k) (cpus w) ∧
    trace r.2 = trace w ++ new ∧
    (r.1.2 = None → N.of_nat k = amount) ∧
    (uint32 (N.of_nat (length (cpus w))) < amount → r.2 = w ∧ is_Some r.1.2).
Proof.
  unfold hotplugRemoveCPUs. munfold. simpl.
  case_bool_decide as Hguard.
  - exists 0%nat, []. simpl. rewrite Nat.sub_0_r, firstn_all, app_nil_r.
    split_and!; auto; try lia; try discriminate; eauto.
  - pose proof (uint32_le (N.of_nat (length (cpus w)))) as Hmod.
    destruct (hotplugRemoveCPUs_range_spec h amount (N.to_nat amount) 0 w)
      as (k & new & Hk & Hr & Ht & Hc & _ & Hcase); [lia|lia|].
    cbv zeta in *. exists k, new. split_and!; auto; try lia.
    intros Hok. destruct Hcase as [[-> _]|(_ & [e He] & _)]; [lia|congruence].
Qed.

(** X6.  [hotplugCPUs] never takes the vCPUs beyond the maximum: if the
    vCPUs the VM was started with plus the hot-plugged ones do not
    exceed [DefaultMaxVCPUs] before the call, they do not after it,
    whatever the operation, the request and the answers of QEMU;
    provided the sum of the vCPUs and the request fits a [uint32]. *)
Theorem hotplugCPUs_within_max (h : Host) (vcpus : N) (op : operation) (w : World) :
  let boot := govmmQemu.CPUs (govmmQemu.Config_SMP (qemuConfig (me w))) in
  let max := DefaultMaxVCPUs (config (me w)) in
  max < 2 ^ 32 →
  boot + N.of_nat (length (cpus w)) + vcpus < 2 ^ 32 →
  boot + N.of_nat (length (cpus w)) ≤ max →
  boot + N.of_nat (length (cpus (hotplugCPUs h vcpus op w).2)) ≤ max.
Proof.
  intros boot max Hmax Hfit Hle.
  unfold hotplugCPUs. case_bool_decide as Hz; [exact Hle|].
  munfold.
  destruct (qmpSetup_spec h w) as (new & _ & _ & _ & Hst & _ & Hcf & _).
  destruct (qmpSetup_keeps h w) as (Hqc & _).
  destruct (qmpSetup h w) as [[e|] w1] eqn:Hs; simpl in Hst, Hcf, Hqc; simpl.
  { now rewrite Hst. }
  assert (Hrem : boot + N.of_nat (length (cpus (hotplugRemoveCPUs h vcpus w1).2)) ≤ max).
  { destruct (hotplugRemoveCPUs_effect h vcpus w1) as (k & new1 & Hk & _ & Hc & _).
    cbv zeta in Hc. rewrite Hc, length_take, Hst. lia. }
  destruct op; try exact Hrem.
  destruct (hotplugAddCPUs_effect h vcpus w1 ltac:(lia))
    as (added & new1 & t & Ha & Hr & Hbound & _).
  rewrite Ha, length_app, Hst. rewrite Hr in Hbound.
  assert (Hcur : currentVCPUs (me w1) = boot + N.of_nat (length (cpus w))).
  { unfold currentVCPUs. rewrite Hqc, Hst. fold boot.
    rewrite (uint32_small (N.of_nat _)) by lia. apply uint32_small. lia. }
  unfold exceedsMax in Hbound. rewrite Hcur, Hcf in Hbound. fold max in Hbound.
  rewrite (uint32_small (boot + N.of_nat (length (cpus w)) + vcpus)) in Hbound by lia.
  case_bool_decide as Hex.
  - rewrite sub32_small in Hbound by lia. lia.
  - lia.
Qed.

Lemma hotplugCPUs_within_max_witness :
  let w := world (runningQemu 6 8 [] []) in
  let h := okHost [freeCPU 6; freeCPU 7; freeCPU 8] in
  govmmQemu.CPUs (govmmQemu.Config_SMP (qemuConfig (me w)))
  + N.of_nat (length (cpus (hotplugCPUs h 5 addDevice w).2))
  ≤ DefaultMaxVCPUs (config (me w)).
Proof.
  cbv zeta.
  apply (hotplugCPUs_within_max (okHost [freeCPU 6; freeCPU 7; freeCPU 8]) 5 addDevice
           (world (runningQemu 6 8 [] []))).
  - reflexivity.
  - reflexivity.
  - vm_compute. discriminate.
Defined.

(** Without the proviso the maximum is exceeded: the sum of the vCPUs
    and the request wraps around, passes the check against
    [DefaultMaxVCPUs], and every hotpluggable CPU is added. *)
Example hotplugCPUs_request_wraps :
  let w := world (runningQemu 1 2 [] []) in
  let h := okHost [freeCPU 1; freeCPU 2; freeCPU 3] in
  length (cpus (hotplugCPUs h (2 ^ 32 - 1) addDevice w).2) = 3%nat.
Proof. vm_compute. reflexivity. Qed.

(** X7.  [hotplugAddCPUs] tries the hotpluggable CPUs in the order in
    which QEMU lists them and never one that is in use (one with a QOM
    path): the CPUs of its [device_add] commands, by driver and core,
    are a prefix of the free CPUs of the list; and the list of the
    hot-plugged vCPUs grows by no more than the commands sent.  When
    every CPU QEMU lists is in use, nothing is sent and nothing added. *)
Theorem hotplugAddCPUs_tries_free_in_order (h : Host) (amount : N) (w : World) :
  amount < 2 ^ 32 →
  let r := hotplugAddCPUs h amount w in
  ∃ new t : list Event,
    trace r.2 = trace w ++ new ∧
    omap cpuOf (qmpCmds new)
      `prefix_of` map cpuKey (filter (λ hc, govmmQemu.QOMPath hc = "")
                                (hotpluggableCPUs h t)) ∧
    (length (cpus r.2) ≤ length (cpus w) + length (omap cpuOf (qmpCmds new)))%nat ∧
    ((∀ t, Forall (λ hc, govmmQemu.QOMPath hc ≠ "") (hotpluggableCPUs h t)) →
     omap cpuOf (qmpCmds new) = [] ∧ cpus r.2 = cpus w ∧ r.1.1 = 0).
Proof.
  intros H32 r.
  destruct (hotplugAddCPUs_effect h amount w H32)
    as (added & new & t & Ha & Hr & _ & _ & _ & Ht & Hpfx & Hlen & _).
  fold r in Ha, Hr, Ht. exists new, t. split_and!; auto.
  - rewrite Ha, length_app. lia.
  - intros Hbusy.
    assert (Hnone : filter (λ hc, govmmQemu.QOMPath hc = "") (hotpluggableCPUs h t) = []).
    { specialize (Hbusy t). clear -Hbusy.
      induction Hbusy as [|hc l Hhc _ IH]; [reflexivity|].
      rewrite filter_cons, decide_False by assumption. exact IH. }
    rewrite Hnone in Hpfx. apply prefix_nil_inv in Hpfx.
    rewrite Hpfx in Hlen. simpl in Hlen.
    assert (added = []) as -> by (destruct added; [reflexivity | simpl in Hlen; lia]).
    rewrite app_nil_r in Ha. simpl in Hr. auto.
Qed.

Lemma hotplugAddCPUs_tries_free_in_order_witness :
  let w := world (runningQemu 1 8 [] []) in
  let h := okHost [freeCPU 1; freeCPU 2; freeCPU 3] in
  let r := hotplugAddCPUs h 2 w in
  ∃ new t : list Event,
    trace r.2 = trace w ++ new ∧
    omap cpuOf (qmpCmds new)
      `prefix_of` map cpuKey (filter (λ hc, govmmQemu.QOMPath hc = "")
                                (hotpluggableCPUs h t)) ∧
    (length (cpus r.2) ≤ length (cpus w) + length (omap cpuOf (qmpCmds new)))%nat ∧
    ((∀ t, Forall (λ hc, govmmQemu.QOMPath hc ≠ "") (hotpluggableCPUs h t)) →
     omap cpuOf (qmpCmds new) = [] ∧ cpus r.2 = cpus w ∧ r.1.1 = 0).
Proof.
  apply (hotplugAddCPUs_tries_free_in_order (okHost [freeCPU 1; freeCPU 2; freeCPU 3]) 2
           (world (runningQemu 1 8 [] []))).
  reflexivity.
Defined.

(** X8.  On the machine types [pseries] and [s390-ccw-virtio] no
    [device_add] of a vCPU carries a socket, a die or a thread id. *)
Theorem hotplugAddCPUs_no_topology (h : Host) (amount : N) (w : World)
    (m : govmmQemu.Machine) :
  amount < 2 ^ 32 →
  ArchBase.machine (arch (me w)) = (m, None) →
  govmmQemu.Machine_Type m = "pseries" ∨ govmmQemu.Machine_Type m = "s390-ccw-virtio" →
  ∃ new : list Event,
    trace (hotplugAddCPUs h amount w).2 = trace w ++ new ∧
    Forall noTopology (qmpCmds new).
Proof.
  intros H32 Hm Hty.
  destruct (hotplugAddCPUs_effect h amount w H32)
    as (added & new & t & _ & _ & _ & _ & _ & Ht & _ & _ & Htop & _).
  exists new. split; [exact Ht|]. eapply Htop; eassumption.
Qed.

Lemma hotplugAddCPUs_no_topology_witness :
  let w := world s390Qemu in
  let h := okHost [freeCPU 1; freeCPU 2] in
  ∃ new : list Event,
    trace (hotplugAddCPUs h 2 w).2 = trace w ++ new ∧
    Forall noTopology (qmpCmds new).
Proof.
  cbv zeta.
  apply (hotplugAddCPUs_no_topology (okHost [freeCPU 1; freeCPU 2]) 2 (world s390Qemu)
           (ArchBase.machine (arch s390Qemu)).1).
  - reflexivity.
  - vm_compute. reflexivity.
  - right. vm_compute. reflexivity.
Defined.

(** ** Resizing the vCPUs *)

Section ResizeVCPUs.
Context `{BridgeCapacity}.

Lemma hotplugDevice_cpuDev (h : Host) (n : N) (op : operation) (w : World) :
  let r0 := hotplugCPUs h n op w in
  hotplugDevice h (cpuDev n) op w = ((uint32Data r0.1.1, r0.1.2, cpuDev n), r0.2).
Proof.
  unfold hotplugDevice. munfold.
  destruct (hotplugCPUs h n op w) as [[k err] w1]. reflexivity.
Qed.

Lemma hotplugAddDevice_cpuDev (h : Host) (n : N) (w : World) :
  let r0 := hotplugCPUs h n addDevice w in
  let r := hotplugAddDevice h (cpuDev n) w in
  r.1.1.1 = uint32Data r0.1.1 ∧ cpus r.2 = cpus r0.2 ∧
  (r.1.1.2 = None → r0.1.2 = None) ∧
  ∃ new, trace r.2 = trace r0.2 ++ new ∧ qmpCmds new = [].
Proof.
  cbv zeta. unfold hotplugAddDevice. munfold. rewrite hotplugDevice_cpuDev.
  destruct (hotplugCPUs h n addDevice w) as [[k [e|]] w1]; simpl.
  - split_and!; auto; try discriminate. exists []. now rewrite app_nil_r.
  - destruct (storeState_spec h w1) as (new & Ht & Hq & _ & Hc & _).
    destruct (storeState h w1) as [err w2]. simpl in *. split_and!; eauto.
Qed.

Lemma hotplugRemoveDevice_cpuDev (h : Host) (n : N) (w : World) :
  let r0 := hotplugCPUs h n removeDevice w in
  let r := hotplugRemoveDevice h (cpuDev n) w in
  r.1.1.1 = uint32Data r0.1.1 ∧ cpus r.2 = cpus r0.2 ∧
  (r.1.1.2 = None → r0.1.2 = None) ∧
  ∃ new, trace r.2 = trace r0.2 ++ new ∧ qmpCmds new = [].
Proof.
  cbv zeta. unfold hotplugRemoveDevice. munfold. rewrite hotplugDevice_cpuDev.
  destruct (hotplugCPUs h n removeDevice w) as [[k [e|]] w1]; simpl.
  - split_and!; auto; try discriminate. exists []. now rewrite app_nil_r.
  - destruct (storeState_spec h w1) as (new & Ht & Hq & _ & Hc & _).
    destruct (storeState h w1) as [err w2]. simpl in *. split_and!; eauto.
Qed.

(** What [hotplugCPUs] does to the list, for a request that is not 0. *)
Lemma hotplugCPUs_add (h : Host) (vcpus : N) (w : World) :
  vcpus < 2 ^ 32 →
  let r := hotplugCPUs h vcpus addDevice w in
  let amount' := if exceedsMax (me w) vcpus
                 then sub32 (DefaultMaxVCPUs (config (me w))) (currentVCPUs (me w))
                 else vcpus in
  ∃ added : list CPUDevice,
    cpus r.2 = cpus w ++ added ∧
    r.1.1 = N.of_nat (length added) ∧
    (r.1.2 = None → vcpus ≠ 0 → r.1.1 = amount').
Proof.
  intros H32. cbv zeta. unfold hotplugCPUs.
  case_bool_decide as Hz.
  { exists []. simpl. rewrite app_nil_r. split_and!; auto. congruence. }
  munfold.
  destruct (qmpSetup_spec h w) as (new & _ & _ & _ & Hst & _ & Hcf & _).
  destruct (qmpSetup_keeps h w) as (Hqc & _).
  destruct (qmpSetup h w) as [[e|] w1] eqn:Hs; simpl in Hst, Hcf, Hqc; simpl.
  { exists []. simpl. rewrite app_nil_r, Hst. split_and!; auto. discriminate. }
  destruct (hotplugAddCPUs_effect h vcpus w1 H32)
    as (added & new1 & t & Ha & Hr & _ & _ & Hok & _).
  exists added. rewrite Ha, Hst. split_and!; auto.
  intros Herr _. rewrite (Hok Herr).
  unfold exceedsMax, currentVCPUs. now rewrite Hqc, Hst, Hcf.
Qed.

Lemma hotplugCPUs_remove (h : Host) (vcpus : N) (w : World) :
  let r := hotplugCPUs h vcpus removeDevice w in
  ∃ k : nat,
    (k ≤ length (cpus w))%nat ∧
    r.1.1 = N.of_nat k ∧
    cpus r.2 = take (length (cpus w) - k) (cpus w) ∧
    (r.1.2 = None → N.of_nat k = vcpus) ∧
    (uint32 (N.of_nat (length (cpus w))) < vcpus →
     is_Some r.1.2 ∧ k = 0%nat ∧
     ∃ new, trace r.2 = trace w ++ new ∧
            Forall (λ c, c = ExecuteQMPCapabilities) (qmpCmds new)).
Proof.
  cbv zeta. unfold hotplugCPUs.
  case_bool_decide as Hz.
  { exists 0%nat. simpl. rewrite Nat.sub_0_r, firstn_all. split_and!; auto; lia. }
  munfold.
  destruct (qmpSetup_spec h w) as (new & Ht & Hcaps & _ & Hst & _).
  destruct (qmpSetup h w) as [[e|] w1] eqn:Hs; simpl in Hst, Ht; simpl.
  { exists 0%nat. rewrite Nat.sub_0_r, firstn_all, Hst.
    split_and!; auto; try lia; try discriminate.
    intros _. split_and!; eauto. }
  destruct (hotplugRemoveCPUs_effect h vcpus w1)
    as (k & new1 & Hk & Hr & Hc & Ht1 & Hok & Hguard).
  cbv zeta in *. rewrite Hst in *. exists k. split_and!; auto.
  intros Hlt. destruct (Hguard Hlt) as [Hw Herr]. split; [assumption|].
  rewrite Hw in *. split.
  - rewrite Hst in Hc.
    assert (Hl : length (cpus w) = length (take (length (cpus w) - k) (cpus w)))
      by now rewrite <- Hc.
    rewrite length_take in Hl. lia.
  - exists new. auto.
Qed.

Lemma uint32_add_idemp (a b : N) : uint32 (uint32 a + b) = uint32 (a + b).
Proof. unfold uint32. apply N.Div0.add_mod_idemp_l. Qed.

Lemma uint32_add_idemp_r (a b : N) : uint32 (a + uint32 b) = uint32 (a + b).
Proof. unfold uint32. apply N.Div0.add_mod_idemp_r. Qed.

Lemma sub32_uint32 (x k : N) : k ≤ x → k < 2 ^ 32 → sub32 (uint32 x) k = uint32 (x - k).
Proof.
  intros Hk H32. unfold sub32. rewrite (uint32_small k) by assumption.
  unfold uint32.
  pose proof (N.div_mod x (2 ^ 32) ltac:(lia)) as Hx.
  pose proof (N.mod_lt x (2 ^ 32) ltac:(lia)) as Hm.
  rewrite <- (N.Div0.mod_add (x `mod` 2 ^ 32 + 2 ^ 32 - k) (x / 2 ^ 32) (2 ^ 32)).
  rewrite <- (N.Div0.mod_add (x - k) 1 (2 ^ 32)).
  f_equal. set (d := x / 2 ^ 32) in *. set (m := x `mod` 2 ^ 32) in *.
  change (2 ^ 32) with 4294967296 in *. lia.
Qed.

(** X9.  The counts [resizeVCPUs] returns agree with the list of the
    hot-plugged vCPUs: the first is the number of vCPUs before the call
    (those of the configuration plus the hot-plugged ones); without an
    error the second is the number of vCPUs after the call; with an
    error the second repeats the first, whatever was added or removed;
    and a request for the current number does nothing. *)
Theorem resizeVCPUs_counts (h : Host) (reqVCPUs : N) (w : World) :
  let r := resizeVCPUs h reqVCPUs w in
  let boot := NumVCPUs (config (me w)) in
  r.1.1.1 = uint32 (boot + N.of_nat (length (cpus w))) ∧
  (is_Some r.1.2 → r.1.1.2 = r.1.1.1) ∧
  (r.1.2 = None → r.1.1.2 = uint32 (boot + N.of_nat (length (cpus r.2)))) ∧
  (reqVCPUs = r.1.1.1 → r = ((reqVCPUs, reqVCPUs, None), w)).
Proof.
  intros r boot. subst r. unfold resizeVCPUs. munfold. cbn [me trace fst snd].
  fold boot. rewrite uint32_add_idemp_r.
  set (cur := uint32 (boot + N.of_nat (length (cpus w)))).
  assert (Hcur : cur < 2 ^ 32) by apply uint32_lt.
  case_bool_decide as Hgrow.
  - (* more vCPUs are asked for *)
    destruct (hotplugAddDevice_cpuDev h (sub32 reqVCPUs cur) w)
      as (Hdata & Hc & Herr & _).
    destruct (hotplugCPUs_add h (sub32 reqVCPUs cur) w (sub32_lt _ _))
      as (added & Ha & Hr & _).
    cbv zeta in *.
    destruct (hotplugAddDevice h (cpuDev (sub32 reqVCPUs cur)) w)
      as [[[data err] dev] w2] eqn:Hadd.
    cbn [fst snd] in *. subst data.
    destruct err as [e|]; cbn [fst snd].
    + split_and!; auto; try discriminate; try lia.
    + split_and!; auto; try (intros [x Hx]; discriminate); try lia.
      intros _. rewrite Hc, Ha, length_app, Hr. subst cur.
      rewrite uint32_add_idemp. f_equal. lia.
  - case_bool_decide as Hshrink.
    + (* fewer vCPUs are asked for *)
      destruct (hotplugRemoveDevice_cpuDev h (sub32 cur reqVCPUs) w)
        as (Hdata & Hc & Herr & _).
      destruct (hotplugCPUs_remove h (sub32 cur reqVCPUs) w)
        as (k & Hk & Hr & Hcp & Hok & _).
      cbv zeta in *.
      destruct (hotplugRemoveDevice h (cpuDev (sub32 cur reqVCPUs)) w)
        as [[[data err] dev] w2] eqn:Hrm.
      cbn [fst snd] in *. subst data.
      destruct err as [e|]; cbn [fst snd].
      * split_and!; auto; try discriminate; try lia.
      * split_and!; auto; try (intros [x Hx]; discriminate); try lia.
        intros _. rewrite Hc, Hcp, length_take, Hr.
        specialize (Hok (Herr eq_refl)).
        pose proof (sub32_lt cur reqVCPUs) as Hk32.
        subst cur. rewrite sub32_uint32 by lia. f_equal. lia.
    + simpl. split_and!; auto; try (intros [x Hx]; discriminate).
      intros ->. reflexivity.
Qed.

Lemma resizeVCPUs_cases (h : Host) (reqVCPUs : N) (w : World) :
  let r := resizeVCPUs h reqVCPUs w in
  let cur := uint32 (NumVCPUs (config (me w)) + N.of_nat (length (cpus w))) in
  r.1.1.1 = cur ∧
  (is_Some r.1.2 → r.1.1.2 = cur) ∧
  ((cur < reqVCPUs ∧
    ∃ added : list CPUDevice,
      cpus r.2 = cpus w ++ added ∧
      (r.1.2 = None →
       r.1.1.2 = uint32 (cur + N.of_nat (length added)) ∧
       (sub32 reqVCPUs cur ≠ 0 →
        N.of_nat (length added)
        = if exceedsMax (me w) (sub32 reqVCPUs cur)
          then sub32 (DefaultMaxVCPUs (config (me w))) (currentVCPUs (me w))
          else sub32 reqVCPUs cur)))
   ∨ (reqVCPUs < cur ∧
      ∃ k : nat,
        (k ≤ length (cpus w))%nat ∧
        cpus r.2 = take (length (cpus w) - k) (cpus w) ∧
        (r.1.2 = None → N.of_nat k = sub32 cur reqVCPUs ∧ r.1.1.2 = sub32 cur (N.of_nat k)) ∧
        (uint32 (N.of_nat (length (cpus w))) < sub32 cur reqVCPUs →
         is_Some r.1.2 ∧ k = 0%nat ∧
         ∃ new, trace r.2 = trace w ++ new ∧
                Forall (λ c, c = ExecuteQMPCapabilities) (qmpCmds new)))
   ∨ (reqVCPUs = cur ∧ r = ((cur, cur, None), w))).
Proof.
  intros r cur. subst r. unfold resizeVCPUs. munfold. cbn [me trace fst snd].
  rewrite uint32_add_idemp_r. fold cur.
  assert (Hcur : cur < 2 ^ 32) by apply uint32_lt.
  case_bool_decide as Hgrow.
  - destruct (hotplugAddDevice_cpuDev h (sub32 reqVCPUs cur) w)
      as (Hdata & Hc & Herr & _).
    destruct (hotplugCPUs_add h (sub32 reqVCPUs cur) w (sub32_lt _ _))
      as (added & Ha & Hr & Hok).
    cbv zeta in *.
    destruct (hotplugAddDevice h (cpuDev (sub32 reqVCPUs cur)) w)
      as [[[data err] dev] w2] eqn:Hadd.
    cbn [fst snd] in *. subst data. rewrite Ha in Hc.
    destruct err as [e|]; cbn [fst snd].
    + split_and!; auto. left. split; [assumption|]. exists added.
      split; [assumption|discriminate].
    + split_and!; auto; try (intros [x Hx]; discriminate).
      left. split; [assumption|]. exists added. split; [assumption|].
      intros _. rewrite Hr. split; [reflexivity|].
      intros Hnz. rewrite <- Hr. apply Hok; auto.
  - case_bool_decide as Hshrink.
    + destruct (hotplugRemoveDevice_cpuDev h (sub32 cur reqVCPUs) w)
        as (Hdata & Hc & Herr & new2 & Ht2 & Hq2).
      destruct (hotplugCPUs_remove h (sub32 cur reqVCPUs) w)
        as (k & Hk & Hr & Hcp & Hok & Hguard).
      cbv zeta in *.
      destruct (hotplugRemoveDevice h (cpuDev (sub32 cur reqVCPUs)) w)
        as [[[data err] dev] w2] eqn:Hrm.
      cbn [fst snd] in *. subst data. rewrite Hcp in Hc.
      assert (Htrace : uint32 (N.of_nat (length (cpus w))) < sub32 cur reqVCPUs →
                k = 0%nat ∧
                ∃ new, trace w2 = trace w ++ new ∧
                       Forall (λ c, c = ExecuteQMPCapabilities) (qmpCmds new)).
      { intros Hlt. destruct (Hguard Hlt) as (_ & Hk0 & new & Ht & Hcaps).
        split; [assumption|]. exists (new ++ new2).
        rewrite Ht2, Ht, <- app_assoc. split; [reflexivity|].
        rewrite qmpCmds_app, Hq2, app_nil_r. assumption. }
      destruct err as [e|]; cbn [fst snd].
      * split_and!; auto. right. left. split; [assumption|]. exists k.
        split_and!; auto; try discriminate;
          intros Hlt; destruct (Htrace Hlt); split_and!; eauto.
      * split_and!; auto; try (intros [x Hx]; discriminate).
        right. left. split; [assumption|]. exists k.
        specialize (Hok (Herr eq_refl)).
        split; [assumption|]. split; [assumption|].
        split; [intros _; rewrite Hr; auto|].
        intros Hlt. destruct (Hguard Hlt) as ([x Hx] & _).
        rewrite (Herr eq_refl) in Hx. discriminate.
    + simpl. split_and!; auto; try (intros [x Hx]; discriminate).
      right. right. assert (reqVCPUs = cur) as -> by lia. auto.
Qed.



(** X11.  [resizeVCPUs] does not go below the vCPUs the VM was
    configured with: a request for fewer returns an error, repeats the
    current count, leaves the hot-plugged vCPUs as they are, and sends
    QEMU no [device_del] (nothing but the negotiation of a QMP session
    not yet open). *)
Theorem resizeVCPUs_below_boot (h : Host) (reqVCPUs : N) (w : World) :
  let boot := NumVCPUs (config (me w)) in
  let r := resizeVCPUs h reqVCPUs w in
  boot + N.of_nat (length (cpus w)) < 2 ^ 32 →
  reqVCPUs < boot →
  is_Some r.1.2 ∧ r.1.1.2 = r.1.1.1 ∧ cpus r.2 = cpus w ∧
  ∃ new, trace r.2 = trace w ++ new ∧
         Forall (λ c, c = ExecuteQMPCapabilities) (qmpCmds new).
Proof.
  intros boot r Hfit Hreq.
  destruct (resizeVCPUs_cases h reqVCPUs w) as (Hcur & Herr & Hcases).
  fold r in Hcur, Herr, Hcases. fold boot in Hcur, Herr, Hcases. cbv zeta in *.
  rewrite (uint32_small (boot + N.of_nat (length (cpus w)))) in * by lia.
  destruct Hcases as [(Hgrow & _)|[(Hshrink & k & Hk & Hc & _ & Hguard)|(-> & _)]];
    [lia | | lia].
  destruct Hguard as (Hsome & -> & new & Ht & Hcaps).
  { rewrite sub32_small by lia. rewrite uint32_small by lia. lia. }
  rewrite Nat.sub_0_r, firstn_all in Hc.
  split_and!; eauto. rewrite Hcur. auto.
Qed.


End ResizeVCPUs.


Lemma resizeVCPUs_below_boot_witness :
  let w := world (runningQemu 1 4 [cpuIDAt 0] []) in
  let h := okHost [] in
  let r := resizeVCPUs (H := busCapacity) h 0 w in
  is_Some r.1.2 ∧ r.1.1.2 = r.1.1.1 ∧ cpus r.2 = cpus w ∧
  ∃ new, trace r.2 = trace w ++ new ∧
         Forall (λ c, c = ExecuteQMPCapabilities) (qmpCmds new).
Proof.
  cbv zeta.
  apply (resizeVCPUs_below_boot (H := busCapacity) (okHost []) 0
           (world (runningQemu 1 4 [cpuIDAt 0] []))).
  - reflexivity.
  - reflexivity.
Defined.

(** ** Hot plugging of memory *)

(** [calcHotplugMemMiBSize] on the largest request: the product wraps
    around and the size returned is 0. *)
Example calcHotplugMemMiBSize_wraps :
  calcHotplugMemMiBSize (2 ^ 32 - 1) (2 ^ 31) = (0, None).
Proof. reflexivity. Qed.


(** X12.  [calcHotplugMemMiBSize] never fails; without a section size
    it returns the request; otherwise, unless request plus section size
    exceed the range of a [uint32] (the product then wraps around), it
    returns the least multiple of the section size that is not below
    the request. *)
Theorem calcHotplugMemMiBSize_aligned (mem memorySectionSizeMB : N) :
  let r := calcHotplugMemMiBSize mem memorySectionSizeMB in
  r.2 = None ∧
  (memorySectionSizeMB = 0 → r.1 = mem) ∧
  (memorySectionSizeMB ≠ 0 → mem + memorySectionSizeMB ≤ 2 ^ 32 →
   mem ≤ r.1 < mem + memorySectionSizeMB ∧ r.1 `mod` memorySectionSizeMB = 0 ∧
   ∀ m, mem ≤ m → m `mod` memorySectionSizeMB = 0 → r.1 ≤ m).
Proof.
  cbv zeta. unfold calcHotplugMemMiBSize.
  case_bool_decide as Hz; simpl; [split_and!; auto; congruence|].
  split_and!; auto; [congruence|]. intros _ Hfit.
  pose proof (N.div_mod mem memorySectionSizeMB Hz) as Hdm.
  pose proof (N.mod_lt mem memorySectionSizeMB Hz) as Hlt.
  set (d := mem / memorySectionSizeMB) in *. set (m0 := mem `mod` memorySectionSizeMB) in *.
  assert (Hval : uint32 ((if bool_decide (m0 = 0) then d else d + 1) * memorySectionSizeMB)
                 = (if bool_decide (m0 = 0) then d else d + 1) * memorySectionSizeMB).
  { apply uint32_small. case_bool_decide; nia. }
  rewrite Hval. split_and!.
  - case_bool_decide; nia.
  - case_bool_decide; nia.
  - apply N.Div0.mod_mul.
  - intros m Hm Hmod.
    pose proof (N.div_mod m memorySectionSizeMB Hz) as Hdm'. rewrite Hmod in Hdm'.
    set (d' := m / memorySectionSizeMB) in *.
    assert (Hd : (if bool_decide (m0 = 0) then d else d + 1) ≤ d').
    { case_bool_decide; nia. }
    nia.
Qed.


(** The trace of the goal is the one before, followed by events the
    existential is to be filled with. *)
Ltac trace_grows :=
  first
    [ rewrite <- ?app_assoc; reflexivity
    | symmetry; apply app_nil_r ].







(** ** Resizing the memory *)




Section ResizeMemory.
Context `{BridgeCapacity}.




End ResizeMemory.

Example resizeMemory_grow_and_shrink :
  let r := resizeMemory (H := busCapacity) (okHost []) 2100 128 false (world pcQemu) in
  let r' := resizeMemory (H := busCapacity) (okHost []) 1024 128 false r.2 in
  r.1.1.1 = 2176 ∧ r.1.2 = None ∧ sizeMB r.1.1.2 = 128%Z ∧
  HotpluggedMemory (state (me r.2)) = 128%Z ∧
  r'.1.1.1 = 2176 ∧ r'.1.2 = None ∧ HotpluggedMemory (state (me r'.2)) = 128%Z.
Proof. vm_compute. split_and!; reflexivity. Qed.

(** ** The launch configuration that [createSandbox] leaves *)

Lemma buildDevices_keeps (h : Host) (p : string) (w : World) :
  ∃ a, me (buildDevices h p w).2 = set_arch (me w) a.
Proof.
  unfold buildDevices. munfold. simpl.
  assert (Hsame : ∃ a, me w = set_arch (me w) a).
  { exists (arch (me w)). now destruct (me w). }
  repeat (break_match; simpl in * ); eauto.
Qed.

Lemma createSandbox_config_result (h : Host) (machine : govmmQemu.Machine)
    (smp : govmmQemu.SMP) (memory : govmmQemu.Memory) (knobs : govmmQemu.Knobs)
    (kernel : govmmQemu.Kernel) (incoming : govmmQemu.Incoming) (p : string)
    (w : World) :
  let r := createSandbox_config h machine smp memory knobs kernel incoming p w in
  let c := qemuConfig (me r.2) in
  r.1 = None →
  config (me r.2) = config (me w) ∧ id (me r.2) = id (me w) ∧
  state (me r.2) = state (me w) ∧
  UUID (state (me w)) ≠ "" ∧
  govmmQemu.Config_Name c = "sandbox-" +:+ id (me w) ∧
  govmmQemu.Config_UUID c = UUID (state (me w)) ∧
  govmmQemu.Config_Machine c = machine ∧
  govmmQemu.Config_SMP c = smp ∧
  govmmQemu.Config_Memory c = memory ∧
  govmmQemu.Config_Knobs c = knobs ∧
  govmmQemu.Config_Kernel c = kernel ∧
  govmmQemu.Config_Incoming c = incoming ∧
  list.last (govmmQemu.Config_Devices c)
  = Some (govmmQemu.RngDevice rngID (EntropySource (config (me w)))) ∧
  ∃ sock, qmpSocketPath h (id (me w)) = (sock, None) ∧
          qmpMonitorCh (me r.2) = {| path := sock; qmp := false |} ∧
          map govmmQemu.QMPSocket_Name (govmmQemu.Config_QMPSockets c) = [sock].
Proof.
  cbv zeta. unfold createSandbox_config, createQmpSocket. munfold. cbn [me trace].
  case_bool_decide as Hu; [discriminate|].
  destruct (qmpSocketPath h (id (me w))) as [sock [e|]] eqn:Hsock; cbn [fst snd me trace];
    [discriminate|].
  set (w1 := {| me := set_qmpMonitorCh (me w) {| path := sock; qmp := false |};
                trace := trace w |}).
  destruct (buildDevices_keeps h p w1) as [a Ha].
  destruct (buildDevices h p w1) as [[[devices ioThread] err] w2] eqn:Hb.
  cbn [fst snd] in Ha. destruct err as [e|]; cbn [fst snd me trace]; [discriminate|].
  rewrite Ha. subst w1. cbn [me config set_arch set_qmpMonitorCh].
  destruct (FirmwareAssetPath h (config (me w))) as [fw [e|]]; cbn [fst snd];
    [discriminate|].
  destruct (qemuPath h _) as [qp [e|]]; cbn [fst snd]; [discriminate|].
  intros _. simpl. rewrite ?Ha. simpl.
  split_and!; auto; try apply last_snoc. eauto.
Qed.

Lemma createSandbox_success (h : Host) (id0 : string) (hc : HypervisorConfig)
    (vcStore : bool) (w : World) :
  let r := createSandbox h id0 hc vcStore w in
  let c := qemuConfig (me r.2) in
  let k := govmmQemu.Config_Knobs c in
  let tmpl := BootToBeTemplate hc || BootFromTemplate hc in
  let fb := bool_decide (SharedFS hc = config.VirtioFS)
            || bool_decide (FileBackedMemRootDir hc ≠ "") in
  r.1 = None →
  (config (me r.2) = hc ∧ id (me r.2) = id0 ∧
   govmmQemu.Config_Name c = "sandbox-" +:+ id0 ∧
   govmmQemu.Config_UUID c = UUID (state (me r.2)) ∧
   govmmQemu.Config_UUID c ≠ "" ∧
   govmmQemu.Config_SMP c = ArchBase.cpuTopology (NumVCPUs hc) (DefaultMaxVCPUs hc) ∧
   list.last (govmmQemu.Config_Devices c)
   = Some (govmmQemu.RngDevice rngID (EntropySource hc)) ∧
   ∃ sock, qmpSocketPath h id0 = (sock, None) ∧
           qmpMonitorCh (me r.2) = {| path := sock; qmp := false |} ∧
           map govmmQemu.QMPSocket_Name (govmmQemu.Config_QMPSockets c) = [sock]) ∧
  (tmpl && fb = false ∧
   govmmQemu.Config_Incoming c
   = {| govmmQemu.Incoming_MigrationType :=
          if BootFromTemplate hc then govmmQemu.MigrationDefer
          else govmmQemu.MigrationNone |} ∧
   govmmQemu.HugePages k = HugePages hc ∧
   (tmpl = true →
    govmmQemu.FileBackedMem k = true ∧ govmmQemu.MemShared k = BootToBeTemplate hc ∧
    govmmQemu.Path (govmmQemu.Config_Memory c) = MemoryPath hc ∧
    govmmQemu.MemPrealloc k = MemPrealloc hc) ∧
   (tmpl = false → fb = true → osStat h (fileBackedMemTarget hc) = None →
    govmmQemu.FileBackedMem k = true ∧ govmmQemu.MemShared k = true ∧
    govmmQemu.Path (govmmQemu.Config_Memory c) = fileBackedMemTarget hc ∧
    govmmQemu.MemPrealloc k = MemPrealloc hc || HugePages hc) ∧
   (tmpl = false → fb = false →
    govmmQemu.FileBackedMem k = false ∧ govmmQemu.MemShared k = false ∧
    govmmQemu.Path (govmmQemu.Config_Memory c) = "" ∧
    govmmQemu.MemPrealloc k = MemPrealloc hc)) ∧
  (∃ hostMemMb, hostMemMB h = (hostMemMb, None) ∧
     govmmQemu.Size (govmmQemu.Config_Memory c) = fmt.Sprintf_d (MemorySize hc) +:+ "M" ∧
     govmmQemu.MaxMem (govmmQemu.Config_Memory c) = fmt.Sprintf_d hostMemMb +:+ "M" ∧
     govmmQemu.Slots (govmmQemu.Config_Memory c) = MemSlots hc `mod` 256).
Proof.
  cbv zeta.
  pose proof (setup_spec h id0 hc vcStore w) as [_ Hok]. cbv zeta in Hok.
  unfold createSandbox, memoryTopology, setupTemplate, setupFileBackedMem, cpuTopology.
  munfold.
  destruct (setup h id0 hc vcStore w) as [[e|] w1]; cbn [fst snd] in *; [discriminate|].
  destruct (Hok eq_refl) as [Hc Hid]. cbn [me trace]. rewrite !Hc.
  destruct (getQemuMachine (me w1)) as [machine [e|]]; cbn [fst snd]; [discriminate|].
  destruct (hostMemMB h) as [mem [e|]] eqn:Hmem; cbn [fst snd]; [discriminate|].
  destruct (KernelAssetPath h hc) as [kernelPath [e|]]; cbn [fst snd]; [discriminate|].
  destruct (InitrdAssetPath h hc) as [initrdPath [e|]]; cbn [fst snd]; [discriminate|].
  destruct (BootToBeTemplate hc) eqn:Hb1; destruct (BootFromTemplate hc) eqn:Hb2;
    cbn [orb negb andb fst snd];
    destruct (bool_decide (SharedFS hc = config.VirtioFS)
              || bool_decide (FileBackedMemRootDir hc ≠ "")) eqn:Hfb;
    cbn [orb negb andb fst snd me trace]; try discriminate;
    rewrite ?Hc;
    try (destruct (osStat h (fileBackedMemTarget hc)) as [e|] eqn:Hstat;
         cbn [fst snd me trace]);
    match goal with |- context [createSandbox_config h ?m ?s ?mem ?k ?ker ?inc ?p ?w2] =>
      pose proof (createSandbox_config_result h m s mem k ker inc p w2) as Hres;
      cbv zeta in Hres;
      destruct (createSandbox_config h m s mem k ker inc p w2) as [err w3]
    end;
    cbn [fst snd me trace] in *; intros ->;
    destruct (Hres eq_refl)
      as (Hcf & Hid3 & Hst & Hu & Hname & Huuid & _ & Hsmp & Hm & Hk & _ & Hinc & Hlast
          & sock & Hsock & Hch & Hsocks);
    rewrite Hcf, Hid3, Hname, Huuid, Hst, Hsmp, Hm, Hk, Hinc, Hlast, Hc, Hid;
    rewrite Hc in Hlast; rewrite Hid in Hsock;
    (split; [split_and!; auto; eauto|]);
    (split; [split_and!; auto; try discriminate;
             destruct (HugePages hc); intros; simpl;
             rewrite ?orb_true_r, ?orb_false_r; auto; try discriminate
            | exists mem; split_and!; auto]).
Qed.

(** X16.  A [createSandbox] that returns no error leaves a controller
    that holds the id and the configuration it was given, and a launch
    configuration named [sandbox-<id>], with the UUID of the state,
    which is not empty, with as many vCPUs as [NumVCPUs] and room for
    [DefaultMaxVCPUs], whose last device is the random number generator
    fed from [EntropySource], and with one QMP socket, at the path of
    the monitor channel, on which no session is open yet. *)
Theorem createSandbox_launch_identity (h : Host) (id0 : string) (hc : HypervisorConfig)
    (vcStore : bool) (w : World) :
  let r := createSandbox h id0 hc vcStore w in
  let c := qemuConfig (me r.2) in
  r.1 = None →
  config (me r.2) = hc ∧ id (me r.2) = id0 ∧
  govmmQemu.Config_Name c = "sandbox-" +:+ id0 ∧
  govmmQemu.Config_UUID c = UUID (state (me r.2)) ∧
  govmmQemu.Config_UUID c ≠ "" ∧
  govmmQemu.CPUs (govmmQemu.Config_SMP c) = NumVCPUs hc ∧
  govmmQemu.MaxCPUs (govmmQemu.Config_SMP c) = DefaultMaxVCPUs hc ∧
  list.last (govmmQemu.Config_Devices c)
  = Some (govmmQemu.RngDevice rngID (EntropySource hc)) ∧
  qmp (qmpMonitorCh (me r.2)) = false ∧
  map govmmQemu.QMPSocket_Name (govmmQemu.Config_QMPSockets c)
  = [path (qmpMonitorCh (me r.2))].
Proof.
  intros r c Hok.
  destruct (createSandbox_success h id0 hc vcStore w Hok)
    as ((Hc & Hid & Hname & Huuid & Hne & Hsmp & Hlast & sock & _ & Hch & Hsocks) & _).
  fold r in Hc, Hid, Hname, Huuid, Hne, Hsmp, Hlast, Hch, Hsocks.
  fold c in Hname, Huuid, Hne, Hsmp, Hlast, Hsocks.
  rewrite Hch, Hsmp. simpl. split_and!; auto.
Qed.

Lemma createSandbox_launch_identity_witness :
  let hc := testConfig 8 config.VirtioBlock config.NoSharedFS "" false false false [] in
  let r := createSandbox (createHost "/tmp/xyzabc" "pc") "testSandbox" hc true (world qemu0) in
  let c := qemuConfig (me r.2) in
  config (me r.2) = hc ∧ id (me r.2) = "testSandbox" ∧
  govmmQemu.Config_Name c = "sandbox-" +:+ "testSandbox" ∧
  govmmQemu.Config_UUID c = UUID (state (me r.2)) ∧
  govmmQemu.Config_UUID c ≠ "" ∧
  govmmQemu.CPUs (govmmQemu.Config_SMP c) = NumVCPUs hc ∧
  govmmQemu.MaxCPUs (govmmQemu.Config_SMP c) = DefaultMaxVCPUs hc ∧
  list.last (govmmQemu.Config_Devices c)
  = Some (govmmQemu.RngDevice rngID (EntropySource hc)) ∧
  qmp (qmpMonitorCh (me r.2)) = false ∧
  map govmmQemu.QMPSocket_Name (govmmQemu.Config_QMPSockets c)
  = [path (qmpMonitorCh (me r.2))].
Proof.
  cbv zeta.
  apply (createSandbox_launch_identity (createHost "/tmp/xyzabc" "pc") "testSandbox"
           (testConfig 8 config.VirtioBlock config.NoSharedFS "" false false false [])
           true (world qemu0)).
  vm_compute. reflexivity.
Defined.

(** X17.  How a [createSandbox] that returns no error backs the memory
    of the guest.  Templating and file-backed memory (virtio-fs, or a
    directory for it) never go together.  With templating the memory is
    the file [MemoryPath], shared exactly when the VM is to be a
    template; the incoming migration is deferred exactly when the VM
    boots from a template.  Without templating, with virtio-fs or a
    directory for file-backed memory, and the directory there, the
    memory is a shared file in that directory, preallocated also when
    huge pages are on.  With neither, the memory is not backed by a
    file. *)
Theorem createSandbox_memory_backing (h : Host) (id0 : string) (hc : HypervisorConfig)
    (vcStore : bool) (w : World) :
  let r := createSandbox h id0 hc vcStore w in
  let c := qemuConfig (me r.2) in
  let k := govmmQemu.Config_Knobs c in
  let tmpl := BootToBeTemplate hc || BootFromTemplate hc in
  let fb := bool_decide (SharedFS hc = config.VirtioFS)
            || bool_decide (FileBackedMemRootDir hc ≠ "") in
  r.1 = None →
  tmpl && fb = false ∧
  govmmQemu.Config_Incoming c
  = {| govmmQemu.Incoming_MigrationType :=
         if BootFromTemplate hc then govmmQemu.MigrationDefer
         else govmmQemu.MigrationNone |} ∧
  govmmQemu.HugePages k = HugePages hc ∧
  (tmpl = true →
   govmmQemu.FileBackedMem k = true ∧ govmmQemu.MemShared k = BootToBeTemplate hc ∧
   govmmQemu.Path (govmmQemu.Config_Memory c) = MemoryPath hc ∧
   govmmQemu.MemPrealloc k = MemPrealloc hc) ∧
  (tmpl = false → fb = true → osStat h (fileBackedMemTarget hc) = None →
   govmmQemu.FileBackedMem k = true ∧ govmmQemu.MemShared k = true ∧
   govmmQemu.Path (govmmQemu.Config_Memory c) = fileBackedMemTarget hc ∧
   govmmQemu.MemPrealloc k = MemPrealloc hc || HugePages hc) ∧
  (tmpl = false → fb = false →
   govmmQemu.FileBackedMem k = false ∧ govmmQemu.MemShared k = false ∧
   govmmQemu.Path (govmmQemu.Config_Memory c) = "" ∧
   govmmQemu.MemPrealloc k = MemPrealloc hc).
Proof.
  intros r c k tmpl fb Hok.
  destruct (createSandbox_success h id0 hc vcStore w Hok) as (_ & Hback & _).
  exact Hback.
Qed.

Lemma createSandbox_memory_backing_witness :
  let h := createHost "/tmp/xyzabc" "pc" in
  let hc := testConfig 8 config.VirtioBlock config.VirtioFS "" false false false [] in
  let r := createSandbox h "testSandbox" hc true (world qemu0) in
  let c := qemuConfig (me r.2) in
  let k := govmmQemu.Config_Knobs c in
  let tmpl := BootToBeTemplate hc || BootFromTemplate hc in
  let fb := bool_decide (SharedFS hc = config.VirtioFS)
            || bool_decide (FileBackedMemRootDir hc ≠ "") in
  tmpl && fb = false ∧
  govmmQemu.Config_Incoming c
  = {| govmmQemu.Incoming_MigrationType :=
         if BootFromTemplate hc then govmmQemu.MigrationDefer
         else govmmQemu.MigrationNone |} ∧
  govmmQemu.HugePages k = HugePages hc ∧
  (tmpl = true →
   govmmQemu.FileBackedMem k = true ∧ govmmQemu.MemShared k = BootToBeTemplate hc ∧
   govmmQemu.Path (govmmQemu.Config_Memory c) = MemoryPath hc ∧
   govmmQemu.MemPrealloc k = MemPrealloc hc) ∧
  (tmpl = false → fb = true → osStat h (fileBackedMemTarget hc) = None →
   govmmQemu.FileBackedMem k = true ∧ govmmQemu.MemShared k = true ∧
   govmmQemu.Path (govmmQemu.Config_Memory c) = fileBackedMemTarget hc ∧
   govmmQemu.MemPrealloc k = MemPrealloc hc || HugePages hc) ∧
  (tmpl = false → fb = false →
   govmmQemu.FileBackedMem k = false ∧ govmmQemu.MemShared k = false ∧
   govmmQemu.Path (govmmQemu.Config_Memory c) = "" ∧
   govmmQemu.MemPrealloc k = MemPrealloc hc).
Proof.
  apply (createSandbox_memory_backing (createHost "/tmp/xyzabc" "pc") "testSandbox"
           (testConfig 8 config.VirtioBlock config.VirtioFS "" false false false [])
           true (world qemu0)).
  vm_compute. reflexivity.
Defined.

(** X18.  The memory of the launch configuration that a successful
    [createSandbox] leaves: its size is [MemorySize], its maximum the
    memory of the host, both in MiB, and its slots are [MemSlots] cut to
    eight bits (256 slots become none). *)
Theorem createSandbox_memory_topology (h : Host) (id0 : string) (hc : HypervisorConfig)
    (vcStore : bool) (w : World) :
  let r := createSandbox h id0 hc vcStore w in
  let m := govmmQemu.Config_Memory (qemuConfig (me r.2)) in
  r.1 = None →
  ∃ hostMemMb, hostMemMB h = (hostMemMb, None) ∧
    govmmQemu.Size m = fmt.Sprintf_d (MemorySize hc) +:+ "M" ∧
    govmmQemu.MaxMem m = fmt.Sprintf_d hostMemMb +:+ "M" ∧
    govmmQemu.Slots m = MemSlots hc `mod` 256.
Proof.
  intros r m Hok.
  destruct (createSandbox_success h id0 hc vcStore w Hok) as (_ & _ & Hmem).
  exact Hmem.
Qed.

Lemma createSandbox_memory_topology_witness :
  let h := createHost "/tmp/xyzabc" "pc" in
  let hc := testConfig 8 config.VirtioBlock config.NoSharedFS "" false false false [] in
  let r := createSandbox h "testSandbox" hc true (world qemu0) in
  let m := govmmQemu.Config_Memory (qemuConfig (me r.2)) in
  ∃ hostMemMb, hostMemMB h = (hostMemMb, None) ∧
    govmmQemu.Size m = fmt.Sprintf_d (MemorySize hc) +:+ "M" ∧
    govmmQemu.MaxMem m = fmt.Sprintf_d hostMemMb +:+ "M" ∧
    govmmQemu.Slots m = MemSlots hc `mod` 256.
Proof.
  apply (createSandbox_memory_topology (createHost "/tmp/xyzabc" "pc") "testSandbox"
           (testConfig 8 config.VirtioBlock config.NoSharedFS "" false false false [])
           true (world qemu0)).
  vm_compute. reflexivity.
Defined.

(** ** The QMP session *)

(** X19.  [qmpSetup] returns no error exactly when a session is open
    afterwards.  When it fails the controller is as before, with no
    session open; once it has succeeded, calling it again does nothing.
    It sends QEMU nothing but the negotiation of the capabilities.
    [qmpShutdown] closes the session, keeps the path of the socket, and
    does nothing when called again. *)
Theorem qmpSetup_session (h : Host) (w : World) :
  let r := qmpSetup h w in
  (r.1 = None ↔ qmp (qmpMonitorCh (me r.2)) = true) ∧
  (is_Some r.1 → me r.2 = me w) ∧
  (r.1 = None → qmpSetup h r.2 = (None, r.2)) ∧
  (∃ new, trace r.2 = trace w ++ new ∧
          Forall (λ c, c = ExecuteQMPCapabilities) (qmpCmds new) ∧
          (length (qmpCmds new) ≤ 1)%nat) ∧
  (let s := (qmpShutdown r.2).2 in
   qmp (qmpMonitorCh (me s)) = false ∧
   path (qmpMonitorCh (me s)) = path (qmpMonitorCh (me w)) ∧
   qmpShutdown s = (tt, s)).
Proof.
  cbv zeta. unfold qmpSetup, qmpShutdown. munfold. simpl.
  destruct (qmp (qmpMonitorCh (me w))) eqn:Hq; simpl;
    [|destruct (qmpStart h (trace w) (path (qmpMonitorCh (me w)))) as [e|]; simpl;
      [|match goal with |- context [qmpReply h ?t ExecuteQMPCapabilities] =>
          destruct (qmpReply h t ExecuteQMPCapabilities) as [e|] end; simpl]].
  all: rewrite ?Hq; simpl; rewrite ?Hq; simpl.
  all: split_and!; auto; try tauto; try discriminate;
    try (intros [x Hx]; discriminate); try (split; discriminate);
    try (now destruct w).
  all: eexists; (split; [trace_grows|]); simpl; split; [repeat constructor|lia].
Qed.

(** ** Saving and loading the state *)

Lemma loadBridge_saveBridge (b : types.Bridge) :
  properType (types.Type_ b) → loadBridge (saveBridge b) = b.
Proof.
  unfold properType, loadBridge, saveBridge, types.NewBridge. simpl. intros ->.
  now destruct b.
Qed.

Lemma map_loadBridge_saveBridge (bs : list types.Bridge) :
  Forall (λ b, properType (types.Type_ b)) bs →
  map loadBridge (map saveBridge bs) = bs.
Proof.
  induction 1 as [|b l Hb _ IH]; [reflexivity|]. simpl.
  rewrite loadBridge_saveBridge by assumption. now rewrite IH.
Qed.

Lemma map_cpu_back (l : list CPUDevice) :
  map (λ cpu, {| CPU_ID := persistapi.ID_ cpu |})
    (map (λ cpu, {| persistapi.ID_ := CPU_ID cpu |}) l) = l.
Proof.
  induction l as [|c l IH]; [reflexivity|]. destruct c. simpl. f_equal. exact IH.
Qed.

Lemma save_keeps (h : Host) (QemuHypervisor : string) (w : World) :
  me (save h QemuHypervisor w).2 = me w ∧
  ∃ pid, (save h QemuHypervisor w).1
         = {| persistapi.Pid := pid;
              persistapi.Bridges := map saveBridge (Bridges (arch (me w)));
              persistapi.HotpluggedVCPUs :=
                map (λ cpu, {| persistapi.ID_ := CPU_ID cpu |}) (cpus w);
              persistapi.HotpluggedMemory := HotpluggedMemory (state (me w));
              persistapi.UUID := UUID (state (me w));
              persistapi.HotplugVFIOOnRootBus := State_HotplugVFIOOnRootBus (state (me w));
              persistapi.VirtiofsdPid := VirtiofsdPid (state (me w));
              persistapi.HypervisorType := QemuHypervisor |}.
Proof.
  unfold save, getPids, ArchBase.getBridges. munfold. simpl.
  repeat (break_match; simpl); split; eauto.
Qed.

(** X20.  [load] of what [save] returns brings the state of the saved
    controller back: the UUID, the hot-plugged memory, the flag for VFIO
    on the root bus and the pid of virtiofsd are those of the saved
    controller, and its bridges (slot maps, ids and addresses included)
    and hot-plugged vCPUs are appended, in order, to those the loading
    controller already has.  Loaded into a controller without bridges
    and hot-plugged vCPUs the state is the one [storeState] writes;
    loaded into another, the lists are not replaced but grow.  [save]
    leaves the controller as it is. *)
Theorem load_save (h : Host) (QemuHypervisor : string) (w : World) (q' : qemu) :
  Forall (λ b, properType (types.Type_ b)) (Bridges (arch (me w))) →
  let s := (save h QemuHypervisor w).1 in
  me (save h QemuHypervisor w).2 = me w ∧
  state (load s q')
  = {| State_Bridges := State_Bridges (state q') ++ Bridges (arch (me w));
       HotpluggedVCPUs := HotpluggedVCPUs (state q') ++ cpus w;
       HotpluggedMemory := HotpluggedMemory (state (me w));
       UUID := UUID (state (me w));
       State_HotplugVFIOOnRootBus := State_HotplugVFIOOnRootBus (state (me w));
       VirtiofsdPid := VirtiofsdPid (state (me w)) |} ∧
  (State_Bridges (state q') = [] → HotpluggedVCPUs (state q') = [] →
   state (load s q')
   = set_State_Bridges (state (me w)) (ArchBase.getBridges (arch (me w)))) ∧
  arch (load s q') = arch q' ∧ config (load s q') = config q'.
Proof.
  intros Hwf s. destruct (save_keeps h QemuHypervisor w) as [Hme [pid Hs]].
  subst s. rewrite Hs. unfold load. simpl.
  assert (Hbs : map loadBridge (map saveBridge (Bridges (arch (me w))))
                = Bridges (arch (me w))).
  { now apply map_loadBridge_saveBridge. }
  assert (Hcs : map (λ cpu, {| CPU_ID := persistapi.ID_ cpu |})
                  (map (λ cpu, {| persistapi.ID_ := CPU_ID cpu |}) (cpus w))
                = cpus w).
  { apply map_cpu_back. }
  rewrite Hbs, Hcs. split_and!; auto.
  intros -> ->. simpl. unfold set_State_Bridges, ArchBase.getBridges.
  now destruct (state (me w)).
Qed.

Lemma load_save_witness :
  let w := world (runningQemu 1 8 [cpuIDAt 0] [pciBridge0]) in
  let h := pidFileHost "100" in
  let s := (save h "qemu" w).1 in
  me (save h "qemu" w).2 = me w ∧
  state (load s qemu0)
  = {| State_Bridges := State_Bridges (state qemu0) ++ Bridges (arch (me w));
       HotpluggedVCPUs := HotpluggedVCPUs (state qemu0) ++ cpus w;
       HotpluggedMemory := HotpluggedMemory (state (me w));
       UUID := UUID (state (me w));
       State_HotplugVFIOOnRootBus := State_HotplugVFIOOnRootBus (state (me w));
       VirtiofsdPid := VirtiofsdPid (state (me w)) |} ∧
  (State_Bridges (state qemu0) = [] → HotpluggedVCPUs (state qemu0) = [] →
   state (load s qemu0)
   = set_State_Bridges (state (me w)) (ArchBase.getBridges (arch (me w)))) ∧
  arch (load s qemu0) = arch qemu0 ∧ config (load s qemu0) = config qemu0.
Proof.
  apply (load_save (pidFileHost "100") "qemu"
           (world (runningQemu 1 8 [cpuIDAt 0] [pciBridge0])) qemu0).
  repeat constructor.
Defined.

(** Loading the same state twice doubles the bridges and the vCPUs. *)
Example load_twice :
  let w := world (runningQemu 1 8 [cpuIDAt 0] [pciBridge0]) in
  let s := (save (pidFileHost "100") "qemu" w).1 in
  HotpluggedVCPUs (state (load s (load s qemu0))) = [cpuIDAt 0; cpuIDAt 0] ∧
  length (State_Bridges (state (load s (load s qemu0)))) = 2%nat ∧
  persistapi.Pid s = 100%Z.
Proof. vm_compute. auto. Qed.

(** ** The bridges of a sandbox *)

Lemma appendBridges_range_spec (bs : list types.Bridge) : ∀ idx : Z,
  let r := ArchBase.appendBridges_range bs idx in
  length r.1 = length bs ∧
  (∀ (i : nat) b, bs !! i = Some b →
     r.1 !! i = Some (if bool_decide (types.Type_ b = types.CCW) then b
                      else types.set_Addr b
                             (ArchBase.bridgePCIStartAddr + (idx + Z.of_nat i))%Z)) ∧
  length r.2 = length (filter (λ b, types.Type_ b ≠ types.CCW) bs).
Proof.
  induction bs as [|b bs IH]; intros idx; simpl.
  - split_and!; auto. intros i b Hi. discriminate.
  - specialize (IH (idx + 1)%Z). cbv zeta in IH.
    destruct (ArchBase.appendBridges_range bs (idx + 1)) as [rest devs].
    destruct IH as (Hlen & Hat & Hdevs). simpl in *.
    rewrite filter_cons.
    case_bool_decide as Hccw; simpl.
    + rewrite decide_False by tauto. split_and!; auto.
      intros [|i] b0 Hi; simpl in *.
      * injection Hi as <-. now rewrite bool_decide_true.
      * rewrite (Hat i b0 Hi). case_bool_decide; [reflexivity|].
        do 2 f_equal. lia.
    + rewrite decide_True by assumption. simpl. split_and!; auto.
      intros [|i] b0 Hi; simpl in *.
      * injection Hi as <-. rewrite bool_decide_false by assumption.
        do 2 f_equal. lia.
      * rewrite (Hat i b0 Hi). case_bool_decide; [reflexivity|].
        do 2 f_equal. lia.
Qed.

(** X21.  [appendBridges] gives every bridge that is not a CCW bridge
    the address of its position in the list plus 2, so that no two of
    them share an address; it leaves the CCW bridges, and the type, the
    id and the slots of every bridge, as they are, and appends one
    bridge device for each bridge that is not CCW after the devices it
    was given. *)
Theorem appendBridges_addresses (q : qemuArchBase) (devices : list govmmQemu.Device) :
  let r := ArchBase.appendBridges q devices in
  let bs := Bridges q in
  let bs' := Bridges r.1 in
  length bs' = length bs ∧
  (∀ (i : nat) b', bs' !! i = Some b' →
     ∃ b, bs !! i = Some b ∧
          types.Type_ b' = types.Type_ b ∧ types.ID b' = types.ID b ∧
          types.Address b' = types.Address b ∧
          types.Addr b' = if bool_decide (types.Type_ b = types.CCW) then types.Addr b
                          else (2 + Z.of_nat i)%Z) ∧
  (∀ (i j : nat) bi bj,
     bs' !! i = Some bi → bs' !! j = Some bj →
     types.Type_ bi ≠ types.CCW → types.Type_ bj ≠ types.CCW →
     types.Addr bi = types.Addr bj → i = j) ∧
  ∃ devs, r.2 = devices ++ devs ∧
          length devs = length (filter (λ b, types.Type_ b ≠ types.CCW) bs).
Proof.
  cbv zeta. unfold ArchBase.appendBridges.
  pose proof (appendBridges_range_spec (Bridges q) 0) as Hspec. cbv zeta in Hspec.
  destruct (ArchBase.appendBridges_range (Bridges q) 0) as [bs' devs].
  destruct Hspec as (Hlen & Hat & Hdevs). simpl in *.
  assert (Hback : ∀ (i : nat) b', bs' !! i = Some b' →
            ∃ b, Bridges q !! i = Some b ∧
                 types.Type_ b' = types.Type_ b ∧ types.ID b' = types.ID b ∧
                 types.Address b' = types.Address b ∧
                 types.Addr b' = if bool_decide (types.Type_ b = types.CCW)
                                 then types.Addr b else (2 + Z.of_nat i)%Z).
  { intros i b' Hi.
    assert (Hlt : (i < length (Bridges q))%nat).
    { rewrite <- Hlen. apply lookup_lt_is_Some. eauto. }
    apply lookup_lt_is_Some in Hlt as [b Hb]. exists b. split; [assumption|].
    rewrite (Hat i b Hb) in Hi. injection Hi as <-.
    case_bool_decide; simpl; auto. }
  split_and!; auto.
  - intros i j bi bj Hi Hj Hti Htj Haddr.
    destruct (Hback i bi Hi) as (b1 & _ & Ht1 & _ & _ & Ha1).
    destruct (Hback j bj Hj) as (b2 & _ & Ht2 & _ & _ & Ha2).
    rewrite Ht1 in Hti. rewrite Ht2 in Htj.
    rewrite bool_decide_false in Ha1, Ha2 by assumption. lia.
  - eauto.
Qed.

Lemma newBridges_spec (bt : types.BusType) (count : nat) : ∀ i : N,
  length (newBridges bt i count) = count ∧
  (∀ (k : nat) b, newBridges bt i count !! k = Some b →
     b = types.NewBridge bt (types.Type_name bt +:+ "-bridge-"
                             +:+ fmt.Sprintf_d (i + N.of_nat k)) ∅ 0).
Proof.
  induction count as [|count IH]; intros i; simpl.
  - split; [reflexivity|]. intros k b Hk. discriminate.
  - destruct (IH (i + 1)) as [Hlen Hat]. split; [now rewrite Hlen|].
    intros [|k] b Hk; simpl in Hk.
    + injection Hk as <-. now rewrite N.add_0_r.
    + rewrite (Hat k b Hk).
      replace (i + N.of_nat (S k)) with (i + 1 + N.of_nat k) by lia. reflexivity.
Qed.

Lemma append_inj_l (p s1 s2 : string) : p +:+ s1 = p +:+ s2 → s1 = s2.
Proof.
  induction p as [|c p IH]; simpl; [auto|]. intros [= Heq]. auto.
Qed.

(** X22.  The bridges [bridges] creates: it appends to the bridges of
    the architecture as many PCI bridges as asked for, without devices,
    named [pci-bridge-0], [pci-bridge-1], ..., no two alike; these are
    the bridges [genericBridges] makes for the machine type [pc].
    [genericBridges] makes bridges of the bus type of the machine type
    (PCI for [q35], [pc] and [pseries], PCIe for [virt], CCW for
    [s390-ccw-virtio]), and none for a machine type it does not know. *)
Theorem bridges_creates (q : qemuArchBase) (number : N) :
  let new := genericBridges number QemuPC in
  ArchBase.bridges q number = set_Bridges q (Bridges q ++ new) ∧
  length new = N.to_nat number ∧
  (∀ (k : nat) b, new !! k = Some b →
     b = types.NewBridge types.PCI ("pci-bridge-" +:+ fmt.Sprintf_d (N.of_nat k)) ∅ 0) ∧
  NoDup (map types.ID new) ∧
  (∀ mt b, b ∈ genericBridges number mt →
     types.Address b = ∅ ∧
     types.Type_ b = (if bool_decide (mt = QemuVirt) then types.PCIE
                      else if bool_decide (mt = ArchBase.QemuCCWVirtio) then types.CCW
                      else types.PCI) ∧
     mt ∈ [QemuQ35; QemuPC; QemuVirt; QemuPseries; ArchBase.QemuCCWVirtio]).
Proof.
  cbv zeta.
  assert (Hpc : genericBridges number QemuPC = newBridges types.PCI 0 (N.to_nat number))
    by reflexivity.
  assert (Hsame : ∀ n i, ArchBase.newPCIBridges i n = newBridges types.PCI i n).
  { induction n as [|n IH]; intros i; simpl; [reflexivity|]. now rewrite IH. }
  destruct (newBridges_spec types.PCI (N.to_nat number) 0) as [Hlen Hat].
  rewrite Hpc. split_and!.
  - unfold ArchBase.bridges. now rewrite Hsame.
  - exact Hlen.
  - intros k b Hk. apply Hat in Hk. exact Hk.
  - apply NoDup_alt. intros i j x Hi Hj.
    rewrite list_lookup_fmap in Hi, Hj.
    destruct (newBridges types.PCI 0 (N.to_nat number) !! i) as [bi|] eqn:Hbi;
      [|discriminate].
    destruct (newBridges types.PCI 0 (N.to_nat number) !! j) as [bj|] eqn:Hbj;
      [|discriminate].
    apply Hat in Hbi, Hbj. subst bi bj. simpl in Hi, Hj.
    injection Hi as <-. injection Hj as Hj. simpl in Hj.
    apply Sprintf_d_inj in Hj. lia.
  - intros mt b Hb. unfold genericBridges in Hb.
    assert (Hnew : ∀ bt n, b ∈ newBridges bt 0 n →
              types.Address b = ∅ ∧ types.Type_ b = bt).
    { intros bt n Hin. apply list_elem_of_lookup in Hin as [k Hk].
      apply newBridges_spec in Hk. subst b. auto. }
    destruct (bool_decide (mt = QemuQ35) || bool_decide (mt = QemuPC)) eqn:H1.
    { destruct (Hnew _ _ Hb) as [Ha Ht]; clear Hnew.
      apply orb_true_iff in H1 as [H1|H1]; apply bool_decide_eq_true in H1; subst mt;
        (split_and!; [assumption | rewrite Ht; reflexivity | set_solver]). }
    case_bool_decide as H2.
    { destruct (Hnew _ _ Hb) as [Ha Ht]; clear Hnew. subst mt.
      split_and!; [assumption | rewrite Ht; reflexivity | set_solver]. }
    case_bool_decide as H3.
    { destruct (Hnew _ _ Hb) as [Ha Ht]; clear Hnew. subst mt.
      split_and!; [assumption | rewrite Ht; reflexivity | set_solver]. }
    case_bool_decide as H4.
    { destruct (Hnew _ _ Hb) as [Ha Ht]; clear Hnew. subst mt.
      split_and!; [assumption | rewrite Ht; reflexivity | set_solver]. }
    inversion Hb.
Qed.

(** ** Hot plugging of devices: the slots *)

Section DeviceSlots.
Context `{BridgeCapacity}.

Lemma addDeviceToBridge_cases (q : qemuArchBase) (ID : string) (t : types.BusType) :
  let r := ArchBase.addDeviceToBridge q ID t in
  (is_Some r.1.2 → r.2 = q) ∧
  (r.1.2 = None →
   onBridge ID (Bridges r.2) ∧
   (¬ onBridge ID (Bridges q) → ArchBase.removeDeviceFromBridge r.2 ID = (None, q))).
Proof.
  cbv zeta. unfold ArchBase.addDeviceToBridge, ArchBase.removeDeviceFromBridge.
  destruct (decide (length (Bridges q) = 0%nat)) as [Hz|Hnz]; simpl.
  { split; [reflexivity|discriminate]. }
  destruct (ArchBase.addDeviceToBridge_range (Bridges q) ID t) as [[[s b] [e|]] bs] eqn:Hr;
    simpl.
  - apply addDeviceToBridge_range_fail in Hr as [-> _].
    split; [intros _; apply set_Bridges_same|discriminate].
  - split; [intros [x Hx]; discriminate|]. intros _. split.
    + apply addDeviceToBridge_range_alloc in Hr
        as (i & b0 & a & Hi & _ & _ & _ & _ & -> & -> & _).
      destruct q; simpl in *.
      exists (types.set_Address b0 (<[a:=ID]> (types.Address b0))), a. split.
      * apply list_elem_of_lookup. exists i. apply list_lookup_insert_eq.
        apply lookup_lt_is_Some. eauto.
      * simpl. apply lookup_insert_eq.
    + intros Hno. destruct q; simpl in *.
      now rewrite (addDeviceToBridge_range_release _ _ _ _ _ _ Hno Hr None).
Qed.


Ltac conj_auto :=
  split_and!; auto; try discriminate; try (intros [? ?]; discriminate).

Lemma switch_virtio_blk (h : Host) (drive : config.BlockDrive) (devID : string)
    (w : World) :
  BlockDeviceDriver (config (me w)) = config.VirtioBlock →
  ¬ onBridge (config.ID drive) (Bridges (arch (me w))) →
  let r := hotplugAddBlockDevice_switch h drive devID w in
  (is_Some r.1.2 → arch (me r.2) = arch (me w)) ∧
  (r.1.2 = None → onBridge (config.ID drive) (Bridges (arch (me r.2)))) ∧
  (trace r.2 = trace w ∧ is_Some r.1.2
   ∨ ∃ dev, isDeviceAdd dev = true ∧ trace r.2 = trace w ++ [Qmp dev]).
Proof.
  intros Hdrv Hfresh. cbv zeta.
  unfold hotplugAddBlockDevice_switch, releaseSlotIf, addDeviceToBridge. munfold.
  cbn [me trace fst snd]. rewrite Hdrv.
  pose proof (addDeviceToBridge_cases (arch (me w)) (config.ID drive) types.PCI)
    as [Hfail Halloc]. cbv zeta in Hfail, Halloc.
  destruct (ArchBase.addDeviceToBridge (arch (me w)) (config.ID drive) types.PCI)
    as [[[addr bridge] [e|]] a'] eqn:Hal; cbn [me trace fst snd arch set_arch] in *.
  { rewrite (Hfail ltac:(eauto)). conj_auto; left; eauto. }
  destruct (Halloc eq_refl) as [Hon Hundo]. specialize (Hundo Hfresh).
  match goal with |- context [qmpReply h (trace w) ?c] =>
    set (dev := c); destruct (qmpReply h (trace w) dev) as [e|] eqn:Hdev end;
    cbn [me trace fst snd arch set_arch].
  - change (config.ID (set_PCIAddr drive _)) with (config.ID drive).
    rewrite Hundo. cbn [me trace fst snd arch set_arch].
    conj_auto; right; exists dev; auto.
  - conj_auto; right; exists dev; auto.
Qed.

(** X23.  Hot plugging a block device on [virtio-blk] is undone when it
    fails.  For a drive that occupies no slot: when
    [hotplugBlockDevice] returns an error for the addition, the bridges
    are as they were before the call, and the last thing QEMU was sent
    is the negotiation of the session, or the [blockdev-add] it
    rejected, or the [blockdev-del] that takes the drive back.  When it
    returns no error the drive occupies a slot and the last command is
    the [device_add]. *)
Theorem hotplugBlockDevice_virtio_blk_undone (h : Host) (drive : config.BlockDrive)
    (w : World) :
  BlockDeviceDriver (config (me w)) = config.VirtioBlock →
  ¬ onBridge (config.ID drive) (Bridges (arch (me w))) →
  let r := hotplugBlockDevice h drive addDevice w in
  (is_Some r.1.2 → arch (me r.2) = arch (me w)) ∧
  (r.1.2 = None → onBridge (config.ID drive) (Bridges (arch (me r.2)))) ∧
  ∃ new : list Event,
    trace r.2 = trace w ++ new ∧
    (is_Some r.1.2 →
     Forall (λ c, c = ExecuteQMPCapabilities) (qmpCmds new)
     ∨ (∃ add, rejectedLast h r.2 add ∧ isDeviceAdd add = false)
     ∨ list.last (qmpCmds new) = Some (ExecuteBlockdevDel (config.ID drive))) ∧
    (r.1.2 = None →
     ∃ dev, isDeviceAdd dev = true ∧ list.last (qmpCmds new) = Some dev).
Proof.
  intros Hdrv Hfresh. cbv zeta.
  unfold hotplugBlockDevice. munfold.
  destruct (qmpSetup_spec h w) as (new0 & Ht0 & Hcaps & _ & Hst & Harch & Hcf & _).
  destruct (qmpSetup h w) as [[e|] w1] eqn:Hs; cbn [me trace fst snd] in *.
  { split_and!; auto; try discriminate. exists new0. split_and!; auto. discriminate. }
  unfold hotplugAddBlockDevice, blockdevDelIf. munfold. cbn [me trace fst snd].
  rewrite Hcf, Hdrv. rewrite bool_decide_false by discriminate. cbn [me trace fst snd].
  rewrite <- Harch in Hfresh. rewrite <- Hcf in Hdrv.
  pose (Post := λ (err : option error) (wf : World),
    (is_Some err → arch (me wf) = arch (me w)) ∧
    (err = None → onBridge (config.ID drive) (Bridges (arch (me wf)))) ∧
    ∃ new : list Event,
      trace wf = trace w ++ new ∧
      (is_Some err →
       Forall (λ c, c = ExecuteQMPCapabilities) (qmpCmds new)
       ∨ (∃ add, rejectedLast h wf add ∧ isDeviceAdd add = false)
       ∨ list.last (qmpCmds new) = Some (ExecuteBlockdevDel (config.ID drive))) ∧
      (err = None →
       ∃ dev, isDeviceAdd dev = true ∧ list.last (qmpCmds new) = Some dev)).
  assert (Hrest : ∀ (add : QmpCmd) (w2 : World), isDeviceAdd add = false →
    me w2 = me w1 → trace w2 = trace w1 ++ [Qmp add] →
    ∀ drive' err w3,
      hotplugAddBlockDevice_switch h drive ("virtio-" +:+ config.ID drive) w2
      = (drive', err, w3) →
      Post err (if err is Some _
                then {| me := me w3;
                        trace := trace w3 ++ [Qmp (ExecuteBlockdevDel (config.ID drive))] |}
                else w3)).
  { intros add w2 Hnot Hme2 Ht2 drive' err w3 Hsw. subst Post. cbv beta.
    rewrite <- Hme2 in Hdrv, Hfresh.
    destruct (switch_virtio_blk h drive ("virtio-" +:+ config.ID drive) w2 Hdrv Hfresh)
      as (Hkeep & Hon & Htr). cbv zeta in *. rewrite Hsw in *.
    destruct err as [e|]; cbn [me trace fst snd] in *.
    - rewrite (Hkeep ltac:(eauto)), Hme2, Harch. conj_auto.
      destruct Htr as [[Ht _]|(dev & Hdev & Ht)]; rewrite Ht, Ht2, Ht0;
        (eexists; split; [trace_grows|]); (split; [|discriminate]);
        intros _; right; right; rewrite !qmpCmds_app, !last_app; reflexivity.
    - conj_auto.
      destruct Htr as [[_ [x Hx]]|(dev & Hdev & Ht)]; [discriminate|].
      rewrite Ht, Ht2, Ht0. eexists; split; [trace_grows|].
      split; [intros [x Hx]; discriminate|]. intros _. exists dev. split; [assumption|].
      rewrite !qmpCmds_app, !last_app. reflexivity. }
  assert (Hrej : ∀ (add : QmpCmd) (e : error), isDeviceAdd add = false →
    qmpReply h (trace w1) add = Some e →
    Post (Some e) {| me := me w1; trace := trace w1 ++ [Qmp add] |}).
  { intros add e Hnot Hrep. subst Post. cbv beta. cbn [me trace].
    rewrite Harch. conj_auto. exists (new0 ++ [Qmp add]).
    split; [rewrite Ht0; trace_grows|]. split; [|discriminate].
    intros _. right. left. exists add. split; [|assumption].
    exists (trace w1), [], e. simpl. auto. }
  destruct (BlockDeviceCacheSet (config (me w))); cbn [me trace fst snd];
    match goal with |- context [qmpReply h (trace w1) ?c] =>
      destruct (qmpReply h (trace w1) c) as [e|] eqn:Hadd;
      cbn [me trace fst snd];
      [ apply (Hrej c e eq_refl Hadd)
      | pose proof (Hrest c {| me := me w1; trace := trace w1 ++ [Qmp c] |}
                      eq_refl eq_refl eq_refl) as HP;
        destruct (hotplugAddBlockDevice_switch h drive ("virtio-" +:+ config.ID drive)
                    {| me := me w1; trace := trace w1 ++ [Qmp c] |})
          as [[drive' err] w3];
        specialize (HP _ _ _ eq_refl); destruct err; cbn [me trace fst snd];
        exact HP ]
    end.
Qed.



End DeviceSlots.

Lemma hotplugBlockDevice_virtio_blk_undone_witness :
  let h := rejectHost isDeviceAdd in
  let r := hotplugBlockDevice (H := busCapacity) h drive0 addDevice (world pcQemu) in
  (is_Some r.1.2 → arch (me r.2) = arch pcQemu) ∧
  (r.1.2 = None → onBridge (config.ID drive0) (Bridges (arch (me r.2)))) ∧
  ∃ new : list Event,
    trace r.2 = trace (world pcQemu) ++ new ∧
    (is_Some r.1.2 →
     Forall (λ c, c = ExecuteQMPCapabilities) (qmpCmds new)
     ∨ (∃ add, rejectedLast h r.2 add ∧ isDeviceAdd add = false)
     ∨ list.last (qmpCmds new) = Some (ExecuteBlockdevDel (config.ID drive0))) ∧
    (r.1.2 = None →
     ∃ dev, isDeviceAdd dev = true ∧ list.last (qmpCmds new) = Some dev).
Proof.
  cbv zeta.
  apply (hotplugBlockDevice_virtio_blk_undone (H := busCapacity) (rejectHost isDeviceAdd)
           drive0 (world pcQemu)).
  - reflexivity.
  - intros (b & a & Hb & Ha). apply list_elem_of_singleton in Hb. subst b.
    vm_compute in Ha. discriminate.
Defined.

(** *** Stopping the sandbox *)

Lemma removals_app (t1 t2 : list Event) : removals (t1 ++ t2) = removals t1 ++ removals t2.
Proof. unfold removals. apply omap_app. Qed.

Lemma logLines_trace (lines : list string) (w : World) :
  ∃ new, trace (logLines lines w).2 = trace w ++ new ∧ removals new = [] ∧ qmpCmds new = [].
Proof.
  revert w. induction lines as [|l lines IH]; intros w; simpl.
  - exists []. now rewrite app_nil_r.
  - munfold. simpl.
    destruct (IH {| me := me w; trace := trace w ++ [Log LDebug l] |})
      as (new & Ht & Hr & Hq).
    exists (Log LDebug l :: new). simpl in Ht. rewrite Ht, <- app_assoc. auto.
Qed.

Lemma dumpQemuLog_trace (h : Host) (w : World) :
  ∃ new, trace (dumpQemuLog h w).2 = trace w ++ new ∧ removals new = [] ∧ qmpCmds new = [].
Proof.
  assert (Hnil : ∃ new, trace w = trace w ++ new ∧ removals new = [] ∧ qmpCmds new = []).
  { exists []. now rewrite app_nil_r. }
  unfold dumpQemuLog. munfold. cbn [me trace].
  destruct (Debug (config (me w)) && _); [|exact Hnil].
  destruct (readLog h _) as [[lines [e|]] scanErr]; [exact Hnil|].
  destruct (logLines_trace lines w) as (new & Ht & Hr & Hq).
  destruct (logLines lines w) as [[] w1]. simpl in *.
  destruct scanErr; simpl; [|eauto].
  exists (new ++ [Log LDebug "read qemu log failed"]).
  rewrite Ht, <- app_assoc, removals_app, qmpCmds_app, Hr, Hq. auto.
Qed.

Lemma qmpSetup_no_removal (h : Host) (w : World) :
  ∃ new, trace (qmpSetup h w).2 = trace w ++ new ∧ removals new = [] ∧
         id (me (qmpSetup h w).2) = id (me w) ∧
         config (me (qmpSetup h w).2) = config (me w) ∧
         state (me (qmpSetup h w).2) = state (me w) ∧
         arch (me (qmpSetup h w).2) = arch (me w).
Proof.
  unfold qmpSetup. munfold. simpl.
  destruct (qmp (qmpMonitorCh (me w))) eqn:Hq; simpl.
  - exists []. rewrite app_nil_r. split_and!; auto.
  - destruct (qmpStart h (trace w) (path (qmpMonitorCh (me w)))) as [e|]; simpl.
    + eexists. rewrite <- app_assoc. split; [reflexivity|]. split_and!; auto.
    + match goal with |- context [qmpReply ?h0 ?t ExecuteQMPCapabilities] =>
        destruct (qmpReply h0 t ExecuteQMPCapabilities) as [e|] end; simpl.
      * eexists. rewrite <- !app_assoc. split; [reflexivity|]. split_and!; auto.
      * eexists. rewrite <- !app_assoc. split; [reflexivity|]. split_and!; auto.
Qed.

Lemma stopSandbox_body_spec (h : Host) (w : World) :
  let r := stopSandbox_body h w in
  ∃ new, trace r.2 = trace w ++ new ∧ removals new = [] ∧
         (r.1 = None → list.last (qmpCmds new) = Some ExecuteQuit) ∧
         id (me r.2) = id (me w) ∧ config (me r.2) = config (me w) ∧
         state (me r.2) = state (me w) ∧ arch (me r.2) = arch (me w).
Proof.
  cbv zeta. unfold stopSandbox_body. munfold.
  destruct (dumpQemuLog_trace h w) as (new1 & Ht1 & Hr1 & _).
  pose proof (dumpQemuLog_me h w) as Hme.
  destruct (dumpQemuLog h w) as [[] w1]. cbn [me trace fst snd] in *.
  destruct (qmpSetup_no_removal h w1) as (new2 & Ht2 & Hr2 & Hid & Hc & Hst & Ha).
  destruct (qmpSetup h w1) as [[e|] w2]; cbn [me trace fst snd] in *.
  - exists (new1 ++ new2). rewrite Ht2, Ht1, <- app_assoc, removals_app, Hr1, Hr2.
    split_and!; auto; try discriminate; congruence.
  - match goal with |- context [qmpReply ?h0 ?t ?c] =>
      destruct (qmpReply h0 t c) as [e|] end; cbn [me trace fst snd].
    + eexists (new1 ++ new2 ++ [_; _]).
      rewrite Ht2, Ht1, <- !app_assoc, !removals_app, Hr1, Hr2.
      split_and!; auto; try discriminate; congruence.
    + exists (new1 ++ new2 ++ [Qmp ExecuteQuit]).
      rewrite Ht2, Ht1, <- !app_assoc, !removals_app, Hr1, Hr2.
      split_and!; auto; try congruence.
      intros _. rewrite !app_assoc, qmpCmds_app. simpl. apply last_snoc.
Qed.

(** The directory trees that [cleanupVM] removes: the directory of the
    VM, what it links to when that is another place, and with a VM id
    the two directories of the VM in the store. *)
Lemma cleanupVM_spec (h : Host) (w : World) :
  let r := cleanupVM h w in
  let dir := filepathJoin h [RunVMStoragePath h; id (me w)] in
  let link := (evalSymlinks h (trace w) dir).1 in
  r.1 = None ∧ me r.2 = me w ∧
  ∃ new, trace r.2 = trace w ++ new ∧ qmpCmds new = [] ∧
         removals new
         = dir :: (if bool_decide (link ≠ dir) && bool_decide (link ≠ "") then [link] else [])
               ++ (if bool_decide (VMid (config (me w)) ≠ "")
                   then [SandboxConfigurationRootPath h (VMid (config (me w)));
                         SandboxRuntimeRootPath h (VMid (config (me w)))]
                   else []).
Proof.
  cbv zeta. unfold cleanupVM, removeTree. munfold. cbn [me trace fst snd].
  destruct (evalSymlinks h (trace w) _) as [link err]. cbn [fst snd].
  repeat (break_match; cbn [me trace fst snd] in *).
  all: split; [reflexivity|]; split; [reflexivity|].
  all: eexists; rewrite <- ?app_assoc; (split; [reflexivity|]).
  all: split; reflexivity.
Qed.

(** X26.  Stopping a sandbox that is not stopped yet.  Whatever QEMU
    answers, and also when the QMP session cannot be set up,
    [stopSandbox] marks the sandbox stopped and removes the directory
    of the VM, then what that directory links to when this is another
    place, then, with a VM id in the configuration, the two directories
    of the VM in the store; the removals come after everything it says
    to QEMU, and when it returns no error the last command was [quit].
    The id, the configuration, the state and the bridges are as
    before. *)
Theorem stopSandbox_cleans_up (h : Host) (w : World) :
  stopped (me w) = false →
  let r := stopSandbox h w in
  let dir := filepathJoin h [RunVMStoragePath h; id (me w)] in
  stopped (me r.2) = true ∧
  id (me r.2) = id (me w) ∧ config (me r.2) = config (me w) ∧
  state (me r.2) = state (me w) ∧ arch (me r.2) = arch (me w) ∧
  ∃ (pre post : list Event) (link : string),
    trace r.2 = trace w ++ pre ++ post ∧
    removals pre = [] ∧ qmpCmds post = [] ∧
    removals post
    = dir :: (if bool_decide (link ≠ dir) && bool_decide (link ≠ "") then [link] else [])
          ++ (if bool_decide (VMid (config (me w)) ≠ "")
              then [SandboxConfigurationRootPath h (VMid (config (me w)));
                    SandboxRuntimeRootPath h (VMid (config (me w)))]
              else []) ∧
    (r.1 = None → list.last (qmpCmds pre) = Some ExecuteQuit).
Proof.
  intros Hs. cbv zeta. unfold stopSandbox, stopSandbox_deferred. munfold.
  cbn [me trace]. rewrite Hs.
  match goal with |- context [stopSandbox_body h ?w1] =>
    destruct (stopSandbox_body_spec h w1) as (new & Ht & Hr & Hquit & Hid & Hc & Hst & Ha);
    destruct (stopSandbox_body h w1) as [err w2] end.
  destruct (cleanupVM_spec h w2) as (_ & Hme & post & Htp & Hq & Hrm).
  destruct (cleanupVM h w2) as [x w3]. cbn [me trace fst snd] in *.
  rewrite Hme. cbn [stopped id config state arch set_stopped].
  split_and!; auto.
  rewrite Hid, Hc in Hrm.
  exists (Log LInfo "Stopping Sandbox" :: new), post,
    (evalSymlinks h (trace w2) (filepathJoin h [RunVMStoragePath h; id (me w)])).1.
  split; [rewrite Htp, Ht, <- !app_assoc; reflexivity|].
  split_and!; auto.
Qed.

Lemma stopSandbox_cleans_up_witness :
  let h := deadHost in
  let w := world detachedQemu in
  let r := stopSandbox h w in
  let dir := filepathJoin h [RunVMStoragePath h; id (me w)] in
  stopped (me r.2) = true ∧
  id (me r.2) = id (me w) ∧ config (me r.2) = config (me w) ∧
  state (me r.2) = state (me w) ∧ arch (me r.2) = arch (me w) ∧
  ∃ (pre post : list Event) (link : string),
    trace r.2 = trace w ++ pre ++ post ∧
    removals pre = [] ∧ qmpCmds post = [] ∧
    removals post
    = dir :: (if bool_decide (link ≠ dir) && bool_decide (link ≠ "") then [link] else [])
          ++ (if bool_decide (VMid (config (me w)) ≠ "")
              then [SandboxConfigurationRootPath h (VMid (config (me w)));
                    SandboxRuntimeRootPath h (VMid (config (me w)))]
              else []) ∧
    (r.1 = None → list.last (qmpCmds pre) = Some ExecuteQuit).
Proof.
  cbv zeta. apply (stopSandbox_cleans_up deadHost (world detachedQemu)). reflexivity.
Defined.

